(** * Smart Factory bridge server: telemetry mapping and alert reconciliation

    A shallow embedding of [python-middleware/server.py].  The handler
    [FactoryBridgeHandler] receives a JSON payload, maps it to a telemetry
    record, stores it, and derives alerts from threshold rules.

    Layout: Python values and the builtins the handler relies on; the world
    the handler runs in (the Supabase tables, the clock, the console); the
    handler's methods, one definition per method; then the properties. *)

From Stdlib Require Import ZArith List String Ascii Bool Lia.
From Stdlib Require Import SpecFloat DecimalString.
Import ListNotations.

Set Warnings "-register-all".

Open Scope string_scope.
Open Scope Z_scope.

(** ** Python values *)

(** A Python [float] is an IEEE 754 binary64 number. *)
Definition pyfloat := spec_float.

Definition prec : Z := 53.
Definition emax : Z := 1024.

(** What [json.loads] produces: [None], [bool], [int], [float], [str],
    [list] and [dict] (string keys).  A dict is an association list in
    insertion order, a key being looked up at its first entry. *)
Inductive pyval : Type :=
| PNone
| PBool (b : bool)
| PInt (n : Z)
| PFloat (f : pyfloat)
| PStr (s : string)
| PList (items : list pyval)
| PDict (items : list (string * pyval)).

Definition pydict := list (string * pyval).

Inductive pyexn : Type :=
| ValueError
| TypeError
| OverflowError
| AttributeError
| JSONDecodeError
| StoreError.

(** The outcome of an expression that may raise. *)
Inductive res (A : Type) : Type :=
| Ok (a : A)
| Raise (e : pyexn).
Arguments Ok {A} a.
Arguments Raise {A} e.

(** The builtins whose text-level behaviour is left open: [float()] on a
    string ([None] stands for [ValueError]), [repr()] of floats, lists and
    dicts, and [str.upper()], which follows the Unicode case mappings: what
    it does on ASCII text is [upper] below, see [upper_on_ascii]. *)
Record Runtime : Type := mkRuntime {
  float_of_string : string -> option pyfloat;
  py_repr : pyval -> string;
  py_upper : string -> string
}.

(** *** Dictionaries *)

Fixpoint dict_find {A : Type} (d : list (string * A)) (k : string) : option A :=
  match d with
  | [] => None
  | (k', v) :: rest => if String.eqb k' k then Some v else dict_find rest k
  end.

(** [d.get(k, default)] *)
Definition dict_get_or (d : pydict) (k : string) (default : pyval) : pyval :=
  match dict_find d k with
  | Some v => v
  | None => default
  end.

(** [d.get(k)] *)
Definition dict_get (d : pydict) (k : string) : pyval := dict_get_or d k PNone.

(** [d[k] = v] *)
Fixpoint dict_set (d : pydict) (k : string) (v : pyval) : pydict :=
  match d with
  | [] => [(k, v)]
  | (k', v') :: rest =>
      if String.eqb k' k then (k', v) :: rest else (k', v') :: dict_set rest k v
  end.

Definition dict_keys (d : pydict) : list string := map fst d.

(** Lists and dicts cannot be hashed: using one as a dict key raises. *)
Definition py_hashable (v : pyval) : bool :=
  match v with
  | PList _ | PDict _ => false
  | _ => true
  end.

(** [table.get(key)] for a dict [table] with string keys and any [key]. *)
Definition table_get {A : Type} (table : list (string * A)) (key : pyval)
  : res (option A) :=
  match key with
  | PStr s => Ok (dict_find table s)
  | PList _ | PDict _ => Raise TypeError
  | _ => Ok None
  end.

(** *** Strings *)

Definition upper_ascii (c : ascii) : ascii :=
  let n := nat_of_ascii c in
  if ((97 <=? n) && (n <=? 122))%nat then ascii_of_nat (n - 32) else c.

(** A string holds the UTF-8 bytes of a Python [str].  [s.upper()] on ASCII
    text: the letters a to z are raised, every other character is kept.
    Beyond ASCII [str.upper()] maps other letters too (the dotless i and the
    fi ligature both end in "I"), which is the runtime's [py_upper]. *)
Fixpoint upper (s : string) : string :=
  match s with
  | EmptyString => EmptyString
  | String c rest => String (upper_ascii c) (upper rest)
  end.

(** [s.isascii()]: every byte is below 128. *)
Fixpoint is_ascii (s : string) : bool :=
  match s with
  | EmptyString => true
  | String c rest => (nat_of_ascii c <? 128)%nat && is_ascii rest
  end.

(** What every Python runtime's [str.upper()] does on ASCII text. *)
Definition upper_on_ascii (rt : Runtime) : Prop :=
  forall s, is_ascii s = true -> py_upper rt s = upper s.

(** [needle in hay] *)
Fixpoint contains (needle hay : string) : bool :=
  if String.prefix needle hay then true
  else match hay with
       | EmptyString => false
       | String _ rest => contains needle rest
       end.

Definition string_of_Z (n : Z) : string := NilZero.string_of_int (Z.to_int n).

(** [f"{s:<20}"] for a string [s] *)
Fixpoint spaces (n : nat) : string :=
  match n with
  | O => EmptyString
  | S k => String " " (spaces k)
  end.

Definition ljust (width : nat) (s : string) : string :=
  s ++ spaces (width - String.length s).

(** *** Truth, equality, conversion *)

(** [bool(v)] *)
Definition py_truthy (v : pyval) : bool :=
  match v with
  | PNone => false
  | PBool b => b
  | PInt n => negb (n =? 0)
  | PFloat (S754_zero _) => false
  | PFloat _ => true
  | PStr s => negb (String.eqb s EmptyString)
  | PList l => match l with [] => false | _ => true end
  | PDict d => match d with [] => false | _ => true end
  end.

(** [float(n)] for an [int]: rounded to nearest even; an integer beyond the
    binary64 range raises [OverflowError]. *)
Definition float_of_int (n : Z) : res pyfloat :=
  match binary_normalize prec emax n 0 false with
  | S754_infinity _ => Raise OverflowError
  | f => Ok f
  end.

Definition float_one : pyfloat := S754_finite false 4503599627370496 (-52).

(** [v == 1] *)
Definition py_eq_one (v : pyval) : bool :=
  match v with
  | PBool b => b
  | PInt n => n =? 1
  | PFloat f => SFeqb f float_one
  | _ => false
  end.

(** [v == s] for a string literal [s] *)
Definition py_eq_str (v : pyval) (s : string) : bool :=
  match v with
  | PStr s' => String.eqb s' s
  | _ => false
  end.

(** [isinstance(v, str)] *)
Definition py_is_str (v : pyval) : bool :=
  match v with
  | PStr _ => true
  | _ => false
  end.

(** [n < f] for an [int] and a [float], compared exactly as Python does. *)
Definition int_lt_float (n : Z) (f : pyfloat) : bool :=
  match f with
  | S754_nan => false
  | S754_infinity s => negb s
  | S754_zero _ => n <? 0
  | S754_finite s m e =>
      let mz := if s then Z.neg m else Z.pos m in
      if 0 <=? e then n <? mz * 2 ^ e else n * 2 ^ (- e) <? mz
  end.

(** [v < f] for a float [f]; ordering a [str], [list], [dict] or [None]
    against a float raises [TypeError]. *)
Definition py_lt_float (v : pyval) (f : pyfloat) : res bool :=
  match v with
  | PBool b => Ok (int_lt_float (if b then 1 else 0) f)
  | PInt n => Ok (int_lt_float n f)
  | PFloat x => Ok (SFltb x f)
  | _ => Raise TypeError
  end.

(** *** Formatting *)

Definition round_half_even_div (n d : Z) : Z :=
  let q := n / d in
  match (2 * (n mod d) ?= d) with
  | Lt => q
  | Gt => q + 1
  | Eq => if Z.even q then q else q + 1
  end.

(** The magnitude of [m * 2^e] in tenths, rounded half to even. *)
Definition tenths (m : positive) (e : Z) : Z :=
  if 0 <=? e then 10 * Z.pos m * 2 ^ e
  else round_half_even_div (10 * Z.pos m) (2 ^ (- e)).

Definition sign_text (s : bool) : string := if s then "-" else EmptyString.

(** [f"{x:.1f}"] for a float [x] *)
Definition format_1f (x : pyfloat) : string :=
  match x with
  | S754_nan => "nan"
  | S754_infinity s => sign_text s ++ "inf"
  | S754_zero s => sign_text s ++ "0.0"
  | S754_finite s m e =>
      let t := tenths m e in
      sign_text s ++ string_of_Z (t / 10) ++ "." ++ string_of_Z (t mod 10)
  end.

(** [f"{v:.1f}"] for any value: an [int] or [bool] is first converted with
    [float()]; the other types reject the format code. *)
Definition py_format_1f (v : pyval) : res string :=
  match v with
  | PFloat x => Ok (format_1f x)
  | PInt n =>
      match float_of_int n with
      | Ok x => Ok (format_1f x)
      | Raise e => Raise e
      end
  | PBool b => Ok (if b then "1.0" else "0.0")
  | PStr _ => Raise ValueError
  | _ => Raise TypeError
  end.

(** Whether [f"{v:<20}"] is accepted: [None], lists and dicts reject a
    non-empty format specification. *)
Definition py_accepts_format_spec (v : pyval) : bool :=
  match v with
  | PNone | PList _ | PDict _ => false
  | _ => true
  end.

Section Builtins.

Context (rt : Runtime).

(** [float(v)] *)
Definition py_float (v : pyval) : res pyfloat :=
  match v with
  | PBool b => float_of_int (if b then 1 else 0)
  | PInt n => float_of_int n
  | PFloat f => Ok f
  | PStr s =>
      match float_of_string rt s with
      | Some f => Ok f
      | None => Raise ValueError
      end
  | _ => Raise TypeError
  end.

(** [str(v)], also what an f-string inserts for [{v}] *)
Definition py_str (v : pyval) : string :=
  match v with
  | PNone => "None"
  | PBool b => if b then "True" else "False"
  | PInt n => string_of_Z n
  | PStr s => s
  | _ => py_repr rt v
  end.

End Builtins.

(** ** The world the handler runs in *)

(** A row of the [system_alerts] table. *)
Record AlertRow : Type := mkAlert {
  a_id : Z;
  a_factory_id : Z;
  a_alert_type : string;
  a_severity : string;
  a_message : string;
  a_system_name : string;
  a_acknowledged : bool;
  a_created_at : string;
  a_acknowledged_at : option string;
  a_acknowledged_by : option string
}.

(** The alert methods of the handler that were entered, in order. *)
Inductive Call : Type :=
| Call_check_and_create_alerts (telemetry : pydict) (factory_id : pyval)
    (system_name : string)
| Call_create_unique_alert (factory_pk : Z)
    (alert_type severity message system_name : string)
| Call_auto_acknowledge_alert (factory_pk : Z)
    (system_name alert_type : string).

(** The lines the handler prints, one constructor per [print] statement,
    carrying the values the line interpolates. *)
Inductive LogLine : Type :=
| LogDataSaved (system_name table_name : string)
| LogSaveFailed (system_name table_name : string)
| LogNoValidData (system_name : pyval)
| LogJsonParseError
| LogCriticalError (e : pyexn)
| LogDatabaseError (e : pyexn)
| LogAlertError (e : pyexn)
| LogAlertCreationError (e : pyexn)
| LogAlertUpdated (alert_type : string)
| LogAlertCreated (alert_type : string)
| LogSecurityAlert (card_id : string).

Record World : Type := mkWorld {
  (** table [system_alerts] *)
  system_alerts : list AlertRow;
  (** rows of the per-factory telemetry tables, with their table name *)
  factory_data : list (string * pydict);
  (** table [factories]: primary key and [last_data_received] *)
  factories : list (Z * option string);
  (** the next primary key of [system_alerts] *)
  next_alert_id : Z;
  (** the clock: the instant each reading returns, and the readings so far *)
  clock : nat -> string;
  ticks : nat;
  (** whether each of the coming store requests fails; none fails once the
      list is used up *)
  faults : list bool;
  console : list LogLine;
  history : list Call
}.

Definition set_system_alerts (l : list AlertRow) (w : World) : World :=
  mkWorld l (factory_data w) (factories w) (next_alert_id w) (clock w)
    (ticks w) (faults w) (console w) (history w).

Definition set_factory_data (l : list (string * pydict)) (w : World) : World :=
  mkWorld (system_alerts w) l (factories w) (next_alert_id w) (clock w)
    (ticks w) (faults w) (console w) (history w).

Definition set_factories (l : list (Z * option string)) (w : World) : World :=
  mkWorld (system_alerts w) (factory_data w) l (next_alert_id w) (clock w)
    (ticks w) (faults w) (console w) (history w).

Definition set_next_alert_id (n : Z) (w : World) : World :=
  mkWorld (system_alerts w) (factory_data w) (factories w) n (clock w)
    (ticks w) (faults w) (console w) (history w).

Definition set_ticks (n : nat) (w : World) : World :=
  mkWorld (system_alerts w) (factory_data w) (factories w) (next_alert_id w)
    (clock w) n (faults w) (console w) (history w).

Definition set_faults (l : list bool) (w : World) : World :=
  mkWorld (system_alerts w) (factory_data w) (factories w) (next_alert_id w)
    (clock w) (ticks w) l (console w) (history w).

Definition set_console (l : list LogLine) (w : World) : World :=
  mkWorld (system_alerts w) (factory_data w) (factories w) (next_alert_id w)
    (clock w) (ticks w) (faults w) l (history w).

Definition set_history (l : list Call) (w : World) : World :=
  mkWorld (system_alerts w) (factory_data w) (factories w) (next_alert_id w)
    (clock w) (ticks w) (faults w) (console w) l.

(** *** Computations: state, and exceptions that keep the state *)

Definition M (A : Type) : Type := World -> res A * World.

Definition ret {A : Type} (a : A) : M A := fun w => (Ok a, w).

Definition raise {A : Type} (e : pyexn) : M A := fun w => (Raise e, w).

Definition bind {A B : Type} (c : M A) (k : A -> M B) : M B :=
  fun w =>
    match c w with
    | (Ok a, w') => k a w'
    | (Raise e, w') => (Raise e, w')
    end.

Declare Scope py_scope.
Delimit Scope py_scope with py.
Notation "x <- c ;; k" := (bind c (fun x => k))
  (at level 100, c at next level, right associativity) : py_scope.
Notation "c ;; k" := (bind c (fun _ => k))
  (at level 100, right associativity) : py_scope.
Open Scope py_scope.

(** An expression that may raise, used as a statement. *)
Definition lift {A : Type} (r : res A) : M A := fun w => (r, w).

(** [try: c except Exception as e: handler e] *)
Definition try_except {A : Type} (c : M A) (handler : pyexn -> M A) : M A :=
  fun w =>
    match c w with
    | (Ok a, w') => (Ok a, w')
    | (Raise e, w') => handler e w'
    end.

(** [print(...)] *)
Definition print (l : LogLine) : M unit :=
  fun w => (Ok tt, set_console (console w ++ [l]) w).

Definition enter (c : Call) : M unit :=
  fun w => (Ok tt, set_history (history w ++ [c]) w).

(** [datetime.now(timezone.utc).isoformat()] *)
Definition utc_now : M string :=
  fun w => (Ok (clock w (ticks w)), set_ticks (S (ticks w)) w).

(** [request.execute()]: the request either fails as a whole, raising, or
    takes effect. *)
Definition execute {A : Type} (request : World -> A * World) : M A :=
  fun w =>
    match faults w with
    | true :: rest => (Raise StoreError, set_faults rest w)
    | false :: rest => let (a, w') := request (set_faults rest w) in (Ok a, w')
    | [] => let (a, w') := request w in (Ok a, w')
    end.

(** *** Store requests *)

(** [.eq("factory_id", pk).eq("system_name", s).eq("alert_type", t)
     .eq("acknowledged", False)] *)
Definition is_open_for (factory_pk : Z) (system_name alert_type : string)
  (row : AlertRow) : bool :=
  (a_factory_id row =? factory_pk)
  && String.eqb (a_system_name row) system_name
  && String.eqb (a_alert_type row) alert_type
  && negb (a_acknowledged row).

Definition select_open_alerts (factory_pk : Z) (system_name alert_type : string)
  (w : World) : list AlertRow * World :=
  (filter (is_open_for factory_pk system_name alert_type) (system_alerts w), w).

(** [.update({"message": m, "created_at": ts}).eq("id", alert_id)] *)
Definition refresh_row (alert_id : Z) (m ts : string) (row : AlertRow)
  : AlertRow :=
  if a_id row =? alert_id then
    mkAlert (a_id row) (a_factory_id row) (a_alert_type row) (a_severity row)
      m (a_system_name row) (a_acknowledged row) ts
      (a_acknowledged_at row) (a_acknowledged_by row)
  else row.

Definition update_alert_message (alert_id : Z) (m ts : string) (w : World)
  : unit * World :=
  (tt, set_system_alerts (map (refresh_row alert_id m ts) (system_alerts w)) w).

(** Modelled from the spec: the column defaults of [system_alerts], whose
    schema is not part of the source.  A new alert record gets a fresh
    primary key, is unacknowledged, carries its creation instant and has no
    acknowledgment instant or actor. *)
Definition new_alert_row (w : World) (factory_pk : Z)
  (alert_type severity m system_name : string) : AlertRow :=
  mkAlert (next_alert_id w) factory_pk alert_type severity m system_name
    false (clock w (ticks w)) None None.

(** [.insert({"factory_id": .., "alert_type": .., "severity": ..,
     "message": .., "system_name": ..})] on [system_alerts] *)
Definition insert_alert (factory_pk : Z)
  (alert_type severity m system_name : string) (w : World) : unit * World :=
  (tt,
   set_next_alert_id (next_alert_id w + 1)
     (set_system_alerts
        (system_alerts w
           ++ [new_alert_row w factory_pk alert_type severity m system_name])
        w)).

(** [.update({"acknowledged": True, "acknowledged_at": ts,
     "acknowledged_by": "AUTO_RESOLVED"})] on the open rows of the tuple *)
Definition acknowledge_row (factory_pk : Z) (system_name alert_type ts : string)
  (row : AlertRow) : AlertRow :=
  if is_open_for factory_pk system_name alert_type row then
    mkAlert (a_id row) (a_factory_id row) (a_alert_type row) (a_severity row)
      (a_message row) (a_system_name row) true (a_created_at row)
      (Some ts) (Some "AUTO_RESOLVED")
  else row.

Definition acknowledge_open_alerts (factory_pk : Z)
  (system_name alert_type ts : string) (w : World) : unit * World :=
  (tt,
   set_system_alerts
     (map (acknowledge_row factory_pk system_name alert_type ts)
        (system_alerts w)) w).

(** [supabase.table(table_name).insert(data)] *)
Definition insert_telemetry (table_name : string) (data : pydict) (w : World)
  : unit * World :=
  (tt, set_factory_data (factory_data w ++ [(table_name, data)]) w).

(** [.update({"last_data_received": ts}).eq("id", factory_pk)] on
    [factories] *)
Definition touch_factory (factory_pk : Z) (ts : string) (w : World)
  : unit * World :=
  (tt,
   set_factories
     (map (fun r => if fst r =? factory_pk then (fst r, Some ts) else r)
        (factories w)) w).

(** ** Configuration *)

(** Maps factory keys to their telemetry tables. *)
Definition FACTORY_MAPPING : list (string * string) :=
  [("factory_1", "factory_1_data"); ("factory_2", "factory_2_data")].

Definition DEFAULT_FACTORY : string := "factory_1".

(** [FACTORY_MAPPING[DEFAULT_FACTORY]] *)
Definition default_table : string := "factory_1_data".

(** The local [factory_lookup] of the two store methods. *)
Definition factory_lookup : list (string * Z) :=
  [("factory_1", 1); ("factory_2", 2)].

Record Thresholds : Type := mkThresholds {
  temperature_high : pyfloat;
  temperature_low : pyfloat;
  battery_low : pyfloat;
  fire_detected : bool
}.

(** [30.0], [15.0], [15.0], [True] *)
Definition ALERT_THRESHOLDS : Thresholds :=
  mkThresholds
    (S754_finite false 8444249301319680 (-48))
    (S754_finite false 8444249301319680 (-49))
    (S754_finite false 8444249301319680 (-49))
    true.

(** ** The handler *)

(** A response: the status code and the object passed to [json.dumps]. *)
Record Response : Type := mkResponse {
  status_code : Z;
  content : pydict
}.

(** Status 200 with [{"status": "success"}] *)
Definition success_response : Response :=
  mkResponse 200 [("status", PStr "success")].

(** [_send_error_response(code, message)] *)
Definition _send_error_response (code : Z) (m : string) : Response :=
  mkResponse code [("status", PStr "error"); ("message", PStr m)].

(** The text of a value that is known to be a string. *)
Definition str_value (v : pyval) : string :=
  match v with
  | PStr s => s
  | _ => EmptyString
  end.

Section Handler.

Context (rt : Runtime).

(** [_map_telemetry_data(pt_data, system_name)]: raises only where the
    Python does, in the conversion of the HVAC temperature. *)
Definition _map_telemetry_data (pt_data : pydict) (system_name : pyval)
  : res pydict :=
  let telemetry : pydict := [] in
  if py_eq_str system_name "Fire_Control" then
    let telemetry :=
      dict_set telemetry "fire_sensor_val" (dict_get pt_data "sensor_value") in
    let telemetry :=
      dict_set telemetry "fire_status" (dict_get pt_data "status") in
    let telemetry :=
      dict_set telemetry "siren_state"
        (PStr (if py_eq_one (dict_get pt_data "siren") then "ON" else "OFF")) in
    let telemetry :=
      dict_set telemetry "sprinkler_state"
        (PStr (if py_eq_one (dict_get pt_data "sprinkler")
               then "ON" else "OFF")) in
    Ok telemetry
  else if py_eq_str system_name "Conveyor_Belt" then
    let telemetry :=
      dict_set telemetry "order_count" (dict_get pt_data "order_count") in
    let telemetry :=
      dict_set telemetry "conveyor_speed" (dict_get pt_data "sensor_value") in
    let telemetry :=
      dict_set telemetry "conveyor_status" (dict_get pt_data "status") in
    Ok telemetry
  else if py_eq_str system_name "Weight_System" then
    let telemetry :=
      dict_set telemetry "weight_grams" (dict_get pt_data "weight_val") in
    let telemetry :=
      dict_set telemetry "weight_status" (dict_get pt_data "status") in
    let telemetry :=
      dict_set telemetry "servo_angle" (dict_get pt_data "servo_pos") in
    Ok telemetry
  else if py_eq_str system_name "Garage_Door" then
    let motion_status := dict_get pt_data "motion_status" in
    let telemetry :=
      if py_is_str motion_status then
        dict_set telemetry "motion_detected"
          (PBool (py_eq_str motion_status "DETECTED"))
      else
        dict_set telemetry "motion_detected"
          (PBool (py_truthy motion_status)) in
    let telemetry :=
      dict_set telemetry "garage_door" (dict_get pt_data "door_state") in
    Ok telemetry
  else if py_eq_str system_name "Battery_System" then
    let telemetry :=
      dict_set telemetry "battery_level" (dict_get pt_data "battery_level") in
    let telemetry :=
      dict_set telemetry "led_brightness" (dict_get pt_data "led_intensity") in
    Ok telemetry
  else if py_eq_str system_name "HVAC_System" then
    let temp_value := dict_get pt_data "temperature" in
    let converted : res pydict :=
      match temp_value with
      | PNone => Ok telemetry
      | _ =>
          match py_float rt temp_value with
          | Ok f => Ok (dict_set telemetry "temperature" (PFloat f))
          | Raise ValueError | Raise TypeError =>
              Ok (dict_set telemetry "temperature" PNone)
          | Raise e => Raise e
          end
      end in
    match converted with
    | Raise e => Raise e
    | Ok telemetry =>
        let telemetry :=
          dict_set telemetry "ac_state" (dict_get pt_data "ac_status") in
        let telemetry :=
          dict_set telemetry "ac2_state" (dict_get pt_data "ac2_status") in
        let telemetry :=
          dict_set telemetry "furnace_state"
            (dict_get pt_data "furnace_status") in
        Ok telemetry
    end
  else if py_eq_str system_name "Safe_Room" then
    let telemetry :=
      dict_set telemetry "rfid_last_card" (dict_get pt_data "last_card") in
    let telemetry :=
      dict_set telemetry "access_log" (dict_get pt_data "access") in
    let telemetry :=
      dict_set telemetry "safe_door" (dict_get pt_data "door") in
    let telemetry :=
      dict_set telemetry "webcam_status" (dict_get pt_data "webcam") in
    Ok telemetry
  else Ok telemetry.

(** [_insert_to_supabase(table_name, data, factory_id)] *)
Definition _insert_to_supabase (table_name : string) (data : pydict)
  (factory_id : pyval) : M bool :=
  try_except
    (execute (insert_telemetry table_name data) ;;
     factory_pk <- lift (table_get factory_lookup factory_id) ;;
     match factory_pk with
     | Some pk =>
         ts <- utc_now ;;
         execute (touch_factory pk ts) ;;
         ret true
     | None => ret true
     end)
    (fun e => print (LogDatabaseError e) ;; ret false).

(** [_create_unique_alert(factory_pk, alert_type, severity, message,
    system_name)] *)
Definition _create_unique_alert (factory_pk : Z)
  (alert_type severity message system_name : string) : M unit :=
  enter (Call_create_unique_alert factory_pk alert_type severity message
           system_name) ;;
  try_except
    (existing <- execute (select_open_alerts factory_pk system_name
                            alert_type) ;;
     match existing with
     | first :: _ =>
         let alert_id := a_id first in
         let old_message := a_message first in
         if negb (String.eqb old_message message) then
           ts <- utc_now ;;
           execute (update_alert_message alert_id message ts) ;;
           print (LogAlertUpdated alert_type)
         else ret tt
     | [] =>
         execute (insert_alert factory_pk alert_type severity message
                    system_name) ;;
         print (LogAlertCreated alert_type)
     end)
    (fun e => print (LogAlertCreationError e)).

(** [_auto_acknowledge_alert(factory_pk, system_name, alert_type)] *)
Definition _auto_acknowledge_alert (factory_pk : Z)
  (system_name alert_type : string) : M unit :=
  enter (Call_auto_acknowledge_alert factory_pk system_name alert_type) ;;
  try_except
    (ts <- utc_now ;;
     execute (acknowledge_open_alerts factory_pk system_name alert_type ts))
    (fun _ => ret tt).

(** The upper-cased text of the record's fire status:
    [str(telemetry.get("fire_status", '')).upper()] *)
Definition fire_status_of (telemetry : pydict) : string :=
  py_upper rt
    (py_str rt (dict_get_or telemetry "fire_status" (PStr EmptyString))).

(** The four blocks of [_check_and_create_alerts], in source order. *)

(** [# Fire Detection] *)
Definition fire_rule (telemetry : pydict) (factory_pk : Z)
  (system_name : string) : M unit :=
  let fire_status := fire_status_of telemetry in
  if contains "FIRE" fire_status && negb (String.eqb fire_status "SAFE") then
    let sensor_val := dict_get_or telemetry "fire_sensor_val" (PStr "N/A") in
    _create_unique_alert factory_pk "FIRE_DETECTED" "CRITICAL"
      ("🔥 FIRE DETECTED! Sensor: " ++ py_str rt sensor_val
         ++ " | Sprinklers & Siren ACTIVATED")
      system_name
  else
    _auto_acknowledge_alert factory_pk system_name "FIRE_DETECTED".

(** [temp = telemetry.get("temperature")] followed by the guarded
    [float(temp)] *)
Definition temperature_of (telemetry : pydict) : res (option pyfloat) :=
  match dict_get telemetry "temperature" with
  | PNone => Ok None
  | temp =>
      match py_float rt temp with
      | Ok f => Ok (Some f)
      | Raise ValueError | Raise TypeError => Ok None
      | Raise e => Raise e
      end
  end.

(** [# Temperature Monitoring] *)
Definition temperature_rule (telemetry : pydict) (factory_pk : Z)
  (system_name : string) : M unit :=
  temp <- lift (temperature_of telemetry) ;;
  match temp with
  | Some temp =>
      if SFltb (temperature_high ALERT_THRESHOLDS) temp then
        let ac_status := dict_get_or telemetry "ac_state" (PStr "N/A") in
        _create_unique_alert factory_pk "HIGH_TEMPERATURE" "WARNING"
          ("🌡️ High Temperature: " ++ format_1f temp
             ++ "°C (Threshold: 30.0°C) | AC: " ++ py_str rt ac_status)
          system_name
      else if SFltb temp (temperature_low ALERT_THRESHOLDS) then
        let furnace_status :=
          dict_get_or telemetry "furnace_state" (PStr "N/A") in
        _create_unique_alert factory_pk "LOW_TEMPERATURE" "WARNING"
          ("❄️ Low Temperature: " ++ format_1f temp
             ++ "°C (Threshold: 15.0°C) | Furnace: "
             ++ py_str rt furnace_status)
          system_name
      else
        _auto_acknowledge_alert factory_pk system_name "HIGH_TEMPERATURE" ;;
        _auto_acknowledge_alert factory_pk system_name "LOW_TEMPERATURE"
  | None => ret tt
  end.

(** [# Battery Monitoring] *)
Definition battery_rule (telemetry : pydict) (factory_pk : Z)
  (system_name : string) : M unit :=
  let battery := dict_get telemetry "battery_level" in
  if py_truthy battery then
    below <- lift (py_lt_float battery (battery_low ALERT_THRESHOLDS)) ;;
    if (below : bool) then
      let led := dict_get_or telemetry "led_brightness" (PStr "N/A") in
      level <- lift (py_format_1f battery) ;;
      _create_unique_alert factory_pk "LOW_BATTERY" "WARNING"
        ("🔋 Critical Battery: " ++ level ++ "% (LED: " ++ py_str rt led
           ++ ") | Charge Immediately!")
        system_name
    else
      _auto_acknowledge_alert factory_pk system_name "LOW_BATTERY"
  else ret tt.

(** [# Unauthorized Access] *)
Definition access_rule (telemetry : pydict) (factory_pk : Z)
  (system_name : string) : M unit :=
  if py_eq_str (dict_get telemetry "access_log") "DENIED" then
    let card_id := dict_get_or telemetry "rfid_last_card" (PStr "Unknown") in
    execute (insert_alert factory_pk "UNAUTHORIZED_ACCESS" "WARNING"
               ("🚫 Unauthorized Access Attempt | Card ID: "
                  ++ py_str rt card_id ++ " | Door: LOCKED")
               system_name) ;;
    print (LogSecurityAlert (py_str rt card_id))
  else ret tt.

(** The rule engine: the four blocks, which follow the factory lookup. *)
Definition alert_rules (telemetry : pydict) (factory_pk : Z)
  (system_name : string) : M unit :=
  fire_rule telemetry factory_pk system_name ;;
  temperature_rule telemetry factory_pk system_name ;;
  battery_rule telemetry factory_pk system_name ;;
  access_rule telemetry factory_pk system_name.

(** [_check_and_create_alerts(telemetry, factory_id, system_name)] *)
Definition _check_and_create_alerts (telemetry : pydict) (factory_id : pyval)
  (system_name : string) : M unit :=
  enter (Call_check_and_create_alerts telemetry factory_id system_name) ;;
  try_except
    (factory_pk <- lift (table_get factory_lookup factory_id) ;;
     match factory_pk with
     | None => ret tt (* [if not factory_pk: return] *)
     | Some factory_pk => alert_rules telemetry factory_pk system_name
     end)
    (fun e => print (LogAlertError e)).

(** [pt_data.get(...)] needs [pt_data] to be a dict. *)
Definition as_dict (v : pyval) : res pydict :=
  match v with
  | PDict d => Ok d
  | _ => Raise AttributeError
  end.

(** [do_POST()], from the outcome of [json.loads] on the request body. *)
Definition do_POST (body : res pyval) : M Response :=
  try_except
    (parsed <- lift body ;;
     pt_data <- lift (as_dict parsed) ;;
     let system_name := dict_get_or pt_data "system" (PStr "Unknown") in
     let factory_id :=
       dict_get_or pt_data "factory" (PStr DEFAULT_FACTORY) in
     found <- lift (table_get FACTORY_MAPPING factory_id) ;;
     let table_name :=
       match found with
       | Some t => t
       | None => default_table
       end in
     telemetry <- lift (_map_telemetry_data pt_data system_name) ;;
     (match telemetry with
      | _ :: _ =>
          let telemetry := dict_set telemetry "system_name" system_name in
          ts <- utc_now ;;
          let telemetry := dict_set telemetry "timestamp" (PStr ts) in
          success <- _insert_to_supabase table_name telemetry factory_id ;;
          if (success : bool) then
            print (LogDataSaved (str_value system_name) table_name) ;;
            _check_and_create_alerts telemetry factory_id
              (str_value system_name)
          else
            print (LogSaveFailed (str_value system_name) table_name)
      | [] =>
          if py_accepts_format_spec system_name
          then print (LogNoValidData system_name)
          else raise TypeError
      end) ;;
     ret success_response)
    (fun e =>
       match e with
       | JSONDecodeError =>
           print LogJsonParseError ;;
           ret (_send_error_response 400 "Invalid JSON")
       | _ =>
           print (LogCriticalError e) ;;
           ret (_send_error_response 500 "Internal Server Error")
       end).

End Handler.

(** ** A runtime for running the handler on concrete payloads

    The properties below hold for every [Runtime].  This one reads plain
    decimal literals (an optional sign, digits, an optional fraction),
    rounding to the nearest binary64 number, prints a placeholder where
    [repr] is consulted, and upper-cases the ASCII letters only. *)

Definition digit_of (c : ascii) : option Z :=
  let n := nat_of_ascii c in
  if ((48 <=? n) && (n <=? 57))%nat then Some (Z.of_nat n - 48) else None.

(** Reads digits up to an optional point and the digits after it; returns
    the digits read as a number, how many there were, and how many followed
    the point. *)
Fixpoint read_digits (s : string) (after_point : bool) (acc count scale : Z)
  : option (Z * Z * Z) :=
  match s with
  | EmptyString => Some (acc, count, scale)
  | String c rest =>
      match digit_of c with
      | Some d =>
          read_digits rest after_point (10 * acc + d) (count + 1)
            (if after_point then scale + 1 else scale)
      | None =>
          if Ascii.eqb c "." && negb after_point
          then read_digits rest true acc count scale
          else None
      end
  end.

(** The binary64 number nearest to [n / d], for [0 <= n] and [0 < d]. *)
Definition float_of_ratio (sign : bool) (n d : Z) : pyfloat :=
  if n =? 0 then S754_zero sign
  else
    let s := Z.max 0 (64 + Z.log2 d - Z.log2 n) in
    let q := (n * 2 ^ s) / d in
    let r := (n * 2 ^ s) mod d in
    let loc := if r =? 0 then loc_Exact else loc_Inexact (2 * r ?= d) in
    binary_round_aux prec emax sign q (- s) loc.

Definition decimal_float_of_string (s : string) : option pyfloat :=
  let '(sign, body) :=
    match s with
    | String "-" rest => (true, rest)
    | String "+" rest => (false, rest)
    | _ => (false, s)
    end in
  match read_digits body false 0 0 0 with
  | Some (n, count, scale) =>
      if count =? 0 then None else Some (float_of_ratio sign n (10 ^ scale))
  | None => None
  end.

Definition placeholder_repr (v : pyval) : string :=
  match v with
  | PFloat _ => "<float>"
  | PList _ => "<list>"
  | PDict _ => "<dict>"
  | _ => EmptyString
  end.

Definition reference_runtime : Runtime :=
  mkRuntime decimal_float_of_string placeholder_repr upper.

(** A runtime that also knows two letters beyond ASCII, as [str.upper()]
    does: the dotless i (U+0131, bytes 196 177) becomes "I" and the fi
    ligature (U+FB01, bytes 239 172 129) becomes "FI". *)
Definition byte_is (c : ascii) (n : nat) : bool := Nat.eqb (nat_of_ascii c) n.

Fixpoint wide_upper (s : string) : string :=
  match s with
  | EmptyString => EmptyString
  | String c rest =>
      match rest with
      | String c2 rest2 =>
          if byte_is c 196 && byte_is c2 177 then String "I" (wide_upper rest2)
          else
            match rest2 with
            | String c3 rest3 =>
                if byte_is c 239 && byte_is c2 172 && byte_is c3 129
                then String "F" (String "I" (wide_upper rest3))
                else String (upper_ascii c) (wide_upper rest)
            | EmptyString => String (upper_ascii c) (wide_upper rest)
            end
      | EmptyString => String (upper_ascii c) EmptyString
      end
  end.

Definition wide_runtime : Runtime :=
  mkRuntime decimal_float_of_string placeholder_repr wide_upper.

(** A world with empty tables, a store that answers every request, and a
    clock that reads the number of the reading. *)
Definition quiet_world : World :=
  mkWorld [] [] [(1, None); (2, None)] 1
    (fun n => string_of_Z (Z.of_nat n)) 0 [] [] [].

(** [2 ** 1024], the smallest power of two [float()] cannot convert. *)
Definition huge_int : Z := 2 ^ 1024.

(** ** Observing a run *)

(** The world after a computation, and whether it returned or raised. *)
Definition run {A : Type} (c : M A) (w : World) : World := snd (c w).

Definition outcome {A : Type} (c : M A) (w : World) : res A := fst (c w).

(** The alert methods entered, and the lines printed, during a run. *)
Definition calls_of {A : Type} (c : M A) (w : World) : list Call :=
  skipn (List.length (history w)) (history (run c w)).

Definition lines_of {A : Type} (c : M A) (w : World) : list LogLine :=
  skipn (List.length (console w)) (console (run c w)).

(** The alert type a call is about. *)
Definition call_type (c : Call) : option string :=
  match c with
  | Call_check_and_create_alerts _ _ _ => None
  | Call_create_unique_alert _ ty _ _ _ => Some ty
  | Call_auto_acknowledge_alert _ _ ty => Some ty
  end.

(** An alert is asserted when [_create_unique_alert] is entered for it,
    cleared when [_auto_acknowledge_alert] is; a rule that does neither was
    not evaluated. *)
Definition asserts (factory_pk : Z) (system_name alert_type severity : string)
  (calls : list Call) : Prop :=
  exists m,
    In (Call_create_unique_alert factory_pk alert_type severity m system_name)
      calls.

Definition clears (factory_pk : Z) (system_name alert_type : string)
  (calls : list Call) : Prop :=
  In (Call_auto_acknowledge_alert factory_pk system_name alert_type) calls.

(** [c] enters [_create_unique_alert] for the alert type. *)
Definition asserted_type (alert_type : string) (c : Call) : Prop :=
  exists pk sev m sys, c = Call_create_unique_alert pk alert_type sev m sys.

(** No call is about the alert type: neither asserted nor cleared. *)
Definition silent_about (alert_type : string) (calls : list Call) : Prop :=
  forall c, In c calls -> call_type c <> Some alert_type.

(** The open alerts of a tuple. *)
Definition open_alerts (factory_pk : Z) (system_name alert_type : string)
  (rows : list AlertRow) : list AlertRow :=
  filter (is_open_for factory_pk system_name alert_type) rows.

Definition open_count (factory_pk : Z) (system_name alert_type : string)
  (rows : list AlertRow) : nat :=
  List.length (open_alerts factory_pk system_name alert_type rows).

(** [s] has [needle] as a substring. *)
Definition substring_of (needle s : string) : Prop :=
  exists l r, s = l ++ needle ++ r.

(** ** What each rule calls

    The calls each block of [_check_and_create_alerts] makes, read off the
    record alone; [rules_calls] and [check_calls] below show the handler
    makes exactly these. *)

Section Calls.

Context (rt : Runtime).

Definition fire_calls (telemetry : pydict) (factory_pk : Z)
  (system_name : string) : list Call :=
  let fire_status := fire_status_of rt telemetry in
  if contains "FIRE" fire_status && negb (String.eqb fire_status "SAFE") then
    [Call_create_unique_alert factory_pk "FIRE_DETECTED" "CRITICAL"
       ("🔥 FIRE DETECTED! Sensor: "
          ++ py_str rt (dict_get_or telemetry "fire_sensor_val" (PStr "N/A"))
          ++ " | Sprinklers & Siren ACTIVATED")
       system_name]
  else [Call_auto_acknowledge_alert factory_pk system_name "FIRE_DETECTED"].

Definition temperature_calls (telemetry : pydict) (temp : option pyfloat)
  (factory_pk : Z) (system_name : string) : list Call :=
  match temp with
  | Some temp =>
      if SFltb (temperature_high ALERT_THRESHOLDS) temp then
        [Call_create_unique_alert factory_pk "HIGH_TEMPERATURE" "WARNING"
           ("🌡️ High Temperature: " ++ format_1f temp
              ++ "°C (Threshold: 30.0°C) | AC: "
              ++ py_str rt (dict_get_or telemetry "ac_state" (PStr "N/A")))
           system_name]
      else if SFltb temp (temperature_low ALERT_THRESHOLDS) then
        [Call_create_unique_alert factory_pk "LOW_TEMPERATURE" "WARNING"
           ("❄️ Low Temperature: " ++ format_1f temp
              ++ "°C (Threshold: 15.0°C) | Furnace: "
              ++ py_str rt
                   (dict_get_or telemetry "furnace_state" (PStr "N/A")))
           system_name]
      else
        [Call_auto_acknowledge_alert factory_pk system_name
           "HIGH_TEMPERATURE";
         Call_auto_acknowledge_alert factory_pk system_name
           "LOW_TEMPERATURE"]
  | None => []
  end.

(** The battery block: its calls, or the exception that ends the method. *)
Definition battery_calls (telemetry : pydict) (factory_pk : Z)
  (system_name : string) : res (list Call) :=
  let battery := dict_get telemetry "battery_level" in
  if py_truthy battery then
    match py_lt_float battery (battery_low ALERT_THRESHOLDS) with
    | Raise e => Raise e
    | Ok true =>
        match py_format_1f battery with
        | Raise e => Raise e
        | Ok level =>
            Ok [Call_create_unique_alert factory_pk "LOW_BATTERY" "WARNING"
                  ("🔋 Critical Battery: " ++ level ++ "% (LED: "
                     ++ py_str rt
                          (dict_get_or telemetry "led_brightness"
                             (PStr "N/A"))
                     ++ ") | Charge Immediately!")
                  system_name]
        end
    | Ok false =>
        Ok [Call_auto_acknowledge_alert factory_pk system_name "LOW_BATTERY"]
    end
  else Ok [].

Definition rule_calls (telemetry : pydict) (factory_pk : Z)
  (system_name : string) : list Call :=
  fire_calls telemetry factory_pk system_name
    ++ match temperature_of rt telemetry with
       | Raise _ => []
       | Ok temp =>
           temperature_calls telemetry temp factory_pk system_name
             ++ match battery_calls telemetry factory_pk system_name with
                | Raise _ => []
                | Ok calls => calls
                end
       end.

(** Whether the first three blocks leave the method running, so that the
    access block is reached. *)
Definition reaches_access_rule (telemetry : pydict) : bool :=
  match temperature_of rt telemetry with
  | Raise _ => false
  | Ok _ =>
      match battery_calls telemetry 0 EmptyString with
      | Raise _ => false
      | Ok _ => true
      end
  end.

End Calls.

(** ** Reconciliation as a sequence of operations *)

Inductive AlertOp : Type :=
| Assert (factory_pk : Z) (alert_type severity message system_name : string)
| Clear (factory_pk : Z) (system_name alert_type : string)
| Denied (factory_pk : Z) (message system_name : string).

(** [Assert] and [Clear] are the two reconciliation methods; [Denied] is the
    insert of the access block. *)
Definition reconcile (op : AlertOp) : M unit :=
  match op with
  | Assert pk ty sev m sys => _create_unique_alert pk ty sev m sys
  | Clear pk sys ty => _auto_acknowledge_alert pk sys ty
  | Denied pk m sys =>
      try_except
        (execute (insert_alert pk "UNAUTHORIZED_ACCESS" "WARNING" m sys))
        (fun _ => ret tt)
  end.

Fixpoint reconcile_all (ops : list AlertOp) : M unit :=
  match ops with
  | [] => ret tt
  | op :: rest => reconcile op ;; reconcile_all rest
  end.

(** The record [do_POST] stores: the mapping with its metadata. *)
Definition stamped (telemetry : pydict) (system_name : pyval) (ts : string)
  : pydict :=
  dict_set (dict_set telemetry "system_name" system_name) "timestamp" (PStr ts).

(** ** Notions used in the statements *)

(** A row as [insert_alert] makes it for the given arguments. *)
Definition inserted_for (pk : Z) (ty sev m sys : string) (row : AlertRow)
  : Prop :=
  a_factory_id row = pk /\ a_alert_type row = ty /\ a_severity row = sev
  /\ a_message row = m /\ a_system_name row = sys /\ a_acknowledged row = false.

(** What [Clear] may do to a row. *)
Definition cleared_or_kept (pk : Z) (sys ty : string) (r r' : AlertRow)
  : Prop :=
  r' = r
  \/ (is_open_for pk sys ty r = true
      /\ a_acknowledged r' = true
      /\ a_acknowledged_by r' = Some "AUTO_RESOLVED"
      /\ a_id r' = a_id r /\ a_message r' = a_message r).

(** [emits c calls r]: from any world, [c] ends as [r] and enters exactly
    [calls]. *)
Definition emits {A} (c : M A) (calls : list Call) (r : res A) : Prop :=
  forall w, outcome c w = r /\ history (run c w) = (history w ++ calls)%list.

(** [enters c calls]: the same, whatever way [c] ends. *)
Definition enters {A} (c : M A) (calls : list Call) : Prop :=
  forall w, history (run c w) = (history w ++ calls)%list.

(** The calls of one evaluation. *)
Definition evaluation_calls rt (t : pydict) (factory_id : pyval) (sys : string)
  : list Call :=
  match table_get factory_lookup factory_id with
  | Ok (Some pk) => rule_calls rt t pk sys
  | _ => []
  end.

(** The fire condition on the upper-cased status text. *)
Definition is_fire (status : string) : Prop :=
  substring_of "FIRE" status /\ status <> "SAFE".

(** [steady ty w w']: going from [w] to [w'] left the open alerts of type
    [ty] as they were, kept an answering store answering, and did not reuse
    a primary key. *)
Definition steady (ty : string) (w w' : World) : Prop :=
  (forall pk sys,
     open_count pk sys ty (system_alerts w')
     = open_count pk sys ty (system_alerts w))
  /\ (faults w = [] -> faults w' = [])
  /\ next_alert_id w <= next_alert_id w'.

(** [keeps ty c]: every run of [c] is steady for [ty]. *)
Definition keeps (ty : string) {A} (c : M A) : Prop :=
  forall w, steady ty w (run c w).

(** The text of the alert for a denied access. *)
Definition denied_message (rt : Runtime) (t : pydict) : string :=
  "🚫 Unauthorized Access Attempt | Card ID: "
    ++ py_str rt (dict_get_or t "rfid_last_card" (PStr "Unknown"))
    ++ " | Door: LOCKED".

(** The subsystem identifiers the mapper recognises and the fields of their
    records. *)
Definition SUBSYSTEMS : list string :=
  ["Fire_Control"; "Conveyor_Belt"; "Weight_System"; "Garage_Door";
   "Battery_System"; "HVAC_System"; "Safe_Room"].

Definition recognized (system_name : pyval) : bool :=
  existsb (py_eq_str system_name) SUBSYSTEMS.

Definition canonical_fields (system_name : string) : list string :=
  if String.eqb system_name "Fire_Control" then
    ["fire_sensor_val"; "fire_status"; "siren_state"; "sprinkler_state"]
  else if String.eqb system_name "Conveyor_Belt" then
    ["order_count"; "conveyor_speed"; "conveyor_status"]
  else if String.eqb system_name "Weight_System" then
    ["weight_grams"; "weight_status"; "servo_angle"]
  else if String.eqb system_name "Garage_Door" then
    ["motion_detected"; "garage_door"]
  else if String.eqb system_name "Battery_System" then
    ["battery_level"; "led_brightness"]
  else if String.eqb system_name "HVAC_System" then
    ["temperature"; "ac_state"; "ac2_state"; "furnace_state"]
  else if String.eqb system_name "Safe_Room" then
    ["rfid_last_card"; "access_log"; "safe_door"; "webcam_status"]
  else [].

(** The table a factory key routes to:
    [FACTORY_MAPPING.get(factory_id, FACTORY_MAPPING[DEFAULT_FACTORY])]. *)
Definition table_for (factory_id : pyval) : string :=
  match table_get FACTORY_MAPPING factory_id with
  | Ok (Some table_name) => table_name
  | _ => default_table
  end.

(** [bounded pk sys ty c]: [c] keeps the open alerts of the tuple at most
    one. *)
Definition bounded (pk : Z) (sys ty : string) {A} (c : M A) : Prop :=
  forall w,
    (open_count pk sys ty (system_alerts w) <= 1)%nat ->
    (open_count pk sys ty (system_alerts (run c w)) <= 1)%nat.

(** The handler serving a sequence of request bodies. *)
Fixpoint serve (rt : Runtime) (bodies : list (res pyval)) : M unit :=
  match bodies with
  | [] => ret tt
  | body :: rest => do_POST rt body ;; serve rt rest
  end.

(** ** Sample records and worlds *)

(** A fire-control reading with an alarm status, as a payload and as the
    record the mapper makes of it. *)
Definition fire_payload : pydict :=
  [("system", PStr "Fire_Control"); ("sensor_value", PInt 900);
   ("status", PStr "FIRE_1"); ("siren", PInt 1); ("sprinkler", PInt 1)].

Definition fire_record : pydict :=
  [("fire_sensor_val", PInt 900); ("fire_status", PStr "FIRE_1");
   ("siren_state", PStr "ON"); ("sprinkler_state", PStr "ON")].

(** A fire status spelt with a dotless i, and a fire-control payload whose
    status begins with the fi ligature: [str.upper()] turns both into text
    that contains "FIRE". *)
Definition dotless_fire_record : pydict := [("fire_status", PStr "fıre")].

Definition ligature_fire_payload : pydict :=
  [("system", PStr "Fire_Control"); ("status", PStr "ﬁre in bay 2")].

(** [35.0] *)
Definition float_35 : pyfloat := S754_finite false 4925812092436480 (-47).

Definition hvac_record : pydict :=
  [("temperature", PFloat float_35); ("ac_state", PStr "ON");
   ("ac2_state", PStr "OFF"); ("furnace_state", PStr "OFF")].

Definition denied_record : pydict :=
  [("rfid_last_card", PStr "A1B2"); ("access_log", PStr "DENIED");
   ("safe_door", PStr "LOCKED"); ("webcam_status", PStr "ON")].

(** A battery reading sent under a factory key that is not configured. *)
Definition stray_payload : pydict :=
  [("system", PStr "Battery_System"); ("factory", PStr "factory_9");
   ("battery_level", PInt 5); ("led_intensity", PInt 40)].

(** A store that rejects the next request. *)
Definition failing_store : World := set_faults [true] quiet_world.

(** ** Notions for requests, persistence and the tables over time *)

(** Between two worlds no table changed, no store request was made and no
    alert method was entered. *)
Definition store_untouched (w w' : World) : Prop :=
  system_alerts w' = system_alerts w
  /\ factory_data w' = factory_data w
  /\ factories w' = factories w
  /\ next_alert_id w' = next_alert_id w
  /\ faults w' = faults w
  /\ history w' = history w.

(** The exception that ends the [try] block of [do_POST], if one does:
    what reading and parsing the body raised; [AttributeError] from
    [pt_data.get] when the payload is not an object; [TypeError] from
    [FACTORY_MAPPING.get] on an unhashable factory key; what the mapper
    raises; [TypeError] from [f"{system_name:<20}"] in the branch of the
    empty mapping. *)
Definition request_fault (rt : Runtime) (body : res pyval) : option pyexn :=
  match body with
  | Raise e => Some e
  | Ok (PDict pt_data) =>
      let system_name := dict_get_or pt_data "system" (PStr "Unknown") in
      let factory_id := dict_get_or pt_data "factory" (PStr DEFAULT_FACTORY) in
      if py_hashable factory_id then
        match _map_telemetry_data rt pt_data system_name with
        | Raise e => Some e
        | Ok [] =>
            if py_accepts_format_spec system_name then None
            else Some TypeError
        | Ok _ => None
        end
      else Some TypeError
  | Ok _ => Some AttributeError
  end.

(** The response and the line of the two [except] clauses of [do_POST]. *)
Definition fault_response (e : pyexn) : Response :=
  match e with
  | JSONDecodeError => _send_error_response 400 "Invalid JSON"
  | _ => _send_error_response 500 "Internal Server Error"
  end.

Definition fault_line (e : pyexn) : LogLine :=
  match e with
  | JSONDecodeError => LogJsonParseError
  | _ => LogCriticalError e
  end.

(** Whether the store rejects the first, and the second, of the coming
    requests. *)
Definition first_fails (w : World) : bool :=
  match faults w with
  | true :: _ => true
  | _ => false
  end.

Definition second_fails (w : World) : bool :=
  match faults w with
  | _ :: true :: _ => true
  | _ => false
  end.

(** The primary key [factory_lookup.get(factory_id)] gives, if any. *)
Definition known_factory (factory_id : pyval) : option Z :=
  match table_get factory_lookup factory_id with
  | Ok (Some pk) => Some pk
  | _ => None
  end.

(** [v is None] *)
Definition py_is_none (v : pyval) : bool :=
  match v with
  | PNone => true
  | _ => false
  end.

(** The fields of the record the mapper makes of a payload: those of the
    subsystem, the HVAC temperature only when the payload carries one. *)
Definition mapped_fields (system_name : string) (pt_data : pydict)
  : list string :=
  if String.eqb system_name "HVAC_System"
     && py_is_none (dict_get pt_data "temperature")
  then ["ac_state"; "ac2_state"; "furnace_state"]
  else canonical_fields system_name.

(** The row an open alert becomes when [_auto_acknowledge_alert] resolves it
    at [ts]. *)
Definition resolved (ts : string) (row : AlertRow) : AlertRow :=
  mkAlert (a_id row) (a_factory_id row) (a_alert_type row) (a_severity row)
    (a_message row) (a_system_name row) true (a_created_at row)
    (Some ts) (Some "AUTO_RESOLVED").

(** The tables of the store, with the next primary key of the alerts. *)
Definition tables (w : World)
  : list AlertRow * list (string * pydict) * list (Z * option string) * Z :=
  (system_alerts w, factory_data w, factories w, next_alert_id w).

(** [respects R c]: every run of [c] takes a world to one related to it by
    [R]. *)
Definition respects (R : World -> World -> Prop) {A : Type} (c : M A) : Prop :=
  forall w, R w (run c w).

(** What may become of an alert row: its key, factory, type, severity and
    subsystem stay, and an acknowledged row stays acknowledged. *)
Definition row_evolves (r r' : AlertRow) : Prop :=
  a_id r' = a_id r
  /\ a_factory_id r' = a_factory_id r
  /\ a_alert_type r' = a_alert_type r
  /\ a_severity r' = a_severity r
  /\ a_system_name r' = a_system_name r
  /\ (a_acknowledged r = true -> a_acknowledged r' = true).

(** The table keeps its rows, in place, and may get new ones at the end. *)
Definition alerts_evolve (rows rows' : list AlertRow) : Prop :=
  exists kept added,
    rows' = (kept ++ added)%list /\ Forall2 row_evolves rows kept.

(** The primary keys of the alerts are distinct and below the next key. *)
Definition well_keyed (w : World) : Prop :=
  NoDup (map a_id (system_alerts w))
  /\ Forall (fun r => a_id r < next_alert_id w) (system_alerts w).

(** Keys stay well formed and every acknowledged row is still there,
    unchanged. *)
Definition acknowledged_kept (w w' : World) : Prop :=
  well_keyed w ->
  well_keyed w'
  /\ forall r, In r (system_alerts w) -> a_acknowledged r = true ->
       In r (system_alerts w').

(** Telemetry rows are only appended, and no factory comes or goes. *)
Definition telemetry_appended (w w' : World) : Prop :=
  (exists added, factory_data w' = (factory_data w ++ added)%list)
  /\ map fst (factories w') = map fst (factories w).

(** The telemetry tables and the factories are as they were. *)
Definition telemetry_kept (w w' : World) : Prop :=
  factory_data w' = factory_data w /\ factories w' = factories w.

(** ** More sample payloads, records and worlds *)


Definition battery_payload : pydict :=
  [("system", PStr "Battery_System"); ("factory", PStr "factory_2");
   ("battery_level", PInt 80); ("led_intensity", PInt 40)].

Definition low_battery_record : pydict :=
  [("battery_level", PInt 5); ("led_brightness", PInt 40)].

(** A battery level sent as text, in a record that also reports a denied
    access. *)
Definition text_battery_record : pydict :=
  [("battery_level", PStr "12"); ("access_log", PStr "DENIED")].

Definition hvac_payload : pydict :=
  [("system", PStr "HVAC_System"); ("temperature", PStr "35.0");
   ("ac_status", PStr "ON")].

Definition hot_payload : pydict :=
  [("system", PStr "HVAC_System"); ("temperature", PFloat float_35);
   ("ac_status", PStr "ON")].

(** [10.0] *)
Definition float_10 : pyfloat := S754_finite false 5629499534213120 (-49).

Definition cold_record : pydict :=
  [("temperature", PFloat float_10); ("ac_state", PStr "OFF");
   ("ac2_state", PStr "OFF"); ("furnace_state", PStr "ON")].

Definition denied_payload : pydict :=
  [("system", PStr "Safe_Room"); ("factory", PStr "factory_2");
   ("last_card", PStr "A1B2"); ("access", PStr "DENIED")].

(** An access log that spells the denial in lower case. *)
Definition lowercase_denied_record : pydict :=
  [("rfid_last_card", PStr "A1B2"); ("access_log", PStr "denied");
   ("safe_door", PStr "LOCKED"); ("webcam_status", PStr "ON")].

(** A store that takes the first request and rejects the second. *)
Definition half_failing_store : World := set_faults [false; true] quiet_world.

(** An open fire alert, the world that holds it, the same world with a store
    that answers the select and rejects the write after it, and the world in
    which the alert has been resolved. *)
Definition open_fire_alert : AlertRow :=
  mkAlert 1 1 "FIRE_DETECTED" "CRITICAL" "fire" "Fire_Control" false "t0"
    None None.

Definition burning_world : World :=
  set_next_alert_id 2 (set_system_alerts [open_fire_alert] quiet_world).

Definition burning_world_rejecting_write : World :=
  set_faults [false; true] burning_world.

Definition resolved_world : World :=
  set_next_alert_id 2
    (set_system_alerts [resolved "t1" open_fire_alert] quiet_world).

(** A world with an open HIGH_TEMPERATURE alert. *)
Definition open_heat_alert : AlertRow :=
  mkAlert 1 1 "HIGH_TEMPERATURE" "WARNING" "hot" "HVAC_System" false "t0"
    None None.

Definition heated_world : World :=
  set_next_alert_id 2 (set_system_alerts [open_heat_alert] quiet_world).

(** * Properties *)

(** ** Substrings *)

Lemma prefix_spec (p s : string) :
  String.prefix p s = true <-> exists r, s = p ++ r.
Proof.
  revert s; induction p as [|c p IH]; intros s; simpl.
  - split; [intros _; exists s; reflexivity|].
    intros _; destruct s; reflexivity.
  - destruct s as [|c' s].
    + split; [discriminate | intros [r H]; discriminate].
    + simpl. destruct (ascii_dec c c') as [->|Hne].
      * rewrite IH. split; intros [r H]; exists r; [subst; reflexivity|].
        inversion H; reflexivity.
      * split; [discriminate|]. intros [r H]. inversion H. congruence.
Qed.

Lemma contains_unfold (needle s : string) :
  contains needle s =
  if String.prefix needle s then true
  else match s with
       | EmptyString => false
       | String _ rest => contains needle rest
       end.
Proof. destruct s; reflexivity. Qed.

Lemma contains_spec (needle s : string) :
  contains needle s = true <-> substring_of needle s.
Proof.
  unfold substring_of. induction s as [|c s IH]; rewrite contains_unfold.
  - destruct (String.prefix needle EmptyString) eqn:Hp.
    + split; [intros _|reflexivity].
      apply prefix_spec in Hp as [r Hr]. exists EmptyString, r. exact Hr.
    + split; [discriminate|]. intros (l & r & H).
      destruct l; simpl in H.
      * assert (String.prefix needle EmptyString = true)
          by (apply prefix_spec; eauto).
        congruence.
      * discriminate.
  - destruct (String.prefix needle (String c s)) eqn:Hp.
    + split; [intros _|reflexivity].
      apply prefix_spec in Hp as [r Hr]. exists EmptyString, r. exact Hr.
    + rewrite IH. split.
      * intros (l & r & H). exists (String c l), r. simpl. now rewrite H.
      * intros (l & r & H). destruct l as [|c' l]; simpl in H.
        -- assert (String.prefix needle (String c s) = true)
             by (apply prefix_spec; eauto).
           congruence.
        -- inversion H. eauto.
Qed.

(** ** The two reconciliation methods, whatever the store does *)

Ltac unfold_m :=
  unfold run, outcome, bind, try_except, execute, enter, print, utc_now, lift,
    ret, raise, select_open_alerts, update_alert_message, insert_alert,
    acknowledge_open_alerts, insert_telemetry, touch_factory,
    set_system_alerts, set_factory_data, set_factories, set_next_alert_id,
    set_ticks, set_faults, set_console, set_history in *.

Lemma create_unique_cases pk ty sev m sys w :
  let w' := run (_create_unique_alert pk ty sev m sys) w in
  outcome (_create_unique_alert pk ty sev m sys) w = Ok tt
  /\ history w' = (history w ++ [Call_create_unique_alert pk ty sev m sys])%list
  /\ factory_data w' = factory_data w
  /\ factories w' = factories w
  /\ clock w' = clock w
  /\ (system_alerts w' = system_alerts w
      \/ (exists first rest ts,
            open_alerts pk sys ty (system_alerts w) = first :: rest
            /\ a_message first <> m
            /\ system_alerts w'
               = map (refresh_row (a_id first) m ts) (system_alerts w))
      \/ (open_alerts pk sys ty (system_alerts w) = []
          /\ exists row,
               inserted_for pk ty sev m sys row
               /\ system_alerts w' = (system_alerts w ++ [row])%list)).
Proof.
  destruct w as [al fd fa nid ck tk fl co hi].
  unfold _create_unique_alert, open_alerts, inserted_for. unfold_m. simpl.
  destruct fl as [|[|] fl]; simpl;
    try (repeat split; auto; fail);
    destruct (filter (is_open_for pk sys ty) al) as [|first rest] eqn:Hopen;
    simpl;
    try (destruct (String.eqb_spec (a_message first) m) as [Hm|Hm]; simpl);
    try (destruct fl as [|[|] fl]; simpl);
    repeat (split; [reflexivity|]);
    first
      [ left; reflexivity
      | right; left; exists first, rest; eexists; repeat split; eauto; fail
      | right; right; split; [reflexivity|]; eexists; split;
        [|reflexivity]; repeat split ].
Qed.

Lemma auto_acknowledge_cases pk sys ty w :
  let w' := run (_auto_acknowledge_alert pk sys ty) w in
  outcome (_auto_acknowledge_alert pk sys ty) w = Ok tt
  /\ history w' = (history w ++ [Call_auto_acknowledge_alert pk sys ty])%list
  /\ factory_data w' = factory_data w
  /\ factories w' = factories w
  /\ clock w' = clock w
  /\ (system_alerts w' = system_alerts w
      \/ exists ts,
           system_alerts w'
           = map (acknowledge_row pk sys ty ts) (system_alerts w)).
Proof.
  destruct w as [al fd fa nid ck tk fl co hi].
  unfold _auto_acknowledge_alert. unfold_m. simpl.
  destruct fl as [|[|] fl]; simpl; repeat (split; [reflexivity|]);
    first [left; reflexivity | right; eexists; reflexivity].
Qed.

(** Sequencing. *)
Lemma run_bind {A B} (c : M A) (k : A -> M B) w :
  run (bind c k) w =
  match outcome c w with
  | Ok a => run (k a) (run c w)
  | Raise _ => run c w
  end.
Proof.
  unfold run, outcome, bind. destruct (c w) as [[a|e] w']; reflexivity.
Qed.

Lemma outcome_bind {A B} (c : M A) (k : A -> M B) w :
  outcome (bind c k) w =
  match outcome c w with
  | Ok a => outcome (k a) (run c w)
  | Raise e => Raise e
  end.
Proof.
  unfold run, outcome, bind. destruct (c w) as [[a|e] w']; reflexivity.
Qed.

Lemma run_try {A} (c : M A) (h : pyexn -> M A) w :
  run (try_except c h) w =
  match outcome c w with
  | Ok _ => run c w
  | Raise e => run (h e) (run c w)
  end.
Proof.
  unfold run, outcome, try_except. destruct (c w) as [[a|e] w']; reflexivity.
Qed.

Lemma outcome_try {A} (c : M A) (h : pyexn -> M A) w :
  outcome (try_except c h) w =
  match outcome c w with
  | Ok a => Ok a
  | Raise e => outcome (h e) (run c w)
  end.
Proof.
  unfold run, outcome, try_except. destruct (c w) as [[a|e] w']; reflexivity.
Qed.

Lemma emits_bind_ok {A B} (c : M A) (k : A -> M B) calls1 calls2 a r :
  emits c calls1 (Ok a) -> emits (k a) calls2 r ->
  emits (bind c k) (calls1 ++ calls2) r.
Proof.
  intros Hc Hk w. destruct (Hc w) as [Ho Hh].
  rewrite outcome_bind, run_bind, Ho.
  destruct (Hk (run c w)) as [Ho' Hh'].
  split; [exact Ho'|]. rewrite Hh', Hh, app_assoc. reflexivity.
Qed.

Lemma emits_bind_raise {A B} (c : M A) (k : A -> M B) calls e :
  emits c calls (Raise e) -> emits (bind c k) calls (Raise e).
Proof.
  intros Hc w. destruct (Hc w) as [Ho Hh].
  rewrite outcome_bind, run_bind, Ho. auto.
Qed.

Lemma emits_lift {A} (r : res A) : emits (lift r) [] r.
Proof. intros w. unfold outcome, run, lift. simpl. now rewrite app_nil_r. Qed.

Lemma emits_ret {A} (a : A) : emits (ret a) [] (Ok a).
Proof. intros w. unfold outcome, run, ret. simpl. now rewrite app_nil_r. Qed.

Lemma emits_create_unique pk ty sev m sys :
  emits (_create_unique_alert pk ty sev m sys)
    [Call_create_unique_alert pk ty sev m sys] (Ok tt).
Proof.
  intros w. destruct (create_unique_cases pk ty sev m sys w) as (Ho & Hh & _).
  auto.
Qed.

Lemma emits_auto_acknowledge pk sys ty :
  emits (_auto_acknowledge_alert pk sys ty)
    [Call_auto_acknowledge_alert pk sys ty] (Ok tt).
Proof.
  intros w. destruct (auto_acknowledge_cases pk sys ty w) as (Ho & Hh & _).
  auto.
Qed.

Section RuleCalls.
Context (rt : Runtime).

Lemma emits_fire_rule t pk sys :
  emits (fire_rule rt t pk sys) (fire_calls rt t pk sys) (Ok tt).
Proof.
  unfold fire_rule, fire_calls.
  destruct (contains "FIRE" (fire_status_of rt t)
            && negb (String.eqb (fire_status_of rt t) "SAFE")).
  - apply emits_create_unique.
  - apply emits_auto_acknowledge.
Qed.

Lemma emits_temperature_rule t pk sys :
  emits (temperature_rule rt t pk sys)
    match temperature_of rt t with
    | Ok temp => temperature_calls rt t temp pk sys
    | Raise _ => []
    end
    match temperature_of rt t with
    | Ok _ => Ok tt
    | Raise e => Raise e
    end.
Proof.
  unfold temperature_rule, temperature_calls.
  destruct (temperature_of rt t) as [[temp|]|e].
  - apply (emits_bind_ok _ _ [] _ (Some temp)); [apply emits_lift|].
    destruct (SFltb (temperature_high ALERT_THRESHOLDS) temp).
    + apply emits_create_unique.
    + destruct (SFltb temp (temperature_low ALERT_THRESHOLDS)).
      * apply emits_create_unique.
      * apply (emits_bind_ok _ _ [_] [_] tt); apply emits_auto_acknowledge.
  - apply (emits_bind_ok _ _ [] _ None); [apply emits_lift|apply emits_ret].
  - apply emits_bind_raise, emits_lift.
Qed.

Lemma emits_battery_rule t pk sys :
  emits (battery_rule rt t pk sys)
    match battery_calls rt t pk sys with
    | Ok calls => calls
    | Raise _ => []
    end
    match battery_calls rt t pk sys with
    | Ok _ => Ok tt
    | Raise e => Raise e
    end.
Proof.
  unfold battery_rule, battery_calls.
  destruct (py_truthy (dict_get t "battery_level")); [|apply emits_ret].
  destruct (py_lt_float _ _) as [[|]|e].
  - apply (emits_bind_ok _ _ [] _ true); [apply emits_lift|].
    destruct (py_format_1f _) as [level|e].
    + apply (emits_bind_ok _ _ [] _ level); [apply emits_lift|].
      apply emits_create_unique.
    + apply emits_bind_raise, emits_lift.
  - apply (emits_bind_ok _ _ [] _ false); [apply emits_lift|].
    apply emits_auto_acknowledge.
  - apply emits_bind_raise, emits_lift.
Qed.

End RuleCalls.

(** ** The calls of one evaluation *)

Lemma emits_enters {A} (c : M A) calls r : emits c calls r -> enters c calls.
Proof. intros H w. apply H. Qed.

Lemma enters_bind_ok {A B} (c : M A) (k : A -> M B) calls1 calls2 a :
  emits c calls1 (Ok a) -> enters (k a) calls2 ->
  enters (bind c k) (calls1 ++ calls2).
Proof.
  intros Hc Hk w. destruct (Hc w) as [Ho Hh].
  rewrite run_bind, Ho, Hk, Hh, app_assoc. reflexivity.
Qed.

Lemma enters_bind_raise {A B} (c : M A) (k : A -> M B) calls e :
  emits c calls (Raise e) -> enters (bind c k) calls.
Proof. intros Hc w. destruct (Hc w) as [Ho Hh]. now rewrite run_bind, Ho. Qed.

Lemma enters_try {A} (c : M A) (h : pyexn -> M A) calls :
  enters c calls -> (forall e, enters (h e) []) ->
  enters (try_except c h) calls.
Proof.
  intros Hc Hh w. rewrite run_try. destruct (outcome c w); [apply Hc|].
  rewrite Hh, app_nil_r. apply Hc.
Qed.

Lemma enters_print l : enters (print l) [].
Proof. intros w. unfold run, print. simpl. now rewrite app_nil_r. Qed.

Lemma emits_enter c : emits (enter c) [c] (Ok tt).
Proof. intros w. split; reflexivity. Qed.

Lemma enters_access_rule rt t pk sys : enters (access_rule rt t pk sys) [].
Proof.
  intros w. unfold access_rule.
  destruct (py_eq_str (dict_get t "access_log") "DENIED").
  - destruct w as [al fd fa nid ck tk fl co hi]. unfold_m. simpl.
    destruct fl as [|[|] fl]; simpl; now rewrite app_nil_r.
  - unfold run, ret. simpl. now rewrite app_nil_r.
Qed.

Lemma calls_of_enters {A} (c : M A) calls w :
  enters c calls -> calls_of c w = calls.
Proof.
  intros H. unfold calls_of. rewrite H.
  rewrite skipn_app, skipn_all, Nat.sub_diag. reflexivity.
Qed.

Lemma enters_rules rt t pk sys :
  enters (alert_rules rt t pk sys) (rule_calls rt t pk sys).
Proof.
  unfold alert_rules, rule_calls.
  eapply enters_bind_ok; [apply emits_fire_rule|].
  pose proof (emits_temperature_rule rt t pk sys) as Ht.
  pose proof (emits_battery_rule rt t pk sys) as Hb.
  destruct (temperature_of rt t) as [temp|e].
  - eapply enters_bind_ok; [exact Ht|].
    destruct (battery_calls rt t pk sys) as [calls|e].
    + rewrite <- (app_nil_r calls) at 1.
      eapply enters_bind_ok; [exact Hb|]. apply enters_access_rule.
    + eapply enters_bind_raise; exact Hb.
  - eapply enters_bind_raise; exact Ht.
Qed.

Lemma check_calls rt t factory_id sys w :
  calls_of (_check_and_create_alerts rt t factory_id sys) w
  = Call_check_and_create_alerts t factory_id sys
      :: evaluation_calls rt t factory_id sys.
Proof.
  apply calls_of_enters. unfold _check_and_create_alerts, evaluation_calls.
  apply (enters_bind_ok _ _ [_] _ tt); [apply emits_enter|].
  apply enters_try; [|intros e; apply enters_print].
  destruct (table_get factory_lookup factory_id) as [[pk|]|e].
  - apply (enters_bind_ok _ _ [] _ (Some pk)); [apply emits_lift|].
    apply enters_rules.
  - apply (enters_bind_ok _ _ [] _ None); [apply emits_lift|].
    apply emits_enters with (r := Ok tt), emits_ret.
  - eapply enters_bind_raise, emits_lift.
Qed.

Lemma check_returns rt t factory_id sys w :
  outcome (_check_and_create_alerts rt t factory_id sys) w = Ok tt.
Proof.
  unfold _check_and_create_alerts. rewrite outcome_bind. simpl.
  rewrite outcome_try.
  match goal with |- match ?o with _ => _ end = _ => destruct o as [[]|e] end;
    reflexivity.
Qed.

(** ** The fire rule *)

Lemma finite_lt_excludes_gt (x : pyfloat) (m1 m2 : positive) (e1 e2 : Z) :
  e1 < e2 ->
  SFltb x (S754_finite false m1 e1) = true ->
  SFltb (S754_finite false m2 e2) x = false.
Proof.
  intros He. unfold SFltb, SFcompare.
  destruct x as [s|s| |s m e]; try destruct s; try discriminate;
    try reflexivity.
  destruct (Z.compare_spec e e1); destruct (Z.compare_spec e2 e);
    try lia; try discriminate; reflexivity.
Qed.

Lemma low_excludes_high (temp : pyfloat) :
  SFltb temp (temperature_low ALERT_THRESHOLDS) = true ->
  SFltb (temperature_high ALERT_THRESHOLDS) temp = false.
Proof. apply finite_lt_excludes_gt. reflexivity. Qed.

Section RuleTypes.
Context (rt : Runtime).

Lemma fire_calls_type t pk sys c :
  In c (fire_calls rt t pk sys) -> call_type c = Some "FIRE_DETECTED".
Proof.
  unfold fire_calls. destruct (_ && _); simpl; intros [<-|[]]; reflexivity.
Qed.

Lemma temperature_calls_type t temp pk sys c :
  In c (temperature_calls rt t temp pk sys) ->
  call_type c = Some "HIGH_TEMPERATURE"
  \/ call_type c = Some "LOW_TEMPERATURE".
Proof.
  unfold temperature_calls. destruct temp as [temp|]; [|intros []].
  destruct (SFltb _ temp); [|destruct (SFltb temp _)]; simpl;
    intuition (subst; auto).
Qed.

Lemma battery_calls_type t pk sys calls c :
  battery_calls rt t pk sys = Ok calls -> In c calls ->
  call_type c = Some "LOW_BATTERY".
Proof.
  unfold battery_calls. destruct (py_truthy _).
  - destruct (py_lt_float _ _) as [[|]|e]; try discriminate.
    + destruct (py_format_1f _); try discriminate.
      intros [= <-] [<-|[]]; reflexivity.
    + intros [= <-] [<-|[]]; reflexivity.
  - intros [= <-] [].
Qed.

(** Every call of an evaluation comes from the block of its alert type. *)
Lemma rule_calls_inv t pk sys c :
  In c (rule_calls rt t pk sys) ->
  In c (fire_calls rt t pk sys)
  \/ (exists temp, temperature_of rt t = Ok temp
                   /\ In c (temperature_calls rt t temp pk sys))
  \/ (exists temp calls, temperature_of rt t = Ok temp
                   /\ battery_calls rt t pk sys = Ok calls /\ In c calls).
Proof.
  unfold rule_calls. rewrite in_app_iff. intros [H|H]; [now left|].
  destruct (temperature_of rt t) as [temp|e]; [|destruct H].
  rewrite in_app_iff in H. destruct H as [H|H]; [right; left; eauto|].
  destruct (battery_calls rt t pk sys) as [calls|e]; [|destruct H].
  right; right; eauto.
Qed.

Lemma fire_calls_in_rule_calls t pk sys c :
  In c (fire_calls rt t pk sys) -> In c (rule_calls rt t pk sys).
Proof. unfold rule_calls. rewrite in_app_iff. auto. Qed.

Lemma temperature_calls_in_rule_calls t temp pk sys c :
  temperature_of rt t = Ok temp ->
  In c (temperature_calls rt t temp pk sys) -> In c (rule_calls rt t pk sys).
Proof.
  unfold rule_calls. intros -> H. rewrite !in_app_iff. auto.
Qed.

Lemma battery_calls_in_rule_calls t temp pk sys calls c :
  temperature_of rt t = Ok temp ->
  battery_calls rt t pk sys = Ok calls ->
  In c calls -> In c (rule_calls rt t pk sys).
Proof.
  unfold rule_calls. intros -> -> H. rewrite !in_app_iff. auto.
Qed.

(** A call about one alert type is made by the block of that type. *)
Lemma fire_call_origin t pk sys c :
  In c (rule_calls rt t pk sys) -> call_type c = Some "FIRE_DETECTED" ->
  In c (fire_calls rt t pk sys).
Proof.
  intros H Hty.
  apply rule_calls_inv in H
    as [H|[(temp & _ & H)|(temp & calls & _ & Hb & H)]].
  - exact H.
  - apply temperature_calls_type in H as [H|H]; congruence.
  - apply (battery_calls_type _ _ _ _ _ Hb) in H. congruence.
Qed.

Lemma temperature_call_origin t pk sys c :
  In c (rule_calls rt t pk sys) ->
  call_type c = Some "HIGH_TEMPERATURE"
  \/ call_type c = Some "LOW_TEMPERATURE" ->
  exists temp, temperature_of rt t = Ok temp
               /\ In c (temperature_calls rt t temp pk sys).
Proof.
  intros H Hty.
  apply rule_calls_inv in H as [H|[H|(temp & calls & _ & Hb & H)]].
  - apply fire_calls_type in H. destruct Hty; congruence.
  - exact H.
  - apply (battery_calls_type _ _ _ _ _ Hb) in H. destruct Hty; congruence.
Qed.

Lemma battery_call_origin t pk sys c :
  In c (rule_calls rt t pk sys) -> call_type c = Some "LOW_BATTERY" ->
  exists temp calls, temperature_of rt t = Ok temp
    /\ battery_calls rt t pk sys = Ok calls /\ In c calls.
Proof.
  intros H Hty. apply rule_calls_inv in H as [H|[(temp & _ & H)|H]].
  - apply fire_calls_type in H. congruence.
  - apply temperature_calls_type in H as [H|H]; congruence.
  - exact H.
Qed.

End RuleTypes.

(** The calls of an evaluation for a known factory. *)
(** The calls of the rule engine. *)
Lemma rules_calls rt t pk sys w :
  calls_of (alert_rules rt t pk sys) w = rule_calls rt t pk sys.
Proof. apply calls_of_enters, enters_rules. Qed.

Lemma known_factory_calls rt t factory_id pk sys w :
  table_get factory_lookup factory_id = Ok (Some pk) ->
  calls_of (_check_and_create_alerts rt t factory_id sys) w
  = Call_check_and_create_alerts t factory_id sys :: rule_calls rt t pk sys.
Proof.
  intros H. rewrite check_calls. unfold evaluation_calls. now rewrite H.
Qed.

Lemma fire_condition status :
  contains "FIRE" status && negb (String.eqb status "SAFE") = true
  <-> is_fire status.
Proof.
  unfold is_fire. rewrite andb_true_iff, contains_spec, negb_true_iff.
  destruct (String.eqb_spec status "SAFE"); intuition congruence.
Qed.

(** ** Upper-casing *)

Lemma reference_upper_on_ascii : upper_on_ascii reference_runtime.
Proof. intros s _. reflexivity. Qed.

Lemma wide_upper_unfold c rest :
  wide_upper (String c rest) =
  match rest with
  | String c2 rest2 =>
      if byte_is c 196 && byte_is c2 177 then String "I" (wide_upper rest2)
      else
        match rest2 with
        | String c3 rest3 =>
            if byte_is c 239 && byte_is c2 172 && byte_is c3 129
            then String "F" (String "I" (wide_upper rest3))
            else String (upper_ascii c) (wide_upper rest)
        | EmptyString => String (upper_ascii c) (wide_upper rest)
        end
  | EmptyString => String (upper_ascii c) EmptyString
  end.
Proof. destruct rest as [|c2 [|c3 rest3]]; reflexivity. Qed.

Lemma wide_upper_on_ascii : upper_on_ascii wide_runtime.
Proof.
  intros s. change (py_upper wide_runtime s) with (wide_upper s).
  induction s as [|c rest IH]; [reflexivity|].
  change (is_ascii (String c rest))
    with ((nat_of_ascii c <? 128)%nat && is_ascii rest).
  rewrite andb_true_iff, Nat.ltb_lt. intros [Hc Hrest].
  specialize (IH Hrest).
  assert (H196 : byte_is c 196 = false) by (apply Nat.eqb_neq; lia).
  assert (H239 : byte_is c 239 = false) by (apply Nat.eqb_neq; lia).
  rewrite wide_upper_unfold, H196, H239.
  destruct rest as [|c2 [|c3 rest3]]; cbn [andb]; rewrite ?IH; reflexivity.
Qed.

(** The status text of a record whose fire status is a string, or is
    absent. *)
Lemma fire_status_of_text rt t s :
  dict_find t "fire_status" = Some (PStr s) ->
  fire_status_of rt t = py_upper rt s.
Proof. intros Hs. unfold fire_status_of, dict_get_or. now rewrite Hs. Qed.

Lemma fire_status_of_absent rt t :
  dict_find t "fire_status" = None ->
  fire_status_of rt t = py_upper rt EmptyString.
Proof. intros Hs. unfold fire_status_of, dict_get_or. now rewrite Hs. Qed.

(** C4.  For every telemetry record, the rule engine asserts
    FIRE_DETECTED, with severity CRITICAL, exactly when the upper-cased text
    of the record's fire status contains "FIRE" and is not "SAFE", and
    clears FIRE_DETECTED exactly when it does not.  The upper-casing is
    that of [str.upper()]: for a status that is a string it is the
    runtime's [py_upper] of that string, whatever letters it holds, and on
    ASCII text, where every runtime raises the letters a to z and keeps the
    rest, it is [upper].  So a status "FIRE_1" asserts, and so does
    "fire_1"; "SAFE" and "safe" clear; "FIRE_SAFE" still asserts; and a
    record without a fire status clears.  For a known factory the method
    [_check_and_create_alerts] makes exactly the calls of the rule
    engine. *)
Theorem fire_detected_rule rt t pk sys w :
  let calls := calls_of (alert_rules rt t pk sys) w in
  let status := fire_status_of rt t in
  (asserts pk sys "FIRE_DETECTED" "CRITICAL" calls <-> is_fire status)
  /\ (clears pk sys "FIRE_DETECTED" calls <-> ~ is_fire status)
  /\ (forall c, In c calls -> asserted_type "FIRE_DETECTED" c ->
        exists m, c = Call_create_unique_alert pk "FIRE_DETECTED" "CRITICAL"
                        m sys)
  /\ (forall s, dict_find t "fire_status" = Some (PStr s) ->
        status = py_upper rt s)
  /\ (upper_on_ascii rt ->
      (forall s, dict_find t "fire_status" = Some (PStr s) ->
         is_ascii s = true -> status = upper s)
      /\ (dict_find t "fire_status" = Some (PStr "FIRE_1") ->
            asserts pk sys "FIRE_DETECTED" "CRITICAL" calls)
      /\ (dict_find t "fire_status" = Some (PStr "fire_1") ->
            asserts pk sys "FIRE_DETECTED" "CRITICAL" calls)
      /\ (dict_find t "fire_status" = Some (PStr "SAFE") ->
            clears pk sys "FIRE_DETECTED" calls
            /\ ~ asserts pk sys "FIRE_DETECTED" "CRITICAL" calls)
      /\ (dict_find t "fire_status" = Some (PStr "safe") ->
            clears pk sys "FIRE_DETECTED" calls
            /\ ~ asserts pk sys "FIRE_DETECTED" "CRITICAL" calls)
      /\ (dict_find t "fire_status" = Some (PStr "FIRE_SAFE") ->
            asserts pk sys "FIRE_DETECTED" "CRITICAL" calls)
      /\ (dict_find t "fire_status" = None ->
            clears pk sys "FIRE_DETECTED" calls
            /\ ~ asserts pk sys "FIRE_DETECTED" "CRITICAL" calls))
  /\ (forall factory_id,
        table_get factory_lookup factory_id = Ok (Some pk) ->
        calls_of (_check_and_create_alerts rt t factory_id sys) w
        = Call_check_and_create_alerts t factory_id sys :: calls).
Proof.
  intros calls status. subst calls. rewrite rules_calls.
  assert (Hassert : asserts pk sys "FIRE_DETECTED" "CRITICAL"
            (rule_calls rt t pk sys) <-> is_fire status).
  { unfold asserts. rewrite <- fire_condition. split.
    - intros (m & Hc).
      apply fire_call_origin in Hc; [|reflexivity].
      unfold fire_calls in Hc. fold status in Hc.
      destruct (_ && _); [reflexivity|].
      destruct Hc as [Hc|[]]; discriminate.
    - intros Hf. eexists. apply fire_calls_in_rule_calls.
      unfold fire_calls. fold status. rewrite Hf. left. reflexivity. }
  assert (Hclear : clears pk sys "FIRE_DETECTED" (rule_calls rt t pk sys)
                   <-> ~ is_fire status).
  { unfold clears. rewrite <- fire_condition. split.
    - intros Hc.
      apply fire_call_origin in Hc; [|reflexivity].
      unfold fire_calls in Hc. fold status in Hc.
      destruct (_ && _); [|discriminate].
      destruct Hc as [Hc|[]]; discriminate.
    - intros Hf. apply fire_calls_in_rule_calls.
      unfold fire_calls. fold status.
      destruct (_ && _); [congruence|]. left. reflexivity. }
  split; [exact Hassert|]. split; [exact Hclear|].
  split; [|split; [|split]].
  - intros c Hc (pk' & sev & m & sys' & ->).
    apply fire_call_origin in Hc; [|reflexivity].
    unfold fire_calls in Hc. destruct (_ && _); destruct Hc as [Hc|[]];
      [|discriminate].
    inversion Hc; subst. eauto.
  - intros s Hs. now apply fire_status_of_text.
  - intros Hupper.
    assert (Hstatus : forall s, dict_find t "fire_status" = Some (PStr s) ->
              is_ascii s = true -> status = upper s).
    { intros s Hs Ha. unfold status.
      rewrite (fire_status_of_text rt t s Hs). now apply Hupper. }
    assert (Hfires : forall s, dict_find t "fire_status" = Some (PStr s) ->
              is_ascii s = true ->
              contains "FIRE" (upper s) && negb (String.eqb (upper s) "SAFE")
              = true ->
              asserts pk sys "FIRE_DETECTED" "CRITICAL"
                (rule_calls rt t pk sys)).
    { intros s Hs Ha Hc. apply Hassert, fire_condition.
      now rewrite (Hstatus s Hs Ha). }
    assert (Hquiet : forall text, status = upper text ->
              contains "FIRE" (upper text)
              && negb (String.eqb (upper text) "SAFE") = false ->
              clears pk sys "FIRE_DETECTED" (rule_calls rt t pk sys)
              /\ ~ asserts pk sys "FIRE_DETECTED" "CRITICAL"
                     (rule_calls rt t pk sys)).
    { intros text Hst Hc. assert (Hn : ~ is_fire status).
      { rewrite <- fire_condition, Hst, Hc. discriminate. }
      split; [now apply Hclear | now rewrite Hassert]. }
    split; [exact Hstatus|]. split; [|split; [|split; [|split; [|split]]]].
    + intros Hs. now apply (Hfires _ Hs).
    + intros Hs. now apply (Hfires _ Hs).
    + intros Hs. apply (Hquiet "SAFE"); [now apply Hstatus|reflexivity].
    + intros Hs. apply (Hquiet "safe"); [now apply Hstatus|reflexivity].
    + intros Hs. now apply (Hfires _ Hs).
    + intros Hs. apply (Hquiet EmptyString); [|reflexivity].
      unfold status. rewrite (fire_status_of_absent rt t Hs).
      now apply Hupper.
  - intros factory_id Hpk. now apply known_factory_calls.
Qed.

(** ** The temperature rules *)

Lemma temperature_of_null rt t :
  dict_get t "temperature" = PNone -> temperature_of rt t = Ok None.
Proof. unfold temperature_of. now intros ->. Qed.

Lemma temperature_of_float rt t temp :
  dict_get t "temperature" = PFloat temp ->
  temperature_of rt t = Ok (Some temp).
Proof. unfold temperature_of. now intros ->. Qed.

(** C5.  For every telemetry record whose temperature converts to a float,
    the rule engine asserts HIGH_TEMPERATURE, with severity WARNING, exactly
    when the temperature is above [temperature_high], and LOW_TEMPERATURE
    exactly when it is below [temperature_low]; never both; and it clears
    both exactly when neither holds.  A float in the record is such a
    temperature.  When the temperature is null or absent, no call is made
    about either alert.  For a known factory the method
    [_check_and_create_alerts] makes exactly the calls of the rule engine. *)
Theorem temperature_rules rt t pk sys w :
  let calls := calls_of (alert_rules rt t pk sys) w in
  (forall temp,
     temperature_of rt t = Ok (Some temp) ->
     let high := SFltb (temperature_high ALERT_THRESHOLDS) temp = true in
     let low := SFltb temp (temperature_low ALERT_THRESHOLDS) = true in
     (asserts pk sys "HIGH_TEMPERATURE" "WARNING" calls <-> high)
     /\ (asserts pk sys "LOW_TEMPERATURE" "WARNING" calls <-> low)
     /\ ~ (high /\ low)
     /\ (clears pk sys "HIGH_TEMPERATURE" calls
         /\ clears pk sys "LOW_TEMPERATURE" calls <-> ~ high /\ ~ low)
     /\ (forall c, In c calls ->
           asserted_type "HIGH_TEMPERATURE" c
           \/ asserted_type "LOW_TEMPERATURE" c ->
           exists ty m, c = Call_create_unique_alert pk ty "WARNING" m sys))
  /\ (forall temp, dict_get t "temperature" = PFloat temp ->
        temperature_of rt t = Ok (Some temp))
  /\ (dict_get t "temperature" = PNone ->
        silent_about "HIGH_TEMPERATURE" calls
        /\ silent_about "LOW_TEMPERATURE" calls)
  /\ (forall factory_id,
        table_get factory_lookup factory_id = Ok (Some pk) ->
        calls_of (_check_and_create_alerts rt t factory_id sys) w
        = Call_check_and_create_alerts t factory_id sys :: calls).
Proof.
  intros calls. subst calls. rewrite rules_calls.
  split; [|split; [intros temp; apply temperature_of_float|split]].
  - intros temp Ht high low.
    assert (Horigin : forall c,
              In c (rule_calls rt t pk sys) ->
              call_type c = Some "HIGH_TEMPERATURE"
              \/ call_type c = Some "LOW_TEMPERATURE" ->
              In c (temperature_calls rt t (Some temp) pk sys)).
    { intros c Hc Hty.
      destruct (temperature_call_origin rt _ _ _ _ Hc Hty) as (temp' & Ht' & H).
      congruence. }
    assert (Hmade : forall c,
              In c (temperature_calls rt t (Some temp) pk sys) ->
              In c (rule_calls rt t pk sys)).
    { intros c Hc. eapply temperature_calls_in_rule_calls; eauto. }
    assert (Hexcl : ~ (high /\ low)).
    { intros [Hh Hl]. apply low_excludes_high in Hl. unfold high in Hh.
      congruence. }
    unfold asserts, clears. subst high low.
    unfold temperature_calls in Horigin, Hmade.
    set (L := rule_calls rt t pk sys) in *.
    assert (Hsev : forall c, In c L ->
              asserted_type "HIGH_TEMPERATURE" c
              \/ asserted_type "LOW_TEMPERATURE" c ->
              exists ty m, c = Call_create_unique_alert pk ty "WARNING" m sys).
    { intros c Hc Hty.
      assert (Hin := Horigin c Hc).
      destruct Hty as [(?&?&?&?&->)|(?&?&?&?&->)];
        (lapply Hin; [clear Hin; intros Hin|simpl; auto]);
        destruct (SFltb (temperature_high ALERT_THRESHOLDS) temp);
        [| destruct (SFltb temp (temperature_low ALERT_THRESHOLDS)) | |
           destruct (SFltb temp (temperature_low ALERT_THRESHOLDS)) ];
        simpl in Hin; intuition (try discriminate); eauto. }
    destruct (SFltb (temperature_high ALERT_THRESHOLDS) temp) eqn:Hh;
      [|destruct (SFltb temp (temperature_low ALERT_THRESHOLDS)) eqn:Hl].
    + (* above the high threshold *)
      assert (Hl : SFltb temp (temperature_low ALERT_THRESHOLDS) = false).
      { destruct (SFltb temp _) eqn:E; [|reflexivity].
        apply low_excludes_high in E. congruence. }
      rewrite Hl. split; [|split; [|split; [|split]]].
      * split; [reflexivity|]. intros _. eexists. apply Hmade. left.
        reflexivity.
      * split; [|discriminate]. intros (m & Hc).
        apply Horigin in Hc; [|simpl; auto]. destruct Hc as [Hc|[]].
        discriminate.
      * intros [_ ?]. discriminate.
      * split; [|intros [? _]; congruence]. intros [Hc _].
        apply Horigin in Hc; [|simpl; auto]. destruct Hc as [Hc|[]].
        discriminate.
      * exact Hsev.
    + (* below the low threshold *)
      split; [|split; [|split; [|split]]].
      * split; [|discriminate]. intros (m & Hc).
        apply Horigin in Hc; [|simpl; auto]. destruct Hc as [Hc|[]].
        discriminate.
      * split; [reflexivity|]. intros _. eexists. apply Hmade. left.
        reflexivity.
      * exact Hexcl.
      * split; [|intros [_ ?]; congruence]. intros [Hc _].
        apply Horigin in Hc; [|simpl; auto]. destruct Hc as [Hc|[]].
        discriminate.
      * exact Hsev.
    + (* neither: both cleared *)
      split; [|split; [|split; [|split]]].
      * split; [|discriminate]. intros (m & Hc).
        apply Horigin in Hc; [|simpl; auto].
        destruct Hc as [Hc|[Hc|[]]]; discriminate.
      * split; [|discriminate]. intros (m & Hc).
        apply Horigin in Hc; [|simpl; auto].
        destruct Hc as [Hc|[Hc|[]]]; discriminate.
      * exact Hexcl.
      * split; [intros _; split; discriminate|]. intros _. split.
        -- apply Hmade. left. reflexivity.
        -- apply Hmade. right. left. reflexivity.
      * exact Hsev.
  - intros Hnull. apply (temperature_of_null rt) in Hnull.
    split; intros c Hc Hty.
    + destruct (temperature_call_origin rt _ _ _ _ Hc (or_introl Hty))
        as (temp' & Ht' & H).
      rewrite Hnull in Ht'. inversion Ht'; subst. destruct H.
    + destruct (temperature_call_origin rt _ _ _ _ Hc (or_intror Hty))
        as (temp' & Ht' & H).
      rewrite Hnull in Ht'. inversion Ht'; subst. destruct H.
  - intros factory_id Hpk. now apply known_factory_calls.
Qed.

(** ** Open alerts per tuple *)

(** *** Rows and counts *)

Lemma filter_map_stable {A} (p : A -> bool) (f : A -> A) (l : list A) :
  (forall x, p (f x) = p x) -> filter p (map f l) = map f (filter p l).
Proof.
  intros H. induction l as [|x l IH]; simpl; [reflexivity|].
  rewrite H. destruct (p x); simpl; now rewrite IH.
Qed.

Lemma is_open_for_spec pk sys ty row :
  is_open_for pk sys ty row = true <->
  a_factory_id row = pk /\ a_system_name row = sys /\ a_alert_type row = ty
  /\ a_acknowledged row = false.
Proof.
  unfold is_open_for. rewrite !andb_true_iff, Z.eqb_eq, !String.eqb_eq,
    negb_true_iff. tauto.
Qed.

Lemma refresh_row_open pk sys ty alert_id m ts row :
  is_open_for pk sys ty (refresh_row alert_id m ts row)
  = is_open_for pk sys ty row.
Proof. unfold refresh_row. destruct (a_id row =? alert_id); reflexivity. Qed.

Lemma open_alerts_refresh pk sys ty alert_id m ts rows :
  open_alerts pk sys ty (map (refresh_row alert_id m ts) rows)
  = map (refresh_row alert_id m ts) (open_alerts pk sys ty rows).
Proof.
  unfold open_alerts. apply filter_map_stable. intros x.
  apply refresh_row_open.
Qed.

Lemma open_count_refresh pk sys ty alert_id m ts rows :
  open_count pk sys ty (map (refresh_row alert_id m ts) rows)
  = open_count pk sys ty rows.
Proof. unfold open_count. now rewrite open_alerts_refresh, length_map. Qed.

Lemma open_count_app pk sys ty rows row :
  open_count pk sys ty (rows ++ [row])
  = (open_count pk sys ty rows
     + if is_open_for pk sys ty row then 1 else 0)%nat.
Proof.
  unfold open_count, open_alerts. rewrite filter_app, length_app. simpl.
  destruct (is_open_for pk sys ty row); reflexivity.
Qed.

(** Acknowledging the open rows of one tuple closes them and leaves the
    other tuples alone. *)
Lemma acknowledge_row_open pk sys ty ts pk' sys' ty' row :
  is_open_for pk' sys' ty' (acknowledge_row pk sys ty ts row)
  = is_open_for pk' sys' ty' row && negb (is_open_for pk sys ty row).
Proof.
  unfold acknowledge_row.
  destruct (is_open_for pk sys ty row) eqn:H; simpl.
  - unfold is_open_for. simpl. rewrite !andb_false_r. reflexivity.
  - now rewrite andb_true_r.
Qed.

Lemma open_count_acknowledge_le pk sys ty ts pk' sys' ty' rows :
  (open_count pk' sys' ty' (map (acknowledge_row pk sys ty ts) rows)
   <= open_count pk' sys' ty' rows)%nat.
Proof.
  unfold open_count, open_alerts.
  induction rows as [|r rows IH]; simpl; [lia|].
  rewrite acknowledge_row_open.
  destruct (is_open_for pk' sys' ty' r), (is_open_for pk sys ty r);
    simpl; lia.
Qed.

Lemma open_count_acknowledge_same pk sys ty ts rows :
  open_count pk sys ty (map (acknowledge_row pk sys ty ts) rows) = 0%nat.
Proof.
  unfold open_count, open_alerts.
  induction rows as [|r rows IH]; simpl; [reflexivity|].
  rewrite acknowledge_row_open.
  destruct (is_open_for pk sys ty r); simpl; exact IH.
Qed.

Lemma open_count_acknowledge_other pk sys ty ts pk' sys' ty' rows :
  ty' <> ty ->
  open_count pk' sys' ty' (map (acknowledge_row pk sys ty ts) rows)
  = open_count pk' sys' ty' rows.
Proof.
  intros Hty. unfold open_count, open_alerts.
  induction rows as [|r rows IH]; simpl; [reflexivity|].
  rewrite acknowledge_row_open.
  destruct (is_open_for pk' sys' ty' r) eqn:H1,
           (is_open_for pk sys ty r) eqn:H2; simpl; try now rewrite IH.
  apply is_open_for_spec in H1, H2. exfalso. apply Hty.
  destruct H1 as (_ & _ & <- & _), H2 as (_ & _ & <- & _). reflexivity.
Qed.

Lemma inserted_row_open pk ty sev m sys row pk' sys' ty' :
  inserted_for pk ty sev m sys row ->
  is_open_for pk' sys' ty' row = true -> pk' = pk /\ sys' = sys /\ ty' = ty.
Proof.
  intros (H1 & H2 & _ & _ & H3 & _) H. apply is_open_for_spec in H.
  intuition congruence.
Qed.

Lemma inserted_row_is_open pk ty sev m sys row :
  inserted_for pk ty sev m sys row -> is_open_for pk sys ty row = true.
Proof. intros (H1 & H2 & _ & _ & H3 & H4). apply is_open_for_spec. auto. Qed.

(** *** The invariant, one operation at a time *)

Lemma create_unique_keeps_invariant pk ty sev m sys pk' sys' ty' w :
  (open_count pk' sys' ty' (system_alerts w) <= 1)%nat ->
  (open_count pk' sys' ty'
     (system_alerts (run (_create_unique_alert pk ty sev m sys) w)) <= 1)%nat.
Proof.
  intros H.
  destruct (create_unique_cases pk ty sev m sys w)
    as (_ & _ & _ & _ & _ & [->|[(first & rest & ts & _ & _ & ->)
                                |(Hnone & row & Hrow & ->)]]).
  - exact H.
  - now rewrite open_count_refresh.
  - rewrite open_count_app.
    destruct (is_open_for pk' sys' ty' row) eqn:Hopen; [|lia].
    destruct (inserted_row_open _ _ _ _ _ _ _ _ _ Hrow Hopen) as (-> & -> & ->).
    unfold open_count. rewrite Hnone. simpl. lia.
Qed.

Lemma auto_acknowledge_keeps_invariant pk sys ty pk' sys' ty' w :
  (open_count pk' sys' ty' (system_alerts w) <= 1)%nat ->
  (open_count pk' sys' ty'
     (system_alerts (run (_auto_acknowledge_alert pk sys ty) w)) <= 1)%nat.
Proof.
  intros H.
  destruct (auto_acknowledge_cases pk sys ty w)
    as (_ & _ & _ & _ & _ & [->|(ts & ->)]).
  - exact H.
  - pose proof (open_count_acknowledge_le pk sys ty ts pk' sys' ty'
                  (system_alerts w)). lia.
Qed.

Lemma denied_cases pk m sys w :
  let w' := run (reconcile (Denied pk m sys)) w in
  system_alerts w' = system_alerts w
  \/ exists row,
       inserted_for pk "UNAUTHORIZED_ACCESS" "WARNING" m sys row
       /\ system_alerts w' = (system_alerts w ++ [row])%list.
Proof.
  destruct w as [al fd fa nid ck tk fl co hi]. unfold reconcile, inserted_for.
  unfold_m. simpl.
  destruct fl as [|[|] fl]; simpl;
    first [left; reflexivity
          | right; eexists; split; [|reflexivity]; repeat split].
Qed.

Lemma reconcile_keeps_invariant op pk sys ty w :
  ty <> "UNAUTHORIZED_ACCESS" ->
  (open_count pk sys ty (system_alerts w) <= 1)%nat ->
  (open_count pk sys ty (system_alerts (run (reconcile op) w)) <= 1)%nat.
Proof.
  intros Hty H. destruct op as [pk0 ty0 sev m sys0|pk0 sys0 ty0|pk0 m sys0].
  - now apply create_unique_keeps_invariant.
  - now apply auto_acknowledge_keeps_invariant.
  - destruct (denied_cases pk0 m sys0 w) as [->|(row & Hrow & ->)]; [exact H|].
    rewrite open_count_app.
    destruct (is_open_for pk sys ty row) eqn:Hopen; [|lia].
    destruct (inserted_row_open _ _ _ _ _ _ _ _ _ Hrow Hopen) as (_ & _ & ->).
    congruence.
Qed.

Lemma reconcile_returns op w : outcome (reconcile op) w = Ok tt.
Proof.
  destruct op as [pk ty sev m sys|pk sys ty|pk m sys].
  - apply create_unique_cases.
  - apply auto_acknowledge_cases.
  - destruct w as [al fd fa nid ck tk fl co hi]. unfold reconcile. unfold_m.
    simpl. destruct fl as [|[|] fl]; reflexivity.
Qed.

Lemma reconcile_all_keeps_invariant ops pk sys ty w :
  ty <> "UNAUTHORIZED_ACCESS" ->
  (open_count pk sys ty (system_alerts w) <= 1)%nat ->
  (open_count pk sys ty (system_alerts (run (reconcile_all ops) w)) <= 1)%nat.
Proof.
  intros Hty. revert w. induction ops as [|op ops IH]; intros w H.
  - exact H.
  - simpl. rewrite run_bind, reconcile_returns. apply IH.
    now apply reconcile_keeps_invariant.
Qed.

(** ** Reconciliation *)

Lemma Forall2_refl_map {A} (R : A -> A -> Prop) (f : A -> A) (l : list A) :
  (forall x, R x (f x)) -> Forall2 R l (map f l).
Proof. intros H. induction l; simpl; constructor; auto. Qed.

Lemma acknowledge_row_cleared_or_kept pk sys ty ts r :
  cleared_or_kept pk sys ty r (acknowledge_row pk sys ty ts r).
Proof.
  unfold cleared_or_kept, acknowledge_row.
  destruct (is_open_for pk sys ty r) eqn:H; [right|left]; simpl; auto.
Qed.

(** C2.  For every alert type other than UNAUTHORIZED_ACCESS and every
    (factory, subsystem) pair, every sequence of Assert, Clear and
    denied-access operations, run from any world and whatever requests the
    store fails, keeps the number of unacknowledged alerts of the tuple at
    most one.  Assert leaves the rows as they are, or refreshes the message
    and creation instant of the first open row of its tuple, or, only when
    its tuple has no open row, appends one; Clear changes no row other than
    by acknowledging an open row of its tuple. *)
Theorem at_most_one_open_alert_per_tuple ops w pk sys ty :
  ty <> "UNAUTHORIZED_ACCESS" ->
  (open_count pk sys ty (system_alerts w) <= 1)%nat ->
  (open_count pk sys ty (system_alerts (run (reconcile_all ops) w)) <= 1)%nat
  /\ (forall pk0 ty0 sev m sys0 w0,
        let rows := system_alerts w0 in
        let rows' :=
          system_alerts (run (reconcile (Assert pk0 ty0 sev m sys0)) w0) in
        rows' = rows
        \/ (exists first rest ts,
              open_alerts pk0 sys0 ty0 rows = first :: rest
              /\ rows' = map (refresh_row (a_id first) m ts) rows
              /\ List.length rows' = List.length rows)
        \/ (open_alerts pk0 sys0 ty0 rows = []
            /\ exists row,
                 inserted_for pk0 ty0 sev m sys0 row
                 /\ rows' = (rows ++ [row])%list))
  /\ (forall pk0 sys0 ty0 w0,
        Forall2 (cleared_or_kept pk0 sys0 ty0) (system_alerts w0)
          (system_alerts (run (reconcile (Clear pk0 sys0 ty0)) w0))).
Proof.
  intros Hty H. split; [|split].
  - now apply reconcile_all_keeps_invariant.
  - intros pk0 ty0 sev m sys0 w0. simpl.
    destruct (create_unique_cases pk0 ty0 sev m sys0 w0)
      as (_ & _ & _ & _ & _ & [Hc|[(first & rest & ts & Ho & _ & Hc)|Hc]]).
    + now left.
    + right; left. exists first, rest, ts. rewrite Hc, length_map. auto.
    + now right; right.
  - intros pk0 sys0 ty0 w0. simpl.
    destruct (auto_acknowledge_cases pk0 sys0 ty0 w0)
      as (_ & _ & _ & _ & _ & [->|(ts & ->)]).
    + rewrite <- (map_id (system_alerts w0)) at 2.
      apply Forall2_refl_map. intros x. now left.
    + apply Forall2_refl_map. intros x. apply acknowledge_row_cleared_or_kept.
Qed.

(** *** A store that answers *)

Lemma create_unique_healthy pk ty sev m sys w :
  faults w = [] ->
  run (_create_unique_alert pk ty sev m sys) w =
  let w0 :=
    set_history
      (history w ++ [Call_create_unique_alert pk ty sev m sys]) w in
  match open_alerts pk sys ty (system_alerts w) with
  | [] =>
      set_console (console w ++ [LogAlertCreated ty])
        (set_next_alert_id (next_alert_id w + 1)
           (set_system_alerts
              (system_alerts w ++ [new_alert_row w pk ty sev m sys]) w0))
  | first :: _ =>
      if String.eqb (a_message first) m then w0
      else
        set_console (console w ++ [LogAlertUpdated ty])
          (set_system_alerts
             (map (refresh_row (a_id first) m (clock w (ticks w)))
                (system_alerts w))
             (set_ticks (S (ticks w)) w0))
  end.
Proof.
  destruct w as [al fd fa nid ck tk fl co hi]. simpl. intros ->.
  unfold _create_unique_alert, open_alerts, new_alert_row. unfold_m. simpl.
  destruct (filter (is_open_for pk sys ty) al) as [|first rest]; simpl;
    [reflexivity|].
  destruct (String.eqb (a_message first) m); reflexivity.
Qed.

Lemma auto_acknowledge_healthy pk sys ty w :
  faults w = [] ->
  run (_auto_acknowledge_alert pk sys ty) w =
  set_system_alerts
    (map (acknowledge_row pk sys ty (clock w (ticks w))) (system_alerts w))
    (set_ticks (S (ticks w))
       (set_history
          (history w ++ [Call_auto_acknowledge_alert pk sys ty]) w)).
Proof.
  destruct w as [al fd fa nid ck tk fl co hi]. simpl. intros ->.
  unfold _auto_acknowledge_alert. unfold_m. reflexivity.
Qed.

Lemma refresh_row_first alert_id m ts row :
  a_id row = alert_id -> a_message (refresh_row alert_id m ts row) = m.
Proof. intros <-. unfold refresh_row. now rewrite Z.eqb_refl. Qed.

(** C3.  With a store that answers, reconciling an Assert: with no open
    alert of the tuple, appends a new unacknowledged alert; with an open
    alert whose message differs, sets the message and creation instant of
    that row and appends nothing; with an open alert carrying the same
    message, writes nothing.  Reconciling the same Assert a second time
    changes nothing but the record of the call, and starting without an
    open alert the two calls leave exactly one open alert of the tuple, in
    one more row than before. *)
Theorem assert_reconciliation pk ty sev m sys w :
  faults w = [] ->
  let reconcile_assert := _create_unique_alert pk ty sev m sys in
  let called := Call_create_unique_alert pk ty sev m sys in
  let rows := system_alerts w in
  let now := clock w (ticks w) in
  let w1 := run reconcile_assert w in
  let w2 := run reconcile_assert w1 in
  (open_alerts pk sys ty rows = [] ->
     system_alerts w1
     = (rows ++ [mkAlert (next_alert_id w) pk ty sev m sys false now
                   None None])%list)
  /\ (forall first rest,
        open_alerts pk sys ty rows = first :: rest ->
        a_message first <> m ->
        system_alerts w1 = map (refresh_row (a_id first) m now) rows
        /\ List.length (system_alerts w1) = List.length rows
        /\ open_alerts pk sys ty (system_alerts w1)
           = mkAlert (a_id first) (a_factory_id first) (a_alert_type first)
               (a_severity first) m (a_system_name first)
               (a_acknowledged first) now (a_acknowledged_at first)
               (a_acknowledged_by first)
             :: map (refresh_row (a_id first) m now) rest)
  /\ (forall first rest,
        open_alerts pk sys ty rows = first :: rest ->
        a_message first = m ->
        w1 = set_history (history w ++ [called]) w)
  /\ w2 = set_history (history w1 ++ [called]) w1
  /\ system_alerts w2 = system_alerts w1
  /\ (open_alerts pk sys ty rows = [] ->
        open_count pk sys ty (system_alerts w2) = 1%nat
        /\ List.length (system_alerts w2) = S (List.length rows)).
Proof.
  intros Hf reconcile_assert called rows now w1 w2.
  assert (H1 := create_unique_healthy pk ty sev m sys w Hf).
  fold reconcile_assert w1 rows now called in H1. cbv zeta in H1.
  assert (Hf1 : faults w1 = []).
  { rewrite H1. destruct (open_alerts pk sys ty rows) as [|first rest];
      [|destruct (String.eqb (a_message first) m)]; simpl; exact Hf. }
  assert (Hopen1 : exists first rest,
            open_alerts pk sys ty (system_alerts w1) = first :: rest
            /\ a_message first = m).
  { rewrite H1. destruct (open_alerts pk sys ty rows) as [|first rest] eqn:Ho.
    - simpl. unfold open_alerts in *. rewrite filter_app. fold rows. rewrite Ho.
      simpl. unfold is_open_for at 1. simpl.
      rewrite Z.eqb_refl, !String.eqb_refl. simpl. eauto.
    - destruct (String.eqb_spec (a_message first) m); simpl.
      + fold rows. rewrite Ho. eauto.
      + rewrite open_alerts_refresh. fold rows. rewrite Ho. simpl.
        eexists _, _. split; [reflexivity|]. now apply refresh_row_first. }
  assert (H2 : w2 = set_history (history w1 ++ [called]) w1).
  { unfold w2, reconcile_assert.
    rewrite (create_unique_healthy _ _ _ _ _ _ Hf1).
    destruct Hopen1 as (first & rest & -> & Hm).
    cbv zeta. apply String.eqb_eq in Hm. rewrite Hm. reflexivity. }
  split; [|split; [|split; [|split; [|split]]]].
  - intros Ho. rewrite H1, Ho. reflexivity.
  - intros first rest Ho Hm. rewrite H1, Ho.
    apply String.eqb_neq in Hm. rewrite Hm. simpl. fold rows.
    split; [reflexivity|]. split; [apply length_map|].
    rewrite open_alerts_refresh. fold rows. rewrite Ho. simpl.
    unfold refresh_row at 1. now rewrite Z.eqb_refl.
  - intros first rest Ho Hm. rewrite H1, Ho.
    apply String.eqb_eq in Hm. now rewrite Hm.
  - exact H2.
  - rewrite H2. reflexivity.
  - intros Ho. rewrite H2. simpl. rewrite H1, Ho. simpl. fold rows.
    split.
    + rewrite open_count_app. unfold open_count. rewrite Ho. simpl.
      unfold is_open_for. simpl. now rewrite Z.eqb_refl, !String.eqb_refl.
    + rewrite length_app. simpl. lia.
Qed.

(** ** What the other rules leave alone *)

Lemma steady_refl ty w : steady ty w w.
Proof. repeat split; auto; lia. Qed.

Lemma steady_trans ty w1 w2 w3 :
  steady ty w1 w2 -> steady ty w2 w3 -> steady ty w1 w3.
Proof.
  intros (Ha & Hb & Hc) (Ha' & Hb' & Hc'). repeat split.
  - intros pk sys. now rewrite Ha', Ha.
  - auto.
  - lia.
Qed.

Lemma keeps_bind ty {A B} (c : M A) (k : A -> M B) :
  keeps ty c -> (forall a, keeps ty (k a)) -> keeps ty (bind c k).
Proof.
  intros Hc Hk w. rewrite run_bind. destruct (outcome c w); [|apply Hc].
  eapply steady_trans; [apply Hc|apply Hk].
Qed.

Lemma outcome_lift {A} (r : res A) w : outcome (lift r) w = r.
Proof. reflexivity. Qed.

Lemma run_lift {A} (r : res A) w : run (lift r) w = w.
Proof. reflexivity. Qed.

Lemma keeps_lift ty {A} (r : res A) : keeps ty (lift r).
Proof. intros w. apply steady_refl. Qed.

Lemma keeps_ret ty {A} (a : A) : keeps ty (ret a).
Proof. intros w. apply steady_refl. Qed.

Lemma create_unique_frame pk ty sev m sys w :
  let w' := run (_create_unique_alert pk ty sev m sys) w in
  (faults w = [] -> faults w' = []) /\ next_alert_id w <= next_alert_id w'.
Proof.
  destruct w as [al fd fa nid ck tk fl co hi].
  unfold _create_unique_alert. unfold_m. simpl.
  destruct fl as [|[|] fl]; simpl;
    try (split; [discriminate|lia]);
    destruct (filter (is_open_for pk sys ty) al) as [|first rest]; simpl;
    try (destruct (String.eqb (a_message first) m); simpl);
    try (destruct fl as [|[|] fl]; simpl);
    (split; [try discriminate; auto|lia]).
Qed.

Lemma auto_acknowledge_frame pk sys ty w :
  let w' := run (_auto_acknowledge_alert pk sys ty) w in
  (faults w = [] -> faults w' = []) /\ next_alert_id w <= next_alert_id w'.
Proof.
  destruct w as [al fd fa nid ck tk fl co hi].
  unfold _auto_acknowledge_alert. unfold_m. simpl.
  destruct fl as [|[|] fl]; simpl; (split; [try discriminate; auto|lia]).
Qed.

Lemma keeps_create_unique ty0 pk ty sev m sys :
  ty <> ty0 -> keeps ty0 (_create_unique_alert pk ty sev m sys).
Proof.
  intros Hty w. split; [|apply create_unique_frame].
  intros pk' sys'.
  destruct (create_unique_cases pk ty sev m sys w)
    as (_ & _ & _ & _ & _ & [->|[(first & rest & ts & _ & _ & ->)
                                |(_ & row & Hrow & ->)]]).
  - reflexivity.
  - apply open_count_refresh.
  - rewrite open_count_app.
    destruct (is_open_for pk' sys' ty0 row) eqn:Hopen; [|lia].
    destruct (inserted_row_open _ _ _ _ _ _ _ _ _ Hrow Hopen) as (_ & _ & ->).
    congruence.
Qed.

Lemma keeps_auto_acknowledge ty0 pk sys ty :
  ty <> ty0 -> keeps ty0 (_auto_acknowledge_alert pk sys ty).
Proof.
  intros Hty w. split; [|apply auto_acknowledge_frame].
  intros pk' sys'.
  destruct (auto_acknowledge_cases pk sys ty w)
    as (_ & _ & _ & _ & _ & [->|(ts & ->)]).
  - reflexivity.
  - apply open_count_acknowledge_other. congruence.
Qed.

Lemma keeps_enter ty c : keeps ty (enter c).
Proof. intros w. repeat split; simpl; auto; lia. Qed.

Lemma keeps_print ty l : keeps ty (print l).
Proof. intros w. repeat split; simpl; auto; lia. Qed.

Section RuleFrames.
Context (rt : Runtime).

Lemma keeps_fire_rule ty0 t pk sys :
  ty0 <> "FIRE_DETECTED" -> keeps ty0 (fire_rule rt t pk sys).
Proof.
  intros H. unfold fire_rule. destruct (_ && _).
  - apply keeps_create_unique. congruence.
  - apply keeps_auto_acknowledge. congruence.
Qed.

Lemma keeps_temperature_rule ty0 t pk sys :
  ty0 <> "HIGH_TEMPERATURE" -> ty0 <> "LOW_TEMPERATURE" ->
  keeps ty0 (temperature_rule rt t pk sys).
Proof.
  intros H1 H2. unfold temperature_rule.
  apply keeps_bind; [apply keeps_lift|]. intros [temp|]; [|apply keeps_ret].
  destruct (SFltb _ temp); [|destruct (SFltb temp _)].
  - apply keeps_create_unique. congruence.
  - apply keeps_create_unique. congruence.
  - apply keeps_bind; [|intros _]; apply keeps_auto_acknowledge; congruence.
Qed.

Lemma keeps_battery_rule ty0 t pk sys :
  ty0 <> "LOW_BATTERY" -> keeps ty0 (battery_rule rt t pk sys).
Proof.
  intros H. unfold battery_rule. destruct (py_truthy _); [|apply keeps_ret].
  apply keeps_bind; [apply keeps_lift|]. intros [|].
  - apply keeps_bind; [apply keeps_lift|]. intros level.
    apply keeps_create_unique. congruence.
  - apply keeps_auto_acknowledge. congruence.
Qed.

(** The access block on a denied access, with an answering store. *)
Lemma access_rule_denied t pk sys w :
  faults w = [] ->
  dict_get t "access_log" = PStr "DENIED" ->
  let card := py_str rt (dict_get_or t "rfid_last_card" (PStr "Unknown")) in
  outcome (access_rule rt t pk sys) w = Ok tt
  /\ run (access_rule rt t pk sys) w
     = set_console (console w ++ [LogSecurityAlert card])
         (set_next_alert_id (next_alert_id w + 1)
            (set_system_alerts
               (system_alerts w
                  ++ [mkAlert (next_alert_id w) pk "UNAUTHORIZED_ACCESS"
                        "WARNING"
                        ("🚫 Unauthorized Access Attempt | Card ID: "
                           ++ card ++ " | Door: LOCKED")
                        sys false (clock w (ticks w)) None None])
               w)).
Proof.
  destruct w as [al fd fa nid ck tk fl co hi]. simpl. intros -> Hd.
  unfold access_rule. rewrite Hd. unfold new_alert_row. unfold_m. simpl.
  split; reflexivity.
Qed.

(** When the first three blocks do not raise, the rule engine runs the four
    blocks in turn. *)
Lemma alert_rules_run t pk sys w :
  reaches_access_rule rt t = true ->
  let w3 :=
    run (battery_rule rt t pk sys)
      (run (temperature_rule rt t pk sys) (run (fire_rule rt t pk sys) w)) in
  steady "UNAUTHORIZED_ACCESS" w w3
  /\ run (alert_rules rt t pk sys) w = run (access_rule rt t pk sys) w3
  /\ outcome (alert_rules rt t pk sys) w
     = outcome (access_rule rt t pk sys) w3.
Proof.
  intros Hreach w3. split.
  - eapply steady_trans; [apply keeps_fire_rule; discriminate|].
    eapply steady_trans; [apply keeps_temperature_rule; discriminate|].
    apply keeps_battery_rule; discriminate.
  - unfold reaches_access_rule in Hreach.
    destruct (emits_fire_rule rt t pk sys w) as [Hof _].
    destruct (emits_temperature_rule rt t pk sys
                (run (fire_rule rt t pk sys) w)) as [Hot _].
    destruct (emits_battery_rule rt t pk sys
                (run (temperature_rule rt t pk sys)
                   (run (fire_rule rt t pk sys) w))) as [Hob _].
    destruct (temperature_of rt t) as [temp|e]; [|discriminate].
    assert (Hb : exists calls, battery_calls rt t pk sys = Ok calls).
    { revert Hreach. unfold battery_calls.
      destruct (py_truthy _); [|eauto].
      destruct (py_lt_float _ _) as [[|]|e]; try discriminate; [|eauto].
      destruct (py_format_1f _); try discriminate; eauto. }
    destruct Hb as [calls Hb]. rewrite Hb in Hob.
    unfold alert_rules.
    rewrite !outcome_bind, !run_bind, Hof, Hot, Hob. fold w3.
    split; reflexivity.
Qed.

(** For a known factory the method runs the rule engine, and swallows what
    it raises. *)
Lemma check_known_factory t factory_id pk sys w :
  table_get factory_lookup factory_id = Ok (Some pk) ->
  let w0 := run (enter (Call_check_and_create_alerts t factory_id sys)) w in
  outcome (alert_rules rt t pk sys) w0 = Ok tt ->
  run (_check_and_create_alerts rt t factory_id sys) w
  = run (alert_rules rt t pk sys) w0.
Proof.
  intros Hpk w0 Ho. unfold _check_and_create_alerts.
  rewrite run_bind. change (outcome (enter _) w) with (Ok tt : res unit).
  fold w0. rewrite run_try, outcome_bind, run_bind.
  rewrite !outcome_lift, !run_lift, Hpk, Ho. reflexivity.
Qed.

End RuleFrames.

(** ** Denied access; the battery rule *)

Lemma rule_calls_silent_about_unauthorized rt t pk sys :
  silent_about "UNAUTHORIZED_ACCESS" (rule_calls rt t pk sys).
Proof.
  intros c Hc Hty.
  apply rule_calls_inv in Hc
    as [H|[(temp & _ & H)|(temp & calls & _ & Hb & H)]].
  - apply fire_calls_type in H. congruence.
  - apply temperature_calls_type in H as [H|H]; congruence.
  - apply (battery_calls_type _ _ _ _ _ _ Hb) in H. congruence.
Qed.

(** The rule engine on a denied access. *)
Lemma denied_rules_once rt t pk sys w :
  faults w = [] ->
  dict_get t "access_log" = PStr "DENIED" ->
  reaches_access_rule rt t = true ->
  let w1 := run (alert_rules rt t pk sys) w in
  outcome (alert_rules rt t pk sys) w = Ok tt
  /\ faults w1 = []
  /\ next_alert_id w < next_alert_id w1
  /\ open_count pk sys "UNAUTHORIZED_ACCESS" (system_alerts w1)
     = S (open_count pk sys "UNAUTHORIZED_ACCESS" (system_alerts w))
  /\ exists rows ts,
       system_alerts w1
       = (rows ++ [mkAlert (next_alert_id w1 - 1) pk "UNAUTHORIZED_ACCESS"
                     "WARNING" (denied_message rt t) sys false ts None None])
           %list.
Proof.
  intros Hf Hd Hreach w1.
  destruct (alert_rules_run rt t pk sys w Hreach)
    as ((Hcount & Hfaults & Hid) & Hrun & Hout).
  set (w3 := run (battery_rule rt t pk sys) _) in *.
  destruct (access_rule_denied rt t pk sys w3 (Hfaults Hf) Hd) as [Ho Hw].
  unfold w1. rewrite Hout, Hrun, Hw. simpl.
  split; [exact Ho|]. split; [exact (Hfaults Hf)|]. split; [lia|]. split.
  - rewrite open_count_app, Hcount. unfold is_open_for. simpl.
    rewrite Z.eqb_refl, !String.eqb_refl. simpl. lia.
  - exists (system_alerts w3), (clock w3 (ticks w3)).
    replace (next_alert_id w3 + 1 - 1) with (next_alert_id w3) by lia.
    reflexivity.
Qed.

(** The method on a denied access, for a known factory. *)
Lemma denied_access_once rt t factory_id pk sys w :
  table_get factory_lookup factory_id = Ok (Some pk) ->
  faults w = [] ->
  dict_get t "access_log" = PStr "DENIED" ->
  reaches_access_rule rt t = true ->
  let w1 := run (_check_and_create_alerts rt t factory_id sys) w in
  faults w1 = []
  /\ next_alert_id w < next_alert_id w1
  /\ open_count pk sys "UNAUTHORIZED_ACCESS" (system_alerts w1)
     = S (open_count pk sys "UNAUTHORIZED_ACCESS" (system_alerts w)).
Proof.
  intros Hpk Hf Hd Hreach w1.
  set (w0 := run (enter (Call_check_and_create_alerts t factory_id sys)) w).
  destruct (denied_rules_once rt t pk sys w0 Hf Hd Hreach)
    as (Ho & Hf1 & Hid & Hcount & _).
  unfold w1. rewrite (check_known_factory rt t factory_id pk sys w Hpk Ho).
  auto.
Qed.

(** C7.  For every record whose access log is "DENIED", with a store that
    answers, when the earlier blocks do not raise: the rule engine appends a
    new unacknowledged UNAUTHORIZED_ACCESS alert of severity WARNING,
    whatever alerts are already open, and enters neither reconciliation
    method for that type.  A second evaluation of the same record appends a
    second such alert with a later primary key, so the tuple has two more
    open alerts than before.  For a known factory the method
    [_check_and_create_alerts] adds the open alert likewise. *)
Theorem unauthorized_access_always_inserts rt t pk sys w :
  faults w = [] ->
  dict_get t "access_log" = PStr "DENIED" ->
  reaches_access_rule rt t = true ->
  let rules := alert_rules rt t pk sys in
  let w1 := run rules w in
  let w2 := run rules w1 in
  let denied := open_count pk sys "UNAUTHORIZED_ACCESS" in
  let alert id ts :=
    mkAlert id pk "UNAUTHORIZED_ACCESS" "WARNING" (denied_message rt t) sys
      false ts None None in
  denied (system_alerts w1) = S (denied (system_alerts w))
  /\ silent_about "UNAUTHORIZED_ACCESS" (calls_of rules w)
  /\ denied (system_alerts w2) = S (S (denied (system_alerts w)))
  /\ (exists rows1 id1 ts1 rows2 id2 ts2,
        system_alerts w1 = (rows1 ++ [alert id1 ts1])%list
        /\ system_alerts w2 = (rows2 ++ [alert id2 ts2])%list
        /\ id1 < id2)
  /\ (forall factory_id,
        table_get factory_lookup factory_id = Ok (Some pk) ->
        denied
          (system_alerts
             (run (_check_and_create_alerts rt t factory_id sys) w))
        = S (denied (system_alerts w))).
Proof.
  intros Hf Hd Hreach rules w1 w2 denied alert.
  destruct (denied_rules_once rt t pk sys w Hf Hd Hreach)
    as (_ & Hf1 & Hid1 & Hc1 & rows1 & ts1 & Hrows1).
  destruct (denied_rules_once rt t pk sys w1 Hf1 Hd Hreach)
    as (_ & Hf2 & Hid2 & Hc2 & rows2 & ts2 & Hrows2).
  fold rules w1 in Hc1, Hrows1, Hid1, Hid2, Hc2, Hrows2.
  fold w2 in Hc2, Hrows2, Hid2.
  split; [exact Hc1|]. split; [|split; [|split]].
  - unfold rules. rewrite rules_calls.
    apply rule_calls_silent_about_unauthorized.
  - unfold denied. rewrite Hc2, Hc1. reflexivity.
  - exists rows1, (next_alert_id w1 - 1), ts1, rows2, (next_alert_id w2 - 1),
      ts2.
    split; [exact Hrows1|]. split; [exact Hrows2|]. lia.
  - intros factory_id Hpk.
    apply (denied_access_once rt t factory_id pk sys w Hpk Hf Hd Hreach).
Qed.

(** *** The battery block *)

Lemma huge_int_overflows : float_of_int (- huge_int) = Raise OverflowError.
Proof. vm_compute. reflexivity. Qed.

Lemma huge_int_below_threshold :
  py_lt_float (PInt (- huge_int)) (battery_low ALERT_THRESHOLDS) = Ok true.
Proof. vm_compute. reflexivity. Qed.

(** C6.  The battery rule on the level [-(2 ** 1024)]: the level is truthy
    and below [battery_low], yet the block raises [OverflowError] while
    formatting the message, before [_create_unique_alert] is entered, so the
    evaluation makes no call about LOW_BATTERY. *)
Theorem low_battery_not_asserted_for_huge_negative_level rt sys w :
  let level := PInt (- huge_int) in
  let t := [("battery_level", level)] in
  let check := _check_and_create_alerts rt t (PStr "factory_1") sys in
  py_truthy level = true
  /\ py_lt_float level (battery_low ALERT_THRESHOLDS) = Ok true
  /\ outcome (battery_rule rt t 1 sys) w = Raise OverflowError
  /\ silent_about "LOW_BATTERY" (calls_of check w).
Proof.
  intros level t check.
  assert (Hb : battery_calls rt t 1 sys = Raise OverflowError).
  { unfold battery_calls.
    change (dict_get t "battery_level") with level.
    change (py_truthy level) with true. cbv iota. unfold level.
    rewrite huge_int_below_threshold.
    unfold py_format_1f. now rewrite huge_int_overflows. }
  split; [reflexivity|]. split; [exact huge_int_below_threshold|]. split.
  - destruct (emits_battery_rule rt t 1 sys w) as [Ho _].
    now rewrite Hb in Ho.
  - unfold check.
    rewrite (known_factory_calls rt t (PStr "factory_1") 1 sys w eq_refl).
    intros c [<-|Hc] Hty; [discriminate|].
    apply battery_call_origin in Hc; [|exact Hty].
    destruct Hc as (temp & calls & _ & Hb' & _). congruence.
Qed.

(** X15.  The battery rule on the levels it handles, when the temperature
    block does not raise: a level that is falsy is skipped, zero included,
    so that no call is made about LOW_BATTERY; a truthy level that compares
    and formats asserts LOW_BATTERY with severity WARNING when it is below
    the threshold, without clearing it, and clears it otherwise, without
    asserting it. *)
Lemma low_battery_rule rt t pk sys w temp :
  temperature_of rt t = Ok temp ->
  let level := dict_get t "battery_level" in
  let calls := calls_of (alert_rules rt t pk sys) w in
  (py_truthy level = false -> silent_about "LOW_BATTERY" calls)
  /\ (level = PInt 0 -> silent_about "LOW_BATTERY" calls)
  /\ (forall text,
        py_truthy level = true ->
        py_lt_float level (battery_low ALERT_THRESHOLDS) = Ok true ->
        py_format_1f level = Ok text ->
        asserts pk sys "LOW_BATTERY" "WARNING" calls
        /\ ~ clears pk sys "LOW_BATTERY" calls)
  /\ (py_truthy level = true ->
      py_lt_float level (battery_low ALERT_THRESHOLDS) = Ok false ->
      clears pk sys "LOW_BATTERY" calls
      /\ forall sev, ~ asserts pk sys "LOW_BATTERY" sev calls).
Proof.
  intros Ht level calls. subst calls. rewrite rules_calls.
  assert (Horigin : forall c calls,
            battery_calls rt t pk sys = Ok calls ->
            In c (rule_calls rt t pk sys) ->
            call_type c = Some "LOW_BATTERY" -> In c calls).
  { intros c calls Hb Hc Hty.
    apply battery_call_origin in Hc; [|exact Hty].
    destruct Hc as (_ & calls' & _ & Hb' & Hc). congruence. }
  assert (Hmade : forall c calls,
            battery_calls rt t pk sys = Ok calls -> In c calls ->
            In c (rule_calls rt t pk sys)).
  { intros c calls Hb Hc. eapply battery_calls_in_rule_calls; eauto. }
  assert (Hfalsy : py_truthy level = false ->
            silent_about "LOW_BATTERY" (rule_calls rt t pk sys)).
  { intros Hl c Hc Hty.
    apply (Horigin c []) in Hc; [destruct Hc| |exact Hty].
    unfold battery_calls. fold level. now rewrite Hl. }
  split; [exact Hfalsy|]. split; [|split].
  - intros Hl. apply Hfalsy. now rewrite Hl.
  - intros text Hl Hlt Hfmt.
    assert (Hb : battery_calls rt t pk sys
                 = Ok [Call_create_unique_alert pk "LOW_BATTERY" "WARNING"
                         ("🔋 Critical Battery: " ++ text ++ "% (LED: "
                            ++ py_str rt
                                 (dict_get_or t "led_brightness" (PStr "N/A"))
                            ++ ") | Charge Immediately!") sys]).
    { unfold battery_calls. fold level. now rewrite Hl, Hlt, Hfmt. }
    split.
    + eexists. eapply Hmade; [exact Hb|]. left. reflexivity.
    + intros Hc. eapply Horigin in Hc; [|exact Hb|reflexivity].
      destruct Hc as [Hc|[]]. discriminate.
  - intros Hl Hlt.
    assert (Hb : battery_calls rt t pk sys
                 = Ok [Call_auto_acknowledge_alert pk sys "LOW_BATTERY"]).
    { unfold battery_calls. fold level. now rewrite Hl, Hlt. }
    split.
    + eapply Hmade; [exact Hb|]. left. reflexivity.
    + intros sev (m & Hc). eapply Horigin in Hc; [|exact Hb|reflexivity].
      destruct Hc as [Hc|[]]. discriminate.
Qed.

(** ** The mapper *)

(** [float()] raises [OverflowError] only on an [int]. *)
Lemma py_float_overflow rt v :
  py_float rt v = Raise OverflowError ->
  exists n, v = PInt n /\ float_of_int n = Raise OverflowError.
Proof.
  destruct v as [|b|n|f|s|l|d]; simpl; try discriminate.
  - destruct b; vm_compute; discriminate.
  - eauto.
  - destruct (float_of_string rt s); discriminate.
Qed.

Lemma py_float_raises rt v e :
  py_float rt v = Raise e ->
  e = ValueError \/ e = TypeError \/ e = OverflowError.
Proof.
  destruct v as [|b|n|f|s|l|d]; simpl; try (intros [= <-]; auto; fail).
  - destruct b; vm_compute; discriminate.
  - unfold float_of_int. destruct (binary_normalize _ _ _ _ _);
      intros [= <-]; auto.
  - destruct (float_of_string rt s); intros [= <-]; auto.
Qed.

Section Mapper.
Context (rt : Runtime).

Lemma mapper_unrecognized d v :
  recognized v = false -> _map_telemetry_data rt d v = Ok [].
Proof.
  unfold recognized, SUBSYSTEMS. simpl. rewrite !orb_false_iff.
  intros (H1 & H2 & H3 & H4 & H5 & H6 & H7 & _).
  unfold _map_telemetry_data. now rewrite H1, H2, H3, H4, H5, H6, H7.
Qed.

(** The mapper raises exactly when the HVAC temperature is an integer
    beyond the range of [float]. *)
Lemma mapper_raises d v e :
  _map_telemetry_data rt d v = Raise e <->
  e = OverflowError /\ v = PStr "HVAC_System"
  /\ exists n, dict_get d "temperature" = PInt n
               /\ float_of_int n = Raise OverflowError.
Proof.
  split.
  - unfold _map_telemetry_data.
    destruct (py_eq_str v "Fire_Control"); [discriminate|].
    destruct (py_eq_str v "Conveyor_Belt"); [discriminate|].
    destruct (py_eq_str v "Weight_System"); [discriminate|].
    destruct (py_eq_str v "Garage_Door").
    { destruct (py_is_str _); discriminate. }
    destruct (py_eq_str v "Battery_System"); [discriminate|].
    destruct (py_eq_str v "HVAC_System") eqn:Hv.
    + assert (v = PStr "HVAC_System") as ->.
      { destruct v; try discriminate. simpl in Hv.
        apply String.eqb_eq in Hv. now subst. }
      destruct (py_float rt (dict_get d "temperature")) as [f|e'] eqn:Hf.
      { destruct (dict_get d "temperature"); discriminate. }
      destruct (py_float_raises _ _ _ Hf) as [He|[He|He]]; subst e'.
      { destruct (dict_get d "temperature"); discriminate. }
      { destruct (dict_get d "temperature"); discriminate. }
      apply py_float_overflow in Hf as (n & Hn & Ho). rewrite Hn.
      intros [= <-]. eauto.
    + destruct (py_eq_str v "Safe_Room"); discriminate.
  - intros (-> & -> & n & Hn & Ho). unfold _map_telemetry_data. simpl.
    rewrite Hn. simpl. now rewrite Ho.
Qed.

End Mapper.

Lemma py_eq_str_true v s : py_eq_str v s = true -> v = PStr s.
Proof.
  destruct v; try discriminate. simpl. intros H.
  apply String.eqb_eq in H. now subst.
Qed.

Ltac mapper_cases v :=
  unfold _map_telemetry_data;
  destruct (py_eq_str v "Fire_Control") eqn:?H;
    [|destruct (py_eq_str v "Conveyor_Belt") eqn:?H;
      [|destruct (py_eq_str v "Weight_System") eqn:?H;
        [|destruct (py_eq_str v "Garage_Door") eqn:?H;
          [|destruct (py_eq_str v "Battery_System") eqn:?H;
            [|destruct (py_eq_str v "HVAC_System") eqn:?H;
              [|destruct (py_eq_str v "Safe_Room") eqn:?H]]]]]].

Ltac incl_by_cases :=
  let k := fresh "k" in
  let Hk := fresh "Hk" in
  intros k Hk; simpl in Hk |- *; tauto.

Section MapperFields.
Context (rt : Runtime).

(** The record of a recognised subsystem has only that subsystem's
    fields. *)
Lemma mapper_fields d name t :
  _map_telemetry_data rt d (PStr name) = Ok t ->
  incl (dict_keys t) (canonical_fields name).
Proof.
  mapper_cases (PStr name);
    try match goal with
        | H : py_eq_str (PStr name) _ = true |- _ =>
            apply py_eq_str_true in H; injection H as ->
        end.
  - intros [= <-]. incl_by_cases.
  - intros [= <-]. incl_by_cases.
  - intros [= <-]. incl_by_cases.
  - destruct (py_is_str _); intros [= <-]; incl_by_cases.
  - intros [= <-]. incl_by_cases.
  - destruct (dict_get d "temperature");
      try destruct (py_float rt _) as [f|[]];
      try discriminate; intros [= <-]; incl_by_cases.
  - intros [= <-]. incl_by_cases.
  - intros [= <-]. intros k [].
Qed.

(** A non-empty mapping comes from a recognised subsystem name. *)
Lemma mapper_nonempty d v t :
  _map_telemetry_data rt d v = Ok t -> t <> [] ->
  exists name, v = PStr name /\ In name SUBSYSTEMS.
Proof.
  intros H Ht. destruct (recognized v) eqn:Hr.
  - unfold recognized in Hr. apply existsb_exists in Hr as (name & Hin & Hv).
    apply py_eq_str_true in Hv. eauto.
  - rewrite (mapper_unrecognized rt d v Hr) in H. congruence.
Qed.

(** The temperature of an HVAC record. *)
Lemma hvac_temperature d :
  let raw := dict_get d "temperature" in
  let mapped := _map_telemetry_data rt d (PStr "HVAC_System") in
  (raw = PNone ->
     exists t, mapped = Ok t /\ dict_get t "temperature" = PNone)
  /\ (forall f, raw <> PNone -> py_float rt raw = Ok f ->
        exists t, mapped = Ok t /\ dict_get t "temperature" = PFloat f)
  /\ (forall e, raw <> PNone -> py_float rt raw = Raise e ->
        e <> OverflowError ->
        exists t, mapped = Ok t /\ dict_find t "temperature" = Some PNone)
  /\ (py_float rt raw = Raise OverflowError ->
        mapped = Raise OverflowError).
Proof.
  intros raw mapped. unfold mapped, _map_telemetry_data. simpl.
  fold raw. split; [|split; [|split]].
  - intros ->. eexists. split; reflexivity.
  - intros f Hn Hf. rewrite Hf.
    destruct raw; try congruence; eexists; split; reflexivity.
  - intros e Hn He Hne. rewrite He.
    destruct (py_float_raises _ _ _ He) as [-> | [-> | ->]]; try congruence;
      destruct raw; try congruence; eexists; split; reflexivity.
  - intros He. rewrite He.
    destruct raw; try reflexivity. discriminate.
Qed.

End MapperFields.

(** C8.  An HVAC_System payload whose temperature is the integer
    [2 ** 1024]: [float()] raises [OverflowError], which the mapper does not
    catch, and the request is answered with status 500. *)
Theorem hvac_mapper_raises_on_huge_integer rt w :
  let payload :=
    [("system", PStr "HVAC_System"); ("temperature", PInt huge_int)] in
  py_float rt (PInt huge_int) = Raise OverflowError
  /\ _map_telemetry_data rt payload (PStr "HVAC_System") = Raise OverflowError
  /\ outcome (do_POST rt (Ok (PDict payload))) w
     = Ok (_send_error_response 500 "Internal Server Error").
Proof.
  intros payload.
  assert (Hf : py_float rt (PInt huge_int) = Raise OverflowError)
    by (vm_compute; reflexivity).
  assert (Hm : _map_telemetry_data rt payload (PStr "HVAC_System")
               = Raise OverflowError).
  { apply mapper_raises. split; [reflexivity|]. split; [reflexivity|].
    exists huge_int. split; [reflexivity|exact Hf]. }
  split; [exact Hf|]. split; [exact Hm|].
  vm_compute. reflexivity.
Qed.

(** C9.  The mapper raises exactly on an HVAC_System payload whose
    temperature is an integer beyond the range of [float], and then with
    [OverflowError]; such a payload exists.  Whenever it returns for a
    string identifier, the record's fields are among that subsystem's
    fields; for an identifier it does not recognise it returns the empty
    mapping. *)
Theorem mapper_total_except_overflow rt :
  (forall d v e,
     _map_telemetry_data rt d v = Raise e <->
     e = OverflowError /\ v = PStr "HVAC_System"
     /\ exists n, dict_get d "temperature" = PInt n
                  /\ float_of_int n = Raise OverflowError)
  /\ (forall d name t,
        _map_telemetry_data rt d (PStr name) = Ok t ->
        incl (dict_keys t) (canonical_fields name))
  /\ (forall d v, recognized v = false -> _map_telemetry_data rt d v = Ok [])
  /\ _map_telemetry_data rt [("temperature", PInt huge_int)]
       (PStr "HVAC_System")
     = Raise OverflowError.
Proof.
  split; [apply mapper_raises|]. split; [apply mapper_fields|].
  split; [apply mapper_unrecognized|].
  apply mapper_raises. split; [reflexivity|]. split; [reflexivity|].
  exists huge_int. split; [reflexivity|]. vm_compute. reflexivity.
Qed.

(** ** One request *)

(** *** Persisting a record *)

Lemma insert_to_supabase_cases table_name data factory_id w :
  let persist := _insert_to_supabase table_name data factory_id in
  let w' := run persist w in
  history w' = history w
  /\ system_alerts w' = system_alerts w
  /\ ((outcome persist w = Ok true /\ console w' = console w
       /\ factory_data w' = (factory_data w ++ [(table_name, data)])%list)
      \/ (outcome persist w = Ok false
          /\ exists e, console w' = (console w ++ [LogDatabaseError e])%list))
  /\ (table_get factory_lookup factory_id = Ok None ->
      factories w' = factories w
      /\ match faults w with
         | true :: _ =>
             outcome persist w = Ok false /\ factory_data w' = factory_data w
         | _ =>
             outcome persist w = Ok true
             /\ factory_data w'
                = (factory_data w ++ [(table_name, data)])%list
         end).
Proof.
  destruct w as [al fd fa nid ck tk fl co hi].
  unfold _insert_to_supabase. unfold_m. simpl.
  destruct fl as [|[|] fl]; simpl;
    destruct (table_get factory_lookup factory_id) as [[pk|]|e]; simpl;
    try (destruct fl as [|[|] fl]; simpl);
    repeat (split; [reflexivity|]);
    (split; [first [left; repeat split; reflexivity
                   | right; split; [reflexivity|eexists; reflexivity]]
            | try discriminate; intros _; repeat split; reflexivity ]).
Qed.

Lemma check_unknown_factory rt t factory_id sys w :
  table_get factory_lookup factory_id = Ok None ->
  run (_check_and_create_alerts rt t factory_id sys) w
  = set_history
      (history w ++ [Call_check_and_create_alerts t factory_id sys]) w.
Proof.
  intros H. unfold _check_and_create_alerts.
  rewrite run_bind. change (outcome (enter _) w) with (Ok tt : res unit).
  rewrite run_try, outcome_bind, run_bind, !outcome_lift, !run_lift, H.
  reflexivity.
Qed.

(** *** One request with a non-empty mapping *)

Lemma outcome_utc_now w : outcome utc_now w = Ok (clock w (ticks w)).
Proof. reflexivity. Qed.

Lemma run_utc_now w : run utc_now w = set_ticks (S (ticks w)) w.
Proof. reflexivity. Qed.

Lemma outcome_ret {A} (a : A) w : outcome (ret a) w = Ok a.
Proof. reflexivity. Qed.

Lemma run_ret {A} (a : A) w : run (ret a) w = w.
Proof. reflexivity. Qed.

Lemma outcome_print l w : outcome (print l) w = Ok tt.
Proof. reflexivity. Qed.

Ltac step :=
  rewrite ?outcome_try, ?run_try, ?outcome_bind, ?run_bind, ?outcome_lift,
    ?run_lift, ?outcome_utc_now, ?run_utc_now, ?outcome_ret, ?run_ret,
    ?outcome_print;
  cbv beta iota zeta.

Lemma insert_to_supabase_returns table_name data factory_id w :
  outcome (_insert_to_supabase table_name data factory_id) w = Ok true
  \/ outcome (_insert_to_supabase table_name data factory_id) w = Ok false.
Proof.
  destruct (insert_to_supabase_cases table_name data factory_id w)
    as (_ & _ & [(H & _)|(H & _)] & _); auto.
Qed.

Lemma do_POST_mapped rt d t found w :
  let system_name := dict_get_or d "system" (PStr "Unknown") in
  let factory_id := dict_get_or d "factory" (PStr DEFAULT_FACTORY) in
  table_get FACTORY_MAPPING factory_id = Ok found ->
  _map_telemetry_data rt d system_name = Ok t ->
  t <> [] ->
  let table_name :=
    match found with
    | Some x => x
    | None => default_table
    end in
  let record := stamped t system_name (clock w (ticks w)) in
  let persist := _insert_to_supabase table_name record factory_id in
  let w_s := set_ticks (S (ticks w)) w in
  outcome (do_POST rt (Ok (PDict d))) w = Ok success_response
  /\ run (do_POST rt (Ok (PDict d))) w
     = match outcome persist w_s with
       | Ok true =>
           run (_check_and_create_alerts rt record factory_id
                  (str_value system_name))
             (run (print (LogDataSaved (str_value system_name) table_name))
                (run persist w_s))
       | _ =>
           run (print (LogSaveFailed (str_value system_name) table_name))
             (run persist w_s)
       end.
Proof.
  intros system_name factory_id Hfound Hmap Ht table_name record persist w_s.
  unfold do_POST. fold system_name factory_id.
  destruct t as [|kv t]; [congruence|].
  assert (Hrec : dict_set (dict_set (kv :: t) "system_name" system_name)
                   "timestamp" (PStr (clock w (ticks w))) = record)
    by reflexivity.
  split.
  - step. unfold as_dict. step. fold system_name factory_id.
    rewrite Hfound. step. rewrite Hmap. repeat step. rewrite Hrec.
    fold table_name persist w_s.
    destruct (insert_to_supabase_returns table_name record factory_id w_s)
      as [Hp|Hp]; fold persist in Hp; rewrite Hp; repeat step;
      [rewrite check_returns|]; reflexivity.
  - step. unfold as_dict. step. fold system_name factory_id.
    rewrite Hfound. step. rewrite Hmap. repeat step. rewrite Hrec.
    fold table_name persist w_s.
    destruct (insert_to_supabase_returns table_name record factory_id w_s)
      as [Hp|Hp]; fold persist in Hp; rewrite Hp; repeat step;
      [rewrite check_returns|]; reflexivity.
Qed.

(** ** Requests and persistence *)

Lemma table_get_hashable {A} (table : list (string * A)) key :
  py_hashable key = true -> exists found, table_get table key = Ok found.
Proof. destruct key; simpl; try discriminate; eauto. Qed.

Lemma skipn_extension {A} (l ext : list A) :
  skipn (List.length l) (l ++ ext) = ext.
Proof. now rewrite skipn_app, skipn_all, Nat.sub_diag. Qed.

(** C1, as amended.  For every parsed payload with a hashable factory key
    and a non-empty mapping, the sender receives the success
    acknowledgment.  When persisting the record fails, the failure is
    logged, no alert method is entered and the alerts are untouched; alert
    evaluation is entered, on the stored record, only when persisting
    succeeded. *)
Theorem alerts_evaluated_only_after_persistence rt d t w :
  let system_name := dict_get_or d "system" (PStr "Unknown") in
  let factory_id := dict_get_or d "factory" (PStr DEFAULT_FACTORY) in
  py_hashable factory_id = true ->
  _map_telemetry_data rt d system_name = Ok t ->
  t <> [] ->
  let name := str_value system_name in
  let record := stamped t system_name (clock w (ticks w)) in
  let persist := _insert_to_supabase (table_for factory_id) record factory_id in
  let stored := outcome persist (set_ticks (S (ticks w)) w) in
  let request := do_POST rt (Ok (PDict d)) in
  outcome request w = Ok success_response
  /\ (stored = Ok true \/ stored = Ok false)
  /\ (stored = Ok false ->
        calls_of request w = []
        /\ system_alerts (run request w) = system_alerts w
        /\ exists e,
             lines_of request w
             = [LogDatabaseError e; LogSaveFailed name (table_for factory_id)])
  /\ (stored = Ok true ->
        calls_of request w
        = Call_check_and_create_alerts record factory_id name
            :: evaluation_calls rt record factory_id name).
Proof.
  intros system_name factory_id Hhash Hmap Ht name record persist stored
    request.
  destruct (table_get_hashable FACTORY_MAPPING factory_id Hhash)
    as [found Hfound].
  destruct (do_POST_mapped rt d t found w Hfound Hmap Ht) as [Hout Hrun].
  fold system_name factory_id name record in Hrun.
  assert (Htable : match found with Some x => x | None => default_table end
                   = table_for factory_id).
  { unfold table_for. now rewrite Hfound. }
  rewrite Htable in Hrun. fold persist stored request in Hrun.
  set (w_s := set_ticks (S (ticks w)) w) in *.
  destruct (insert_to_supabase_cases (table_for factory_id) record factory_id
              w_s) as (Hhist & Halerts & Hcases & _).
  fold persist stored in Hhist, Halerts, Hcases.
  split; [exact Hout|]. split; [|split].
  - destruct Hcases as [(H & _)|(H & _)]; auto.
  - intros Hs. unfold calls_of, lines_of. rewrite Hrun, Hs.
    destruct Hcases as [(H & _)|(_ & e & He)]; [congruence|].
    split; [|split].
    + simpl. rewrite Hhist. simpl.
      now rewrite skipn_all.
    + simpl. exact Halerts.
    + exists e. simpl. rewrite He. simpl.
      rewrite <- app_assoc. apply skipn_extension.
  - intros Hs. unfold calls_of. rewrite Hrun, Hs.
    set (w1 := run (print _) (run persist w_s)).
    assert (Hh : history w1 = history w) by (simpl; exact Hhist).
    rewrite <- Hh. apply check_calls.
Qed.

(** A known factory key routes to its own table, any other to the default
    one. *)
Lemma unknown_factory_table key :
  table_get factory_lookup key = Ok None -> table_for key = default_table.
Proof.
  unfold table_for. destruct key; try reflexivity; try discriminate.
  unfold table_get, factory_lookup, FACTORY_MAPPING, dict_find.
  destruct (String.eqb "factory_1" s); [intros [=]|].
  destruct (String.eqb "factory_2" s); [intros [=]|]. reflexivity.
Qed.

(** C10.  For every request with a non-empty mapping whose factory key is
    present and is not one of the known keys: the sender receives the
    success acknowledgment, no alert row is created, changed or
    acknowledged, no reconciliation method is entered, no factory's
    last-seen instant is changed, and, unless the store rejects the
    insert, the stamped record is appended to the default factory's
    table. *)
Theorem unknown_factory_is_stored_without_alerts rt d key t w :
  let system_name := dict_get_or d "system" (PStr "Unknown") in
  dict_find d "factory" = Some key ->
  table_get factory_lookup key = Ok None ->
  _map_telemetry_data rt d system_name = Ok t ->
  t <> [] ->
  let request := do_POST rt (Ok (PDict d)) in
  let record := stamped t system_name (clock w (ticks w)) in
  let w' := run request w in
  outcome request w = Ok success_response
  /\ system_alerts w' = system_alerts w
  /\ factories w' = factories w
  /\ (forall c, In c (calls_of request w) -> call_type c = None)
  /\ match faults w with
     | true :: _ => factory_data w' = factory_data w
     | _ => factory_data w' = (factory_data w ++ [(default_table, record)])%list
     end.
Proof.
  intros system_name Hkey Hunknown Hmap Ht request record w'.
  assert (Hfid : dict_get_or d "factory" (PStr DEFAULT_FACTORY) = key).
  { unfold dict_get_or. now rewrite Hkey. }
  assert (Hhash : py_hashable key = true).
  { destruct key; try reflexivity; discriminate. }
  destruct (table_get_hashable FACTORY_MAPPING key Hhash) as [found Hfound].
  rewrite <- Hfid in Hfound.
  destruct (do_POST_mapped rt d t found w Hfound Hmap Ht) as [Hout Hrun].
  fold system_name record request in Hrun. rewrite Hfid in Hrun, Hfound.
  assert (Htable : match found with Some x => x | None => default_table end
                   = default_table).
  { pose proof (unknown_factory_table key Hunknown) as Hk.
    unfold table_for in Hk. now rewrite Hfound in Hk. }
  rewrite Htable in Hrun.
  set (w_s := set_ticks (S (ticks w)) w) in *.
  set (persist := _insert_to_supabase default_table record key) in *.
  destruct (insert_to_supabase_cases default_table record key w_s)
    as (Hhist & Halerts & _ & Hunk).
  fold persist in Hhist, Halerts, Hunk.
  destruct (Hunk Hunknown) as [Hfact Hfaults]. clear Hunk.
  change (faults w_s) with (faults w) in Hfaults.
  split; [exact Hout|]. unfold w', calls_of. rewrite Hrun.
  assert (Hstored : forall rest,
            run (_check_and_create_alerts rt record key
                   (str_value system_name))
              (run (print (LogDataSaved (str_value system_name)
                             default_table)) (run persist w_s)) = rest ->
            system_alerts rest = system_alerts w
            /\ factories rest = factories w
            /\ (forall c, In c (skipn (List.length (history w)) (history rest))
                          -> call_type c = None)
            /\ factory_data rest = factory_data (run persist w_s)).
  { intros rest <-. rewrite check_unknown_factory by exact Hunknown. simpl.
    rewrite Hhist. change (history w_s) with (history w).
    rewrite skipn_extension. repeat split; auto.
    intros c [<-|[]]. reflexivity. }
  assert (Hfailed : forall rest,
            run (print (LogSaveFailed (str_value system_name) default_table))
              (run persist w_s) = rest ->
            system_alerts rest = system_alerts w
            /\ factories rest = factories w
            /\ (forall c, In c (skipn (List.length (history w)) (history rest))
                          -> call_type c = None)
            /\ factory_data rest = factory_data (run persist w_s)).
  { intros rest <-. simpl. rewrite Hhist. change (history w_s) with (history w).
    rewrite skipn_all. repeat split; auto. intros c []. }
  destruct (faults w) as [|[|] fl]; destruct Hfaults as [Hs Hdata];
    rewrite Hs.
  - destruct (Hstored _ eq_refl) as (H1 & H2 & H3 & H4).
    rewrite H4, Hdata. auto.
  - destruct (Hfailed _ eq_refl) as (H1 & H2 & H3 & H4).
    rewrite H4, Hdata. auto.
  - destruct (Hstored _ eq_refl) as (H1 & H2 & H3 & H4).
    rewrite H4, Hdata. auto.
Qed.

(** ** The invariant across requests *)

Create HintDb bound.

Section Bounded.
Context (pk : Z) (sys ty : string).

Lemma bounded_bind {A B} (c : M A) (k : A -> M B) :
  bounded pk sys ty c -> (forall a, bounded pk sys ty (k a)) ->
  bounded pk sys ty (bind c k).
Proof.
  intros Hc Hk w H. rewrite run_bind. destruct (outcome c w); auto.
  apply Hk. auto.
Qed.

Lemma bounded_try {A} (c : M A) (h : pyexn -> M A) :
  bounded pk sys ty c -> (forall e, bounded pk sys ty (h e)) ->
  bounded pk sys ty (try_except c h).
Proof.
  intros Hc Hh w H. rewrite run_try. destruct (outcome c w); auto.
  apply Hh. auto.
Qed.

Lemma bounded_lift {A} (r : res A) : bounded pk sys ty (lift r).
Proof. intros w H. exact H. Qed.

Lemma bounded_ret {A} (a : A) : bounded pk sys ty (ret a).
Proof. intros w H. exact H. Qed.

Lemma bounded_raise {A} (e : pyexn) : bounded pk sys ty (@raise A e).
Proof. intros w H. exact H. Qed.

Lemma bounded_print l : bounded pk sys ty (print l).
Proof. intros w H. exact H. Qed.

Lemma bounded_enter c : bounded pk sys ty (enter c).
Proof. intros w H. exact H. Qed.

Lemma bounded_utc_now : bounded pk sys ty utc_now.
Proof. intros w H. exact H. Qed.

Lemma bounded_create_unique pk0 ty0 sev m sys0 :
  bounded pk sys ty (_create_unique_alert pk0 ty0 sev m sys0).
Proof. intros w. apply create_unique_keeps_invariant. Qed.

Lemma bounded_auto_acknowledge pk0 sys0 ty0 :
  bounded pk sys ty (_auto_acknowledge_alert pk0 sys0 ty0).
Proof. intros w. apply auto_acknowledge_keeps_invariant. Qed.

Lemma bounded_insert_to_supabase table_name data factory_id :
  bounded pk sys ty (_insert_to_supabase table_name data factory_id).
Proof.
  intros w H.
  destruct (insert_to_supabase_cases table_name data factory_id w)
    as (_ & -> & _). exact H.
Qed.

End Bounded.

#[local] Hint Resolve bounded_bind bounded_try bounded_lift bounded_ret
  bounded_raise bounded_print bounded_enter bounded_utc_now
  bounded_create_unique bounded_auto_acknowledge bounded_insert_to_supabase
  : bound.

Section BoundedHandler.
Context (rt : Runtime) (pk : Z) (sys ty : string).
Hypothesis Hty : ty <> "UNAUTHORIZED_ACCESS".

Lemma bounded_fire_rule t pk0 sys0 :
  bounded pk sys ty (fire_rule rt t pk0 sys0).
Proof. unfold fire_rule. destruct (_ && _); auto with bound. Qed.

Lemma bounded_temperature_rule t pk0 sys0 :
  bounded pk sys ty (temperature_rule rt t pk0 sys0).
Proof.
  unfold temperature_rule. apply bounded_bind; [auto with bound|].
  intros [temp|]; [|auto with bound].
  destruct (SFltb _ temp); [|destruct (SFltb temp _)]; auto with bound.
Qed.

Lemma bounded_battery_rule t pk0 sys0 :
  bounded pk sys ty (battery_rule rt t pk0 sys0).
Proof.
  unfold battery_rule. destruct (py_truthy _); [|auto with bound].
  apply bounded_bind; [auto with bound|]. intros [|]; auto with bound.
Qed.

Lemma bounded_access_rule t pk0 sys0 :
  bounded pk sys ty (access_rule rt t pk0 sys0).
Proof.
  unfold access_rule. destruct (py_eq_str _ _); [|auto with bound].
  apply bounded_bind; [|auto with bound].
  intros w H. destruct w as [al fd fa nid ck tk fl co hi].
  unfold_m. simpl in *.
  destruct fl as [|[|] fl]; simpl; try exact H;
    rewrite open_count_app;
    (destruct (is_open_for pk sys ty _) eqn:Hopen; [|lia]);
    apply is_open_for_spec in Hopen; simpl in Hopen;
    exfalso; apply Hty; symmetry; tauto.
Qed.

Lemma bounded_check t factory_id sys0 :
  bounded pk sys ty (_check_and_create_alerts rt t factory_id sys0).
Proof.
  unfold _check_and_create_alerts.
  apply bounded_bind; [auto with bound|]. intros _.
  apply bounded_try; [|auto with bound].
  apply bounded_bind; [auto with bound|]. intros [pk0|]; [|auto with bound].
  repeat (apply bounded_bind; [|intros _]);
    auto using bounded_fire_rule, bounded_temperature_rule,
      bounded_battery_rule, bounded_access_rule.
Qed.

Lemma bounded_do_POST body : bounded pk sys ty (do_POST rt body).
Proof.
  unfold do_POST. apply bounded_try.
  - apply bounded_bind; [auto with bound|]. intros parsed.
    apply bounded_bind; [auto with bound|]. intros pt_data.
    apply bounded_bind; [auto with bound|]. intros found.
    apply bounded_bind; [auto with bound|]. intros t.
    apply bounded_bind; [|auto with bound].
    destruct t as [|kv t].
    + destruct (py_accepts_format_spec _); auto with bound.
    + apply bounded_bind; [auto with bound|]. intros ts.
      apply bounded_bind; [auto with bound|]. intros [|]; [|auto with bound].
      apply bounded_bind; [auto with bound|]. intros _. apply bounded_check.
  - intros []; auto with bound.
Qed.

End BoundedHandler.

(** X22.  Every sequence of requests, handled one after the other, whatever
    their bodies and whatever the store does, keeps at most one open alert
    per tuple of a type other than UNAUTHORIZED_ACCESS. *)
Theorem requests_keep_at_most_one_open_alert rt bodies pk sys ty w :
  ty <> "UNAUTHORIZED_ACCESS" ->
  (open_count pk sys ty (system_alerts w) <= 1)%nat ->
  (open_count pk sys ty (system_alerts (run (serve rt bodies) w)) <= 1)%nat.
Proof.
  intros Hty. revert w.
  induction bodies as [|body bodies IH]; intros w H; [exact H|].
  simpl. rewrite run_bind.
  pose proof (bounded_do_POST rt pk sys ty Hty body w H) as H1.
  destruct (outcome (do_POST rt body) w); [apply IH|]; exact H1.
Qed.

(** ** The records that reach the rules *)

Section Reachable.
Context (rt : Runtime).

(** The mapper stores a float or null as temperature, so the conversion in
    the temperature block cannot raise on its records. *)
Lemma mapped_temperature d v t :
  _map_telemetry_data rt d v = Ok t ->
  dict_get t "temperature" = PNone
  \/ exists f, dict_get t "temperature" = PFloat f.
Proof.
  mapper_cases v.
  - intros [= <-]. now left.
  - intros [= <-]. now left.
  - intros [= <-]. now left.
  - destruct (py_is_str _); intros [= <-]; now left.
  - intros [= <-]. now left.
  - destruct (dict_get d "temperature");
      try destruct (py_float rt _) as [f|[]];
      try discriminate; intros [= <-];
      first [now left | right; eexists; reflexivity].
  - intros [= <-]. now left.
  - intros [= <-]. now left.
Qed.

Lemma stamped_get t name ts k :
  k <> "system_name" -> k <> "timestamp" ->
  dict_find (stamped t name ts) k = dict_find t k.
Proof.
  intros H1 H2.
  assert (Hset : forall d k' v, k <> k' ->
            dict_find (dict_set d k' v) k = dict_find d k).
  { intros d k' v Hk. induction d as [|[k0 v0] d IH]; simpl.
    - destruct (String.eqb_spec k' k); [congruence|reflexivity].
    - destruct (String.eqb_spec k0 k'); simpl.
      + subst. destruct (String.eqb_spec k' k); [congruence|reflexivity].
      + destruct (String.eqb_spec k0 k); [reflexivity|exact IH]. }
  unfold stamped. now rewrite !Hset.
Qed.

(** The record of a Safe_Room payload reaches the access block, and carries
    the payload's access field. *)
Lemma safe_room_record d ts :
  exists t,
    _map_telemetry_data rt d (PStr "Safe_Room") = Ok t
    /\ t <> []
    /\ reaches_access_rule rt (stamped t (PStr "Safe_Room") ts) = true
    /\ dict_get (stamped t (PStr "Safe_Room") ts) "access_log"
       = dict_get d "access".
Proof.
  eexists. split; [reflexivity|]. split; [discriminate|].
  split; reflexivity.
Qed.

End Reachable.

(** Persisting with a store that answers. *)
Lemma insert_to_supabase_healthy table_name data factory_id found w :
  faults w = [] ->
  table_get factory_lookup factory_id = Ok found ->
  let persist := _insert_to_supabase table_name data factory_id in
  outcome persist w = Ok true
  /\ faults (run persist w) = []
  /\ system_alerts (run persist w) = system_alerts w
  /\ next_alert_id (run persist w) = next_alert_id w.
Proof.
  destruct w as [al fd fa nid ck tk fl co hi]. simpl. intros -> Hfound.
  unfold _insert_to_supabase. unfold_m. simpl. rewrite Hfound.
  destruct found; simpl; repeat split; reflexivity.
Qed.

(** X18.  A Safe_Room request of a known factory whose access is "DENIED",
    sent to a store that answers, adds an open UNAUTHORIZED_ACCESS alert for
    the subsystem each time: one request adds one, and the same request
    sent twice adds two. *)
Theorem denied_requests_insert_each_time rt d pk w :
  dict_get_or d "system" (PStr "Unknown") = PStr "Safe_Room" ->
  dict_get d "access" = PStr "DENIED" ->
  table_get factory_lookup (dict_get_or d "factory" (PStr DEFAULT_FACTORY))
  = Ok (Some pk) ->
  faults w = [] ->
  let denied w :=
    open_count pk "Safe_Room" "UNAUTHORIZED_ACCESS" (system_alerts w) in
  denied (run (do_POST rt (Ok (PDict d))) w) = S (denied w)
  /\ denied (run (serve rt [Ok (PDict d); Ok (PDict d)]) w) = S (S (denied w)).
Proof.
  intros Hsys Hacc Hpk.
  assert (Hone : forall w, faults w = [] ->
            let w1 := run (do_POST rt (Ok (PDict d))) w in
            faults w1 = []
            /\ outcome (do_POST rt (Ok (PDict d))) w = Ok success_response
            /\ open_count pk "Safe_Room" "UNAUTHORIZED_ACCESS"
                 (system_alerts w1)
               = S (open_count pk "Safe_Room" "UNAUTHORIZED_ACCESS"
                      (system_alerts w))).
  { intros w0 Hf w1.
    set (factory_id := dict_get_or d "factory" (PStr DEFAULT_FACTORY)) in *.
    destruct (safe_room_record rt d (clock w0 (ticks w0)))
      as (t & Hmap & Ht & Hreach & Hlog).
    assert (Hhash : py_hashable factory_id = true).
    { destruct factory_id; try reflexivity; discriminate. }
    destruct (table_get_hashable FACTORY_MAPPING factory_id Hhash)
      as [found Hfound].
    rewrite <- Hsys in Hmap.
    destruct (do_POST_mapped rt d t found w0 Hfound Hmap Ht) as [Hout Hrun].
    fold factory_id in Hrun. rewrite Hsys in Hrun. simpl str_value in Hrun.
    set (w_s := set_ticks (S (ticks w0)) w0) in *.
    set (record := stamped t (PStr "Safe_Room") (clock w0 (ticks w0))) in *.
    set (table_name := match found with Some x => x | None => default_table end)
      in *.
    destruct (insert_to_supabase_healthy table_name record factory_id
                (Some pk) w_s Hf Hpk) as (Hp & Hpf & Hpa & _).
    rewrite Hp in Hrun.
    set (w_p := run (print (LogDataSaved "Safe_Room" table_name))
                  (run (_insert_to_supabase table_name record factory_id)
                     w_s)) in *.
    assert (Hfp : faults w_p = []) by exact Hpf.
    rewrite Hacc in Hlog.
    destruct (denied_access_once rt record factory_id pk "Safe_Room" w_p
                Hpk Hfp Hlog Hreach) as (Hf1 & _ & Hcount).
    unfold w1. rewrite Hrun. split; [exact Hf1|]. split; [exact Hout|].
    rewrite Hcount. change (system_alerts w_p)
      with (system_alerts (run (_insert_to_supabase table_name record
                                  factory_id) w_s)).
    now rewrite Hpa. }
  intros Hf denied. destruct (Hone w Hf) as (Hf1 & Ho1 & Hc1).
  split; [exact Hc1|].
  destruct (Hone _ Hf1) as (_ & Ho2 & Hc2).
  unfold denied. simpl serve. rewrite run_bind, Ho1, run_bind, Ho2, run_ret.
  now rewrite Hc2, Hc1.
Qed.

(** ** The response to a request *)

Lemma table_get_unhashable {A} (table : list (string * A)) key :
  py_hashable key = false -> table_get table key = Raise TypeError.
Proof. destruct key; simpl; try discriminate; reflexivity. Qed.

Lemma known_key_hashable {A} (table : list (string * A)) key found :
  table_get table key = Ok found -> py_hashable key = true.
Proof. destruct key; try reflexivity; discriminate. Qed.

Lemma outcome_raise {A} (e : pyexn) w : outcome (@raise A e) w = Raise e.
Proof. reflexivity. Qed.

Lemma run_raise {A} (e : pyexn) w : run (@raise A e) w = w.
Proof. reflexivity. Qed.

(** A request that faults: the response, and the one line it prints. *)
Lemma do_POST_fault rt body e w :
  request_fault rt body = Some e ->
  outcome (do_POST rt body) w = Ok (fault_response e)
  /\ run (do_POST rt body) w = set_console (console w ++ [fault_line e]) w.
Proof.
  unfold request_fault, do_POST.
  destruct body as [v|e0].
  - destruct v as [| | | | | |d];
      try (intros [= <-]; split; repeat step; reflexivity).
    destruct (py_hashable (dict_get_or d "factory" (PStr DEFAULT_FACTORY)))
      eqn:Hh.
    + destruct (table_get_hashable FACTORY_MAPPING _ Hh) as [found Hfound].
      destruct (_map_telemetry_data rt d _) as [[|kv t]|e1] eqn:Hmap.
      * destruct (py_accepts_format_spec _) eqn:Hfmt; [discriminate|].
        intros [= <-]. split; repeat step; unfold as_dict; repeat step;
          rewrite Hfound; repeat step; rewrite Hmap; repeat step;
          rewrite Hfmt; repeat step; rewrite ?outcome_raise, ?run_raise;
          repeat step; reflexivity.
      * discriminate.
      * intros [= <-]. split; repeat step; unfold as_dict; repeat step;
          rewrite Hfound; repeat step; rewrite Hmap; repeat step;
          destruct e1; reflexivity.
    + intros [= <-]. apply table_get_unhashable with (table := FACTORY_MAPPING)
        in Hh.
      split; repeat step; unfold as_dict; repeat step; rewrite Hh;
        repeat step; reflexivity.
  - intros [= <-]. split; repeat step; destruct e0; reflexivity.
Qed.

(** A request with an empty mapping and a name that can be printed. *)
Lemma do_POST_unmapped rt d found w :
  let system_name := dict_get_or d "system" (PStr "Unknown") in
  let factory_id := dict_get_or d "factory" (PStr DEFAULT_FACTORY) in
  table_get FACTORY_MAPPING factory_id = Ok found ->
  _map_telemetry_data rt d system_name = Ok [] ->
  py_accepts_format_spec system_name = true ->
  outcome (do_POST rt (Ok (PDict d))) w = Ok success_response
  /\ run (do_POST rt (Ok (PDict d))) w
     = set_console (console w ++ [LogNoValidData system_name]) w.
Proof.
  intros system_name factory_id Hfound Hmap Hfmt. unfold do_POST.
  fold system_name factory_id.
  split; repeat step; unfold as_dict; repeat step;
    fold system_name factory_id; rewrite Hfound; repeat step; rewrite Hmap;
    repeat step; rewrite Hfmt; repeat step; reflexivity.
Qed.

(** A request that does not fault is acknowledged. *)
Lemma do_POST_served rt body w :
  request_fault rt body = None ->
  outcome (do_POST rt body) w = Ok success_response.
Proof.
  unfold request_fault.
  destruct body as [v|e0]; [|discriminate].
  destruct v as [| | | | | |d]; try discriminate.
  destruct (py_hashable (dict_get_or d "factory" (PStr DEFAULT_FACTORY)))
    eqn:Hh; [|discriminate].
  destruct (table_get_hashable FACTORY_MAPPING _ Hh) as [found Hfound].
  destruct (_map_telemetry_data rt d _) as [[|kv t]|e1] eqn:Hmap;
    [|intros _|discriminate].
  - destruct (py_accepts_format_spec _) eqn:Hfmt; [intros _|discriminate].
    now apply (do_POST_unmapped rt d found w).
  - apply (do_POST_mapped rt d (kv :: t) found w Hfound Hmap). discriminate.
Qed.

(** X1.  [do_POST] never raises: every request, whatever its body and
    whatever the store does, is answered with the success acknowledgment,
    with status 400 "Invalid JSON" or with status 500 "Internal Server
    Error".  The status is 400 exactly when parsing the body raised
    [JSONDecodeError]; it is 200 exactly when the [try] block meets none of
    its faults; and the response is the same in every world, so it never
    tells whether the record was stored. *)
Theorem do_POST_always_answers rt body w :
  exists r,
    outcome (do_POST rt body) w = Ok r
    /\ (r = success_response
        \/ r = _send_error_response 400 "Invalid JSON"
        \/ r = _send_error_response 500 "Internal Server Error")
    /\ (status_code r = 400 <-> body = Raise JSONDecodeError)
    /\ (status_code r = 200 <-> request_fault rt body = None)
    /\ forall w', outcome (do_POST rt body) w' = Ok r.
Proof.
  destruct (request_fault rt body) as [e|] eqn:Hfault.
  - exists (fault_response e).
    split; [apply (do_POST_fault rt body e w Hfault)|].
    split; [destruct e; simpl; auto|].
    split; [|split].
    + assert (Hjson : e = JSONDecodeError <-> body = Raise JSONDecodeError).
      { revert Hfault. unfold request_fault.
        destruct body as [v|e0].
        - destruct v as [| | | | | |d];
            try (intros [= <-]; split; discriminate).
          destruct (py_hashable _); [|intros [= <-]; split; discriminate].
          destruct (_map_telemetry_data rt d _) as [[|kv t]|e1] eqn:Hmap.
          + destruct (py_accepts_format_spec _); [discriminate|].
            intros [= <-]; split; discriminate.
          + discriminate.
          + intros [= <-]. apply mapper_raises in Hmap as [-> _].
            split; discriminate.
        - intros [= <-]. split; [now intros ->|now intros [= ->]]. }
      rewrite <- Hjson. destruct e; simpl; split; congruence.
    + destruct e; simpl; split; discriminate.
    + intros w'. apply (do_POST_fault rt body e w' Hfault).
  - exists success_response.
    split; [now apply do_POST_served|]. split; [auto|].
    split; [|split].
    + simpl. split; [discriminate|]. intros ->. discriminate.
    + simpl. split; reflexivity.
    + intros w'. now apply do_POST_served.
Qed.

(** X2.  A request answered with an error status left the store as it was:
    no table changed, no store request was made, no alert method was
    entered and the clock was not read; the handler printed one line, the
    one of the [except] clause that caught the fault. *)
Theorem error_response_leaves_store_untouched rt body w r :
  outcome (do_POST rt body) w = Ok r ->
  status_code r <> 200 ->
  let w' := run (do_POST rt body) w in
  store_untouched w w'
  /\ ticks w' = ticks w
  /\ exists e,
       request_fault rt body = Some e
       /\ r = fault_response e
       /\ lines_of (do_POST rt body) w = [fault_line e].
Proof.
  intros Hout Hstatus w'.
  destruct (request_fault rt body) as [e|] eqn:Hfault.
  - destruct (do_POST_fault rt body e w Hfault) as [Ho Hrun].
    unfold w', lines_of. rewrite Hrun. simpl.
    split; [repeat split|]. split; [reflexivity|].
    exists e. split; [reflexivity|]. split; [congruence|].
    apply skipn_extension.
  - rewrite (do_POST_served rt body w Hfault) in Hout.
    injection Hout as <-. now elim Hstatus.
Qed.


(** ** Persisting, one store request at a time *)

(** X5.  [_insert_to_supabase] with a hashable factory key never raises and
    returns [True] exactly when the store rejected none of its requests: the
    insert and, for a known factory, the update of the last-seen instant.
    The record is in its table exactly when the insert was accepted, also
    when [False] is returned because the update was rejected; the last-seen
    instant changes only when both were accepted; a failure prints one
    "Database Error" line; the alerts are never touched. *)
Theorem persistence_by_store_answers table_name data factory_id w :
  py_hashable factory_id = true ->
  let persist := _insert_to_supabase table_name data factory_id in
  let w' := run persist w in
  let failed :=
    first_fails w
    || match known_factory factory_id with
       | Some _ => second_fails w
       | None => false
       end in
  outcome persist w = Ok (negb failed)
  /\ console w'
     = (console w ++ if failed then [LogDatabaseError StoreError] else [])%list
  /\ factory_data w'
     = (if first_fails w then factory_data w
        else factory_data w ++ [(table_name, data)])%list
  /\ factories w'
     = match known_factory factory_id with
       | Some pk =>
           if failed then factories w
           else factories (snd (touch_factory pk (clock w (ticks w)) w))
       | None => factories w
       end
  /\ system_alerts w' = system_alerts w
  /\ history w' = history w.
Proof.
  intros Hhash.
  destruct (table_get_hashable factory_lookup factory_id Hhash)
    as [found Hfound].
  destruct w as [al fd fa nid ck tk fl co hi].
  unfold _insert_to_supabase, known_factory, first_fails, second_fails.
  unfold_m. simpl. rewrite Hfound.
  destruct fl as [|[|] [|[|] fl]]; destruct found as [pk|]; simpl;
    rewrite ?app_nil_r; repeat split; reflexivity.
Qed.

(** The record is stored and the update of the last-seen instant is
    rejected. *)
Lemma insert_to_supabase_half table_name data factory_id pk rest w :
  table_get factory_lookup factory_id = Ok (Some pk) ->
  faults w = false :: true :: rest ->
  let persist := _insert_to_supabase table_name data factory_id in
  outcome persist w = Ok false
  /\ run persist w
     = set_console (console w ++ [LogDatabaseError StoreError])
         (set_faults rest
            (set_ticks (S (ticks w))
               (set_factory_data (factory_data w ++ [(table_name, data)]) w))).
Proof.
  destruct w as [al fd fa nid ck tk fl co hi]. simpl. intros Hpk ->.
  unfold _insert_to_supabase. unfold_m. simpl. rewrite Hpk. simpl.
  split; reflexivity.
Qed.

(** Persisting with a store that answers: where the record goes. *)
Lemma insert_to_supabase_stores table_name data factory_id w :
  py_hashable factory_id = true ->
  faults w = [] ->
  let persist := _insert_to_supabase table_name data factory_id in
  outcome persist w = Ok true
  /\ factory_data (run persist w)
     = (factory_data w ++ [(table_name, data)])%list
  /\ factories (run persist w)
     = match known_factory factory_id with
       | Some pk => factories (snd (touch_factory pk (clock w (ticks w)) w))
       | None => factories w
       end.
Proof.
  intros Hhash.
  destruct (table_get_hashable factory_lookup factory_id Hhash)
    as [found Hfound].
  destruct w as [al fd fa nid ck tk fl co hi]. simpl. intros ->.
  unfold _insert_to_supabase, known_factory. unfold_m. simpl. rewrite Hfound.
  destruct found; simpl; repeat split; reflexivity.
Qed.

(** X6.  A request of a known factory whose record the store accepts and
    whose last-seen update it rejects: the sender is acknowledged and the
    stamped record is in the factory's table, yet the request is logged as
    "Save Failed", no alert method is entered, and the alerts and the
    factories are as they were. *)
Theorem rejected_last_seen_update_skips_alerts rt d t pk rest w :
  let system_name := dict_get_or d "system" (PStr "Unknown") in
  let factory_id := dict_get_or d "factory" (PStr DEFAULT_FACTORY) in
  table_get factory_lookup factory_id = Ok (Some pk) ->
  _map_telemetry_data rt d system_name = Ok t ->
  t <> [] ->
  faults w = false :: true :: rest ->
  let request := do_POST rt (Ok (PDict d)) in
  let record := stamped t system_name (clock w (ticks w)) in
  let w' := run request w in
  outcome request w = Ok success_response
  /\ factory_data w'
     = (factory_data w ++ [(table_for factory_id, record)])%list
  /\ factories w' = factories w
  /\ system_alerts w' = system_alerts w
  /\ calls_of request w = []
  /\ lines_of request w
     = [LogDatabaseError StoreError;
        LogSaveFailed (str_value system_name) (table_for factory_id)].
Proof.
  intros system_name factory_id Hpk Hmap Ht Hfaults request record w'.
  pose proof (known_key_hashable _ _ _ Hpk) as Hhash.
  destruct (table_get_hashable FACTORY_MAPPING factory_id Hhash)
    as [found Hfound].
  destruct (do_POST_mapped rt d t found w Hfound Hmap Ht) as [Hout Hrun].
  fold system_name factory_id record request in Hrun.
  assert (Htable : match found with Some x => x | None => default_table end
                   = table_for factory_id).
  { unfold table_for. now rewrite Hfound. }
  rewrite Htable in Hrun.
  destruct (insert_to_supabase_half (table_for factory_id) record factory_id
              pk rest (set_ticks (S (ticks w)) w) Hpk Hfaults) as [Hp Hw].
  rewrite Hp, Hw in Hrun.
  split; [exact Hout|]. unfold w', calls_of, lines_of. rewrite Hrun. simpl.
  repeat (split; [reflexivity|]). split.
  - now rewrite skipn_all.
  - rewrite <- app_assoc. apply skipn_extension.
Qed.

(** ** The record the mapper makes *)

Ltac distinct_keys :=
  repeat (constructor; [simpl; intuition discriminate|]); constructor.

(** X7.  The record of a recognised subsystem has exactly that subsystem's
    fields, each once and in the order the mapper sets them, whatever the
    payload holds; the one field that can be missing is the HVAC
    temperature, left out when the payload's temperature is null or
    absent. *)
Theorem mapped_record_has_every_field rt d name t :
  In name SUBSYSTEMS ->
  _map_telemetry_data rt d (PStr name) = Ok t ->
  dict_keys t = mapped_fields name d /\ NoDup (dict_keys t).
Proof.
  intros Hin Hmap. unfold mapped_fields. simpl in Hin.
  destruct Hin as [<-|[<-|[<-|[<-|[<-|[<-|[<-|[]]]]]]]];
    unfold _map_telemetry_data in Hmap; simpl in Hmap |- *;
    try (injection Hmap as <-; split; [reflexivity|distinct_keys]).
  - destruct (py_is_str _); injection Hmap as <-;
      (split; [reflexivity|distinct_keys]).
  - destruct (dict_get d "temperature") eqn:Hraw; simpl in Hmap |- *;
      try destruct (float_of_int _) as [f|[]];
      try destruct (float_of_string rt _);
      try discriminate; injection Hmap as <-;
      (split; [reflexivity|distinct_keys]).
Qed.

(** The mapping is empty exactly for the names the mapper does not
    recognise. *)
Lemma mapper_empty_iff rt d v t :
  _map_telemetry_data rt d v = Ok t -> (t <> [] <-> recognized v = true).
Proof.
  intros Hmap. destruct (recognized v) eqn:Hr.
  - split; [reflexivity|intros _]. revert Hmap. mapper_cases v;
      try (destruct (py_is_str _));
      try (destruct (dict_get d "temperature");
           try destruct (py_float rt _) as [f|[]]);
      try discriminate; intros [= <-]; try discriminate;
      unfold recognized, SUBSYSTEMS in Hr; simpl in Hr;
      repeat match goal with
             | Hx : py_eq_str v _ = false |- _ => rewrite Hx in Hr; clear Hx
             end;
      discriminate.
  - rewrite (mapper_unrecognized rt d v Hr) in Hmap. injection Hmap as <-.
    split; [congruence|discriminate].
Qed.

(** X8.  Whatever the payload holds, the fields the mapper derives are
    normalised: a siren or sprinkler state is "ON" or "OFF", the motion
    flag is a boolean, and a temperature is a float or null.  The mapping
    is non-empty exactly when the subsystem name is one of the seven the
    mapper recognises. *)
Theorem derived_fields_are_normalized rt d v t :
  _map_telemetry_data rt d v = Ok t ->
  (forall k x, k = "siren_state" \/ k = "sprinkler_state" ->
     dict_find t k = Some x -> x = PStr "ON" \/ x = PStr "OFF")
  /\ (forall x, dict_find t "motion_detected" = Some x -> exists b, x = PBool b)
  /\ (forall x, dict_find t "temperature" = Some x ->
        x = PNone \/ exists f, x = PFloat f)
  /\ (t <> [] <-> recognized v = true).
Proof.
  intros Hmap.
  assert (Hcases : forall P : pydict -> Prop,
            (forall a b (c e : bool),
               P [("fire_sensor_val", a); ("fire_status", b);
                  ("siren_state", PStr (if c then "ON" else "OFF"));
                  ("sprinkler_state", PStr (if e then "ON" else "OFF"))]) ->
            (forall b a, P [("motion_detected", PBool b); ("garage_door", a)]) ->
            (forall x a b c,
               x = PNone \/ (exists f, x = PFloat f) ->
               P [("temperature", x); ("ac_state", a); ("ac2_state", b);
                  ("furnace_state", c)]) ->
            (forall t0, dict_find t0 "siren_state" = None ->
                        dict_find t0 "sprinkler_state" = None ->
                        dict_find t0 "motion_detected" = None ->
                        dict_find t0 "temperature" = None -> P t0) ->
            P t).
  { intros P Hfire Hdoor Hhvac Hother. revert Hmap. mapper_cases v.
    - intros [= <-]. apply Hfire.
    - intros [= <-]. now apply Hother.
    - intros [= <-]. now apply Hother.
    - destruct (py_is_str _); intros [= <-]; apply Hdoor.
    - intros [= <-]. now apply Hother.
    - destruct (dict_get d "temperature") eqn:Hraw;
        try destruct (py_float rt _) as [f|[]];
        try discriminate; intros [= <-];
        first [now apply Hother | apply Hhvac; eauto].
    - intros [= <-]. now apply Hother.
    - intros [= <-]. now apply Hother. }
  split; [|split; [|split; [|now apply (mapper_empty_iff rt d)]]];
    apply Hcases; clear.
  - intros a b c e k x [-> | ->] [= <-]; [destruct c|destruct e]; auto.
  - intros b a k x [-> | ->]; discriminate.
  - intros x0 a b c _ k x [-> | ->]; discriminate.
  - intros t0 H1 H2 _ _ k x [-> | ->]; congruence.
  - discriminate.
  - intros b a x [= <-]. eauto.
  - discriminate.
  - intros t0 _ _ H _ x. congruence.
  - discriminate.
  - discriminate.
  - intros x0 a b c Hx x [= <-]. exact Hx.
  - intros t0 _ _ _ H x. congruence.
Qed.

(** X9.  In the record a request stores, the temperature is null (or
    absent) or a float, so the conversion in the temperature block of
    [_check_and_create_alerts] never raises on it and never falls into its
    [except] clause: it yields no temperature or that float. *)
Theorem stored_temperature_never_raises rt d v t ts :
  _map_telemetry_data rt d v = Ok t ->
  let record := stamped t v ts in
  (dict_get record "temperature" = PNone
   /\ temperature_of rt record = Ok None)
  \/ (exists f,
        dict_get record "temperature" = PFloat f
        /\ temperature_of rt record = Ok (Some f)).
Proof.
  intros Hmap record.
  assert (Hget : dict_get record "temperature" = dict_get t "temperature").
  { unfold dict_get, dict_get_or, record.
    now rewrite stamped_get by discriminate. }
  destruct (mapped_temperature rt d v t Hmap) as [Hn|[f Hf]].
  - left. rewrite Hget. split; [exact Hn|].
    apply temperature_of_null. now rewrite Hget.
  - right. exists f. rewrite Hget. split; [exact Hf|].
    apply temperature_of_float. now rewrite Hget.
Qed.

(** ** Relations every request respects *)

Section Respects.

Variable R : World -> World -> Prop.
Hypothesis R_refl : forall w, R w w.
Hypothesis R_trans : forall w1 w2 w3, R w1 w2 -> R w2 w3 -> R w1 w3.
Hypothesis R_tables :
  forall w w1 w2, tables w1 = tables w2 -> R w w1 -> R w w2.

Lemma respects_same {A} (c : M A) :
  (forall w, tables (run c w) = tables w) -> respects R c.
Proof. intros H w. apply (R_tables w w); [symmetry; apply H|apply R_refl]. Qed.

Lemma respects_ret {A} (a : A) : respects R (ret a).
Proof. now apply respects_same. Qed.

Lemma respects_lift {A} (r : res A) : respects R (lift r).
Proof. now apply respects_same. Qed.

Lemma respects_raise {A} (e : pyexn) : respects R (@raise A e).
Proof. now apply respects_same. Qed.

Lemma respects_print l : respects R (print l).
Proof. now apply respects_same. Qed.

Lemma respects_enter c : respects R (enter c).
Proof. now apply respects_same. Qed.

Lemma respects_utc_now : respects R utc_now.
Proof. now apply respects_same. Qed.

Lemma respects_bind {A B} (c : M A) (k : A -> M B) :
  respects R c -> (forall a, respects R (k a)) -> respects R (bind c k).
Proof.
  intros Hc Hk w. rewrite run_bind. destruct (outcome c w); [|apply Hc].
  eapply R_trans; [apply Hc|apply Hk].
Qed.

Lemma respects_try {A} (c : M A) (h : pyexn -> M A) :
  respects R c -> (forall e, respects R (h e)) -> respects R (try_except c h).
Proof.
  intros Hc Hh w. rewrite run_try. destruct (outcome c w); [apply Hc|].
  eapply R_trans; [apply Hc|apply Hh].
Qed.

Lemma respects_execute {A} (request : World -> A * World) :
  (forall w, R w (snd (request w))) -> respects R (execute request).
Proof.
  intros Hreq w.
  assert (Hsame : forall w', tables w' = tables w -> R w w').
  { intros w' H. apply (R_tables w w); [now symmetry|apply R_refl]. }
  unfold run, execute.
  destruct (faults w) as [|[|] fl] eqn:Hf.
  - specialize (Hreq w). destruct (request w) as [a w']. exact Hreq.
  - apply Hsame. reflexivity.
  - specialize (Hreq (set_faults fl w)).
    destruct (request (set_faults fl w)) as [a w']. simpl in *.
    eapply R_trans; [|exact Hreq]. apply Hsame. reflexivity.
Qed.

Section AlertRequests.

Hypothesis R_refresh :
  forall pk sys ty first rest m ts w,
    open_alerts pk sys ty (system_alerts w) = first :: rest ->
    R w (snd (update_alert_message (a_id first) m ts w)).
Hypothesis R_insert_alert :
  forall pk ty sev m sys w, R w (snd (insert_alert pk ty sev m sys w)).
Hypothesis R_acknowledge :
  forall pk sys ty ts w, R w (snd (acknowledge_open_alerts pk sys ty ts w)).

Lemma respects_create_unique pk ty sev m sys :
  respects R (_create_unique_alert pk ty sev m sys).
Proof.
  intros w.
  assert (Hsame : forall w', tables w' = tables w -> R w w').
  { intros w' H. apply (R_tables w w); [now symmetry|apply R_refl]. }
  destruct (open_alerts pk sys ty (system_alerts w)) as [|first rest] eqn:Hopen.
  - pose proof (R_insert_alert pk ty sev m sys w) as Hins.
    revert Hsame Hopen Hins.
    destruct w as [al fd fa nid ck tk fl co hi].
    unfold _create_unique_alert, open_alerts, tables. unfold_m. simpl.
    intros Hsame Hopen Hins. rewrite Hopen.
    destruct fl as [|[|] [|[|] fl]]; simpl;
      first [ apply Hsame; reflexivity
            | eapply R_tables; [|exact Hins]; reflexivity ].
  - pose proof (R_refresh pk sys ty first rest m (clock w (ticks w)) w Hopen)
      as Hupd.
    revert Hsame Hopen Hupd.
    destruct w as [al fd fa nid ck tk fl co hi].
    unfold _create_unique_alert, open_alerts, tables. unfold_m. simpl.
    intros Hsame Hopen Hupd. rewrite Hopen.
    destruct fl as [|[|] [|[|] fl]]; simpl;
      destruct (String.eqb (a_message first) m); simpl;
      first [ apply Hsame; reflexivity
            | eapply R_tables; [|exact Hupd]; reflexivity ].
Qed.

Lemma respects_auto_acknowledge pk sys ty :
  respects R (_auto_acknowledge_alert pk sys ty).
Proof.
  intros w.
  assert (Hsame : forall w', tables w' = tables w -> R w w').
  { intros w' H. apply (R_tables w w); [now symmetry|apply R_refl]. }
  pose proof (R_acknowledge pk sys ty (clock w (ticks w)) w) as Hack.
  revert Hsame Hack.
  destruct w as [al fd fa nid ck tk fl co hi].
  unfold _auto_acknowledge_alert, tables. unfold_m. simpl.
  intros Hsame Hack.
  destruct fl as [|[|] fl]; simpl;
    first [ apply Hsame; reflexivity
          | eapply R_tables; [|exact Hack]; reflexivity ].
Qed.

Lemma respects_access_rule rt t pk sys : respects R (access_rule rt t pk sys).
Proof.
  unfold access_rule.
  destruct (py_eq_str _ _); [|apply respects_ret].
  apply respects_bind; [|intros _; apply respects_print].
  apply respects_execute. intros w. apply R_insert_alert.
Qed.

Lemma respects_alert_rules rt t pk sys : respects R (alert_rules rt t pk sys).
Proof.
  unfold alert_rules.
  apply respects_bind; [|intros _; apply respects_bind;
                         [|intros _; apply respects_bind;
                           [|intros _; apply respects_access_rule]]].
  - unfold fire_rule. destruct (_ && _);
      [apply respects_create_unique|apply respects_auto_acknowledge].
  - unfold temperature_rule. apply respects_bind; [apply respects_lift|].
    intros [temp|]; [|apply respects_ret].
    destruct (SFltb _ temp); [|destruct (SFltb temp _)];
      try apply respects_create_unique.
    apply respects_bind; [|intros _]; apply respects_auto_acknowledge.
  - unfold battery_rule. destruct (py_truthy _); [|apply respects_ret].
    apply respects_bind; [apply respects_lift|]. intros [|].
    + apply respects_bind; [apply respects_lift|]. intros level.
      apply respects_create_unique.
    + apply respects_auto_acknowledge.
Qed.

Lemma respects_check rt t factory_id sys :
  respects R (_check_and_create_alerts rt t factory_id sys).
Proof.
  unfold _check_and_create_alerts.
  apply respects_bind; [apply respects_enter|]. intros _.
  apply respects_try; [|intros e; apply respects_print].
  apply respects_bind; [apply respects_lift|].
  intros [pk|]; [apply respects_alert_rules|apply respects_ret].
Qed.

Section TelemetryRequests.

Hypothesis R_insert_telemetry :
  forall table_name data w, R w (snd (insert_telemetry table_name data w)).
Hypothesis R_touch :
  forall pk ts w, R w (snd (touch_factory pk ts w)).

Lemma respects_insert_to_supabase table_name data factory_id :
  respects R (_insert_to_supabase table_name data factory_id).
Proof.
  unfold _insert_to_supabase. apply respects_try.
  - apply respects_bind; [apply respects_execute, R_insert_telemetry|].
    intros _.
    apply respects_bind; [apply respects_lift|]. intros [pk|].
    + apply respects_bind; [apply respects_utc_now|]. intros ts.
      apply respects_bind; [apply respects_execute, R_touch|]. intros _.
      apply respects_ret.
    + apply respects_ret.
  - intros e. apply respects_bind; [apply respects_print|]. intros _.
    apply respects_ret.
Qed.

Lemma respects_do_POST rt body : respects R (do_POST rt body).
Proof.
  unfold do_POST. apply respects_try.
  - apply respects_bind; [apply respects_lift|]. intros parsed.
    apply respects_bind; [apply respects_lift|]. intros pt_data.
    apply respects_bind; [apply respects_lift|]. intros found.
    apply respects_bind; [apply respects_lift|]. intros t.
    apply respects_bind; [|intros _; apply respects_ret].
    destruct t as [|kv t].
    + destruct (py_accepts_format_spec _);
        [apply respects_print|apply respects_raise].
    + apply respects_bind; [apply respects_utc_now|]. intros ts.
      apply respects_bind; [apply respects_insert_to_supabase|].
      intros [|]; [|apply respects_print].
      apply respects_bind; [apply respects_print|]. intros _.
      apply respects_check.
  - intros e. destruct e;
      (apply respects_bind; [apply respects_print|intros _; apply respects_ret]).
Qed.

Lemma respects_serve rt bodies : respects R (serve rt bodies).
Proof.
  induction bodies as [|body bodies IH]; simpl; [apply respects_ret|].
  apply respects_bind; [apply respects_do_POST|]. intros _. exact IH.
Qed.

End TelemetryRequests.

End AlertRequests.

End Respects.

(** ** Where a record is stored *)

Lemma dict_find_set_same d k v : dict_find (dict_set d k v) k = Some v.
Proof.
  induction d as [|[k0 v0] d IH]; simpl.
  - now rewrite String.eqb_refl.
  - destruct (String.eqb_spec k0 k); simpl.
    + subst. now rewrite String.eqb_refl.
    + destruct (String.eqb_spec k0 k); [congruence|exact IH].
Qed.

Lemma dict_find_set_other d k k' v :
  k <> k' -> dict_find (dict_set d k' v) k = dict_find d k.
Proof.
  intros Hk. induction d as [|[k0 v0] d IH]; simpl.
  - destruct (String.eqb_spec k' k); [congruence|reflexivity].
  - destruct (String.eqb_spec k0 k'); simpl.
    + subst. destruct (String.eqb_spec k' k); [congruence|reflexivity].
    + destruct (String.eqb_spec k0 k); [reflexivity|exact IH].
Qed.

(** The alert methods write to neither the telemetry tables nor the
    factories. *)
Lemma check_keeps_telemetry rt t factory_id sys w :
  telemetry_kept w (run (_check_and_create_alerts rt t factory_id sys) w).
Proof.
  apply (respects_check telemetry_kept).
  - intros w0. split; reflexivity.
  - intros w1 w2 w3 [A1 A2] [B1 B2]. split; congruence.
  - intros w0 w1 w2 [= _ Hd Hf _] [A1 A2]. split; congruence.
  - intros pk sys0 ty first rest m ts w0 _. split; reflexivity.
  - intros pk ty sev m sys0 w0. split; reflexivity.
  - intros pk sys0 ty ts w0. split; reflexivity.
Qed.

(** X4.  A request with a non-empty mapping and a hashable factory key,
    sent to a store that answers: one row is appended to the telemetry of
    the table the factory key routes to, and it is the mapped record with
    the subsystem name and the instant of the first clock reading added,
    its mapped fields unchanged; for a known factory the last-seen instant
    becomes the second clock reading, and for any other key the factories
    are not touched. *)
Theorem stored_record_is_routed_and_stamped rt d t w :
  let system_name := dict_get_or d "system" (PStr "Unknown") in
  let factory_id := dict_get_or d "factory" (PStr DEFAULT_FACTORY) in
  py_hashable factory_id = true ->
  _map_telemetry_data rt d system_name = Ok t ->
  t <> [] ->
  faults w = [] ->
  let now := clock w (ticks w) in
  let record := stamped t system_name now in
  let w' := run (do_POST rt (Ok (PDict d))) w in
  factory_data w' = (factory_data w ++ [(table_for factory_id, record)])%list
  /\ dict_find record "system_name" = Some system_name
  /\ dict_find record "timestamp" = Some (PStr now)
  /\ (forall k, k <> "system_name" -> k <> "timestamp" ->
        dict_find record k = dict_find t k)
  /\ factories w'
     = match known_factory factory_id with
       | Some pk =>
           factories (snd (touch_factory pk (clock w (S (ticks w))) w))
       | None => factories w
       end.
Proof.
  intros system_name factory_id Hhash Hmap Ht Hf now record w'.
  destruct (table_get_hashable FACTORY_MAPPING factory_id Hhash)
    as [found Hfound].
  destruct (do_POST_mapped rt d t found w Hfound Hmap Ht) as [_ Hrun].
  fold system_name factory_id now record in Hrun.
  assert (Htable : match found with Some x => x | None => default_table end
                   = table_for factory_id).
  { unfold table_for. now rewrite Hfound. }
  rewrite Htable in Hrun.
  destruct (insert_to_supabase_stores (table_for factory_id) record factory_id
              (set_ticks (S (ticks w)) w) Hhash Hf) as (Hp & Hd & Hfa).
  rewrite Hp in Hrun.
  match type of Hrun with
  | _ = run (_check_and_create_alerts ?rt ?t ?f ?s) ?w0 =>
      destruct (check_keeps_telemetry rt t f s w0) as [Kd Kf]
  end.
  unfold w'. rewrite Hrun, Kd, Kf. simpl in Hd, Hfa |- *.
  split; [exact Hd|]. split; [|split; [|split]].
  - unfold record, stamped. rewrite dict_find_set_other by discriminate.
    apply dict_find_set_same.
  - apply dict_find_set_same.
  - intros k H1 H2. now apply stamped_get.
  - exact Hfa.
Qed.

(** ** What an evaluation does, whatever the store does *)

(** X10.  [_check_and_create_alerts] never raises, and which alert methods
    it enters, with which arguments, depends on the record and the factory
    key alone, never on the store: for a factory key that is not known it
    enters none and leaves the alerts alone, for a known one it enters those
    of the rule engine. *)
Theorem evaluation_does_not_depend_on_the_store rt t factory_id sys w w' :
  let check := _check_and_create_alerts rt t factory_id sys in
  outcome check w = Ok tt
  /\ calls_of check w = calls_of check w'
  /\ (known_factory factory_id = None ->
        calls_of check w = [Call_check_and_create_alerts t factory_id sys]
        /\ system_alerts (run check w) = system_alerts w)
  /\ (forall pk, known_factory factory_id = Some pk ->
        calls_of check w
        = Call_check_and_create_alerts t factory_id sys
            :: rule_calls rt t pk sys).
Proof.
  intros check. split; [apply check_returns|].
  split; [unfold check; now rewrite !check_calls|]. split.
  - intros Hk. unfold check. rewrite check_calls.
    unfold evaluation_calls, known_factory in *.
    destruct (table_get factory_lookup factory_id) as [[pk|]|e] eqn:Hpk;
      try discriminate; (split; [reflexivity|]).
    + now rewrite (check_unknown_factory rt t factory_id sys w Hpk).
    + unfold _check_and_create_alerts.
      rewrite run_bind. change (outcome (enter _) w) with (Ok tt : res unit).
      cbv iota. rewrite run_try, outcome_bind, run_bind.
      rewrite !outcome_lift, !run_lift, Hpk. reflexivity.
  - intros pk Hk. unfold check. apply known_factory_calls.
    unfold known_factory in Hk.
    destruct (table_get factory_lookup factory_id) as [[pk'|]|e];
      congruence.
Qed.

Lemma keeps_try ty {A} (c : M A) (h : pyexn -> M A) :
  keeps ty c -> (forall e, keeps ty (h e)) -> keeps ty (try_except c h).
Proof.
  intros Hc Hh w. rewrite run_try. destruct (outcome c w); [apply Hc|].
  eapply steady_trans; [apply Hc|apply Hh].
Qed.

Lemma keeps_access_rule ty0 rt t pk sys :
  ty0 <> "UNAUTHORIZED_ACCESS" -> keeps ty0 (access_rule rt t pk sys).
Proof.
  intros Hty w. unfold access_rule.
  destruct (py_eq_str _ _); [|apply keeps_ret].
  destruct w as [al fd fa nid ck tk fl co hi]. unfold steady. unfold_m. simpl.
  destruct fl as [|[|] fl]; simpl;
    (split; [|split; [try discriminate; auto|lia]]);
    intros pk' sys'; try reflexivity;
    rewrite open_count_app;
    (destruct (is_open_for pk' sys' ty0 _) eqn:Hopen; [|lia]);
    apply is_open_for_spec in Hopen; simpl in Hopen;
    exfalso; apply Hty; symmetry; tauto.
Qed.

Lemma keeps_quiet_access_rule rt t pk sys :
  dict_get t "access_log" <> PStr "DENIED" ->
  keeps "UNAUTHORIZED_ACCESS" (access_rule rt t pk sys).
Proof.
  intros Hne. unfold access_rule.
  destruct (py_eq_str _ _) eqn:Heq; [|apply keeps_ret].
  apply py_eq_str_true in Heq. contradiction.
Qed.

Lemma keeps_check ty rt t factory_id sys :
  (forall pk, keeps ty (alert_rules rt t pk sys)) ->
  keeps ty (_check_and_create_alerts rt t factory_id sys).
Proof.
  intros H. unfold _check_and_create_alerts.
  apply keeps_bind; [apply keeps_enter|]. intros _.
  apply keeps_try; [|intros e; apply keeps_print].
  apply keeps_bind; [apply keeps_lift|]. intros [pk|]; [apply H|apply keeps_ret].
Qed.

(** The alerts after the method, for a known factory, are those after the
    rule engine, whether it raised or not. *)
Lemma check_known_alerts rt t factory_id pk sys w :
  table_get factory_lookup factory_id = Ok (Some pk) ->
  system_alerts (run (_check_and_create_alerts rt t factory_id sys) w)
  = system_alerts
      (run (alert_rules rt t pk sys)
         (run (enter (Call_check_and_create_alerts t factory_id sys)) w)).
Proof.
  intros Hpk. unfold _check_and_create_alerts.
  rewrite run_bind. change (outcome (enter _) w) with (Ok tt : res unit).
  cbv iota. rewrite run_try, outcome_bind, run_bind.
  rewrite !outcome_lift, !run_lift, Hpk.
  destruct (outcome (alert_rules rt t pk sys) _); reflexivity.
Qed.

Lemma check_known_raise rt t factory_id pk sys e w :
  table_get factory_lookup factory_id = Ok (Some pk) ->
  let w0 := run (enter (Call_check_and_create_alerts t factory_id sys)) w in
  outcome (alert_rules rt t pk sys) w0 = Raise e ->
  run (_check_and_create_alerts rt t factory_id sys) w
  = run (print (LogAlertError e)) (run (alert_rules rt t pk sys) w0).
Proof.
  intros Hpk w0 Ho. unfold _check_and_create_alerts.
  rewrite run_bind. change (outcome (enter _) w) with (Ok tt : res unit).
  fold w0. rewrite run_try, outcome_bind, run_bind.
  rewrite !outcome_lift, !run_lift, Hpk, Ho. reflexivity.
Qed.

(** ** Open alerts after an evaluation, with a store that answers *)

Lemma assert_opens pk ty sev m sys w :
  faults w = [] ->
  open_count pk sys ty
    (system_alerts (run (_create_unique_alert pk ty sev m sys) w))
  = Nat.max 1 (open_count pk sys ty (system_alerts w)).
Proof.
  intros Hf. rewrite create_unique_healthy by exact Hf. cbv zeta.
  unfold open_count at 2.
  destruct (open_alerts pk sys ty (system_alerts w)) as [|first rest] eqn:Hopen.
  - simpl. rewrite open_count_app. unfold open_count. rewrite Hopen.
    unfold is_open_for. simpl. now rewrite Z.eqb_refl, !String.eqb_refl.
  - assert (Hcount : open_count pk sys ty (system_alerts w)
                     = S (List.length rest))
      by (unfold open_count; now rewrite Hopen).
    destruct (String.eqb (a_message first) m); simpl;
      rewrite ?open_count_refresh, Hcount; reflexivity.
Qed.

Lemma clear_closes pk sys ty w :
  faults w = [] ->
  open_count pk sys ty
    (system_alerts (run (_auto_acknowledge_alert pk sys ty) w)) = 0%nat.
Proof.
  intros Hf. rewrite auto_acknowledge_healthy by exact Hf. simpl.
  apply open_count_acknowledge_same.
Qed.

Lemma keeps_after_fire_rule rt t pk sys :
  keeps "FIRE_DETECTED"
    (temperature_rule rt t pk sys ;;
     battery_rule rt t pk sys ;;
     access_rule rt t pk sys).
Proof.
  apply keeps_bind; [apply keeps_temperature_rule; discriminate|]. intros _.
  apply keeps_bind; [apply keeps_battery_rule; discriminate|]. intros _.
  apply keeps_access_rule. discriminate.
Qed.

(** The open fire alerts after the method. *)
Lemma check_fire_state rt t factory_id pk sys w :
  table_get factory_lookup factory_id = Ok (Some pk) ->
  faults w = [] ->
  open_count pk sys "FIRE_DETECTED"
    (system_alerts (run (_check_and_create_alerts rt t factory_id sys) w))
  = if contains "FIRE" (fire_status_of rt t)
       && negb (String.eqb (fire_status_of rt t) "SAFE")
    then Nat.max 1 (open_count pk sys "FIRE_DETECTED" (system_alerts w))
    else 0%nat.
Proof.
  intros Hpk Hf.
  set (w0 := run (enter (Call_check_and_create_alerts t factory_id sys)) w).
  rewrite (check_known_alerts rt t factory_id pk sys w Hpk). fold w0.
  unfold alert_rules. rewrite run_bind.
  rewrite (proj1 (emits_fire_rule rt t pk sys w0)).
  rewrite (proj1 (keeps_after_fire_rule rt t pk sys _)).
  unfold fire_rule.
  destruct (_ && _);
    [exact (assert_opens pk _ _ _ sys w0 Hf)|exact (clear_closes pk sys _ w0 Hf)].
Qed.

(** X11.  With a store that answers and a known factory, an evaluation
    leaves the fire alert of the subsystem as the record says: when the
    record reports a fire, the tuple has an open FIRE_DETECTED alert
    afterwards, a new one only if none was open; when it does not, the
    tuple has none, also when a later block of the method raises.  The
    record reports a fire when the text of its fire status, upper-cased as
    [str.upper()] does it (the runtime's [py_upper], which is [upper] on
    ASCII text), contains "FIRE" and is not "SAFE". *)
Theorem fire_alert_follows_the_reading rt t factory_id pk sys w :
  table_get factory_lookup factory_id = Ok (Some pk) ->
  faults w = [] ->
  let w' := run (_check_and_create_alerts rt t factory_id sys) w in
  let open_fire rows := open_count pk sys "FIRE_DETECTED" rows in
  (is_fire (fire_status_of rt t) ->
     open_fire (system_alerts w') = Nat.max 1 (open_fire (system_alerts w)))
  /\ (~ is_fire (fire_status_of rt t) -> open_fire (system_alerts w') = 0%nat)
  /\ (forall s, dict_find t "fire_status" = Some (PStr s) ->
        fire_status_of rt t = py_upper rt s
        /\ (upper_on_ascii rt -> is_ascii s = true ->
            fire_status_of rt t = upper s)).
Proof.
  intros Hpk Hf w' open_fire.
  assert (Htext : forall s, dict_find t "fire_status" = Some (PStr s) ->
            fire_status_of rt t = py_upper rt s
            /\ (upper_on_ascii rt -> is_ascii s = true ->
                fire_status_of rt t = upper s)).
  { intros s Hs. rewrite (fire_status_of_text rt t s Hs).
    split; [reflexivity|]. intros Hupper Ha. now apply Hupper. }
  rewrite <- and_assoc. split; [|exact Htext]. clear Htext.
  unfold w', open_fire.
  rewrite (check_fire_state rt t factory_id pk sys w Hpk Hf).
  destruct (contains "FIRE" (fire_status_of rt t)
            && negb (String.eqb (fire_status_of rt t) "SAFE")) eqn:Hc.
  - split; [reflexivity|]. intros Hn. apply fire_condition in Hc.
    contradiction.
  - split; [|reflexivity]. intros Hfire. apply fire_condition in Hfire.
    congruence.
Qed.

Lemma temperature_rule_run rt t pk sys temp w :
  temperature_of rt t = Ok (Some temp) ->
  run (temperature_rule rt t pk sys) w
  = run (if SFltb (temperature_high ALERT_THRESHOLDS) temp then
           _create_unique_alert pk "HIGH_TEMPERATURE" "WARNING"
             ("🌡️ High Temperature: " ++ format_1f temp
                ++ "°C (Threshold: 30.0°C) | AC: "
                ++ py_str rt (dict_get_or t "ac_state" (PStr "N/A")))
             sys
         else if SFltb temp (temperature_low ALERT_THRESHOLDS) then
           _create_unique_alert pk "LOW_TEMPERATURE" "WARNING"
             ("❄️ Low Temperature: " ++ format_1f temp
                ++ "°C (Threshold: 15.0°C) | Furnace: "
                ++ py_str rt (dict_get_or t "furnace_state" (PStr "N/A")))
             sys
         else
           _auto_acknowledge_alert pk sys "HIGH_TEMPERATURE" ;;
           _auto_acknowledge_alert pk sys "LOW_TEMPERATURE") w.
Proof.
  intros Ht. unfold temperature_rule.
  now rewrite run_bind, outcome_lift, run_lift, Ht.
Qed.

(** X13.  An evaluation of a temperature below the low threshold leaves
    every open HIGH_TEMPERATURE alert open, and one of a temperature above
    the high threshold leaves every open LOW_TEMPERATURE alert open: for
    every tuple the number of open alerts of the opposite kind is as
    before.  This holds whatever the store does and for every factory
    key. *)
Theorem opposite_temperature_alert_stays_open rt t factory_id sys temp w :
  temperature_of rt t = Ok (Some temp) ->
  let w' := run (_check_and_create_alerts rt t factory_id sys) w in
  (SFltb temp (temperature_low ALERT_THRESHOLDS) = true ->
     forall pk' sys',
       open_count pk' sys' "HIGH_TEMPERATURE" (system_alerts w')
       = open_count pk' sys' "HIGH_TEMPERATURE" (system_alerts w))
  /\ (SFltb (temperature_high ALERT_THRESHOLDS) temp = true ->
        forall pk' sys',
          open_count pk' sys' "LOW_TEMPERATURE" (system_alerts w')
          = open_count pk' sys' "LOW_TEMPERATURE" (system_alerts w)).
Proof.
  intros Ht w'. split; intros Hcmp.
  - apply (keeps_check "HIGH_TEMPERATURE" rt t factory_id sys). intros pk.
    unfold alert_rules.
    apply keeps_bind; [apply keeps_fire_rule; discriminate|]. intros _.
    apply keeps_bind; [|intros _; apply keeps_bind;
                         [apply keeps_battery_rule; discriminate
                         |intros _; apply keeps_access_rule; discriminate]].
    intros w0. rewrite (temperature_rule_run rt t pk sys temp w0 Ht).
    rewrite (low_excludes_high temp Hcmp), Hcmp.
    apply keeps_create_unique. discriminate.
  - apply (keeps_check "LOW_TEMPERATURE" rt t factory_id sys). intros pk.
    unfold alert_rules.
    apply keeps_bind; [apply keeps_fire_rule; discriminate|]. intros _.
    apply keeps_bind; [|intros _; apply keeps_bind;
                         [apply keeps_battery_rule; discriminate
                         |intros _; apply keeps_access_rule; discriminate]].
    intros w0. rewrite (temperature_rule_run rt t pk sys temp w0 Ht).
    rewrite Hcmp. apply keeps_create_unique. discriminate.
Qed.

(** The open temperature alerts after the temperature block. *)
Lemma temperature_rule_state rt t pk sys temp w :
  faults w = [] ->
  temperature_of rt t = Ok (Some temp) ->
  let w' := run (temperature_rule rt t pk sys) w in
  let open_high w := open_count pk sys "HIGH_TEMPERATURE" (system_alerts w) in
  let open_low w := open_count pk sys "LOW_TEMPERATURE" (system_alerts w) in
  if SFltb (temperature_high ALERT_THRESHOLDS) temp then
    open_high w' = Nat.max 1 (open_high w) /\ open_low w' = open_low w
  else if SFltb temp (temperature_low ALERT_THRESHOLDS) then
    open_low w' = Nat.max 1 (open_low w) /\ open_high w' = open_high w
  else open_high w' = 0%nat /\ open_low w' = 0%nat.
Proof.
  intros Hf Ht w' open_high open_low. unfold w'.
  rewrite (temperature_rule_run rt t pk sys temp w Ht).
  destruct (SFltb (temperature_high ALERT_THRESHOLDS) temp);
    [|destruct (SFltb temp (temperature_low ALERT_THRESHOLDS))].
  - split; [now apply assert_opens|].
    apply keeps_create_unique. discriminate.
  - split; [now apply assert_opens|].
    apply keeps_create_unique. discriminate.
  - rewrite run_bind, (proj1 (auto_acknowledge_cases _ _ _ _)).
    destruct (auto_acknowledge_frame pk sys "HIGH_TEMPERATURE" w) as [Hf1 _].
    split.
    + unfold open_high.
      rewrite (proj1 (keeps_auto_acknowledge "HIGH_TEMPERATURE" pk sys
                        "LOW_TEMPERATURE" ltac:(discriminate) _)).
      now apply clear_closes.
    + apply clear_closes. auto.
Qed.

(** The open temperature alerts after the method. *)
Lemma check_temperature_state rt t factory_id pk sys temp w :
  table_get factory_lookup factory_id = Ok (Some pk) ->
  faults w = [] ->
  temperature_of rt t = Ok (Some temp) ->
  let w' := run (_check_and_create_alerts rt t factory_id sys) w in
  let open_high w := open_count pk sys "HIGH_TEMPERATURE" (system_alerts w) in
  let open_low w := open_count pk sys "LOW_TEMPERATURE" (system_alerts w) in
  if SFltb (temperature_high ALERT_THRESHOLDS) temp then
    open_high w' = Nat.max 1 (open_high w) /\ open_low w' = open_low w
  else if SFltb temp (temperature_low ALERT_THRESHOLDS) then
    open_low w' = Nat.max 1 (open_low w) /\ open_high w' = open_high w
  else open_high w' = 0%nat /\ open_low w' = 0%nat.
Proof.
  intros Hpk Hf Ht w' open_high open_low.
  set (w0 := run (enter (Call_check_and_create_alerts t factory_id sys)) w).
  set (w1 := run (fire_rule rt t pk sys) w0).
  set (w2 := run (temperature_rule rt t pk sys) w1).
  assert (Hfire : forall ty, ty <> "FIRE_DETECTED" -> steady ty w w1).
  { intros ty Hty. apply (keeps_fire_rule rt ty t pk sys Hty w0). }
  assert (Hrest : forall ty, ty <> "LOW_BATTERY" ->
            ty <> "UNAUTHORIZED_ACCESS" ->
            open_count pk sys ty (system_alerts w')
            = open_count pk sys ty (system_alerts w2)).
  { intros ty H1 H2. unfold w'.
    rewrite (check_known_alerts rt t factory_id pk sys w Hpk). fold w0.
    unfold alert_rules. rewrite run_bind.
    rewrite (proj1 (emits_fire_rule rt t pk sys w0)). fold w1.
    rewrite run_bind.
    rewrite (proj1 (emits_temperature_rule rt t pk sys w1)), Ht. fold w2.
    assert (Hk : keeps ty (battery_rule rt t pk sys ;;
                           access_rule rt t pk sys)).
    { apply keeps_bind; [now apply keeps_battery_rule|]. intros _.
      now apply keeps_access_rule. }
    apply Hk. }
  assert (Hf1 : faults w1 = []).
  { destruct (Hfire "HIGH_TEMPERATURE" ltac:(discriminate)) as (_ & H & _).
    auto. }
  pose proof (temperature_rule_state rt t pk sys temp w1 Hf1 Ht) as Hstate.
  fold w2 in Hstate. cbv zeta in Hstate.
  unfold open_high, open_low.
  rewrite !Hrest by discriminate.
  rewrite <- (proj1 (Hfire "HIGH_TEMPERATURE" ltac:(discriminate)) pk sys).
  rewrite <- (proj1 (Hfire "LOW_TEMPERATURE" ltac:(discriminate)) pk sys).
  exact Hstate.
Qed.

(** The rule engine when the battery block raises. *)
Lemma battery_block_raises rt t pk sys e temp w :
  temperature_of rt t = Ok temp ->
  battery_calls rt t pk sys = Raise e ->
  outcome (alert_rules rt t pk sys) w = Raise e
  /\ run (alert_rules rt t pk sys) w
     = run (battery_rule rt t pk sys)
         (run (temperature_rule rt t pk sys) (run (fire_rule rt t pk sys) w)).
Proof.
  intros Ht Hb.
  destruct (emits_fire_rule rt t pk sys w) as [Hof _].
  destruct (emits_temperature_rule rt t pk sys
              (run (fire_rule rt t pk sys) w)) as [Hot _].
  destruct (emits_battery_rule rt t pk sys
              (run (temperature_rule rt t pk sys)
                 (run (fire_rule rt t pk sys) w))) as [Hob _].
  rewrite Ht in Hot. rewrite Hb in Hob. unfold alert_rules.
  rewrite !outcome_bind, !run_bind, Hof, Hot, Hob. split; reflexivity.
Qed.

(** X16.  A battery level that is truthy and cannot be ordered against a
    float (a non-empty string, list or object) ends the evaluation with
    [TypeError] in the battery block: the method still returns, its last
    line is the "Alert Error" one, no call is made about LOW_BATTERY, and
    the access block is not reached, so no UNAUTHORIZED_ACCESS alert is
    added even when the record reports a denied access. *)
Theorem unordered_battery_level_aborts_evaluation rt t factory_id pk sys temp
  w :
  table_get factory_lookup factory_id = Ok (Some pk) ->
  temperature_of rt t = Ok temp ->
  let level := dict_get t "battery_level" in
  py_truthy level = true ->
  py_lt_float level (battery_low ALERT_THRESHOLDS) = Raise TypeError ->
  let check := _check_and_create_alerts rt t factory_id sys in
  outcome check w = Ok tt
  /\ silent_about "LOW_BATTERY" (calls_of check w)
  /\ (exists earlier,
        console (run check w) = (earlier ++ [LogAlertError TypeError])%list)
  /\ (forall pk' sys',
        open_count pk' sys' "UNAUTHORIZED_ACCESS" (system_alerts (run check w))
        = open_count pk' sys' "UNAUTHORIZED_ACCESS" (system_alerts w)).
Proof.
  intros Hpk Ht level Htruthy Hlt check.
  assert (Hb : battery_calls rt t pk sys = Raise TypeError).
  { unfold battery_calls. fold level. now rewrite Htruthy, Hlt. }
  set (w0 := run (enter (Call_check_and_create_alerts t factory_id sys)) w).
  destruct (battery_block_raises rt t pk sys TypeError temp w0 Ht Hb)
    as [Hout Hrun].
  split; [apply check_returns|]. split; [|split].
  - unfold check. rewrite (known_factory_calls rt t factory_id pk sys w Hpk).
    intros c [<-|Hc] Hty; [discriminate|].
    apply battery_call_origin in Hc; [|exact Hty].
    destruct Hc as (temp' & calls & _ & Hb' & _). congruence.
  - unfold check.
    rewrite (check_known_raise rt t factory_id pk sys TypeError w Hpk Hout).
    eexists. reflexivity.
  - intros pk' sys'. unfold check.
    rewrite (check_known_alerts rt t factory_id pk sys w Hpk). fold w0.
    rewrite Hrun.
    assert (Hsteady : steady "UNAUTHORIZED_ACCESS" w0
              (run (battery_rule rt t pk sys)
                 (run (temperature_rule rt t pk sys)
                    (run (fire_rule rt t pk sys) w0)))).
    { eapply steady_trans; [apply keeps_fire_rule; discriminate|].
      eapply steady_trans; [apply keeps_temperature_rule; discriminate|].
      apply keeps_battery_rule; discriminate. }
    apply Hsteady.
Qed.

(** X17.  A record whose access log is anything but exactly "DENIED" (the
    comparison is case-sensitive) never adds an UNAUTHORIZED_ACCESS alert:
    after the evaluation every tuple has as many open alerts of that type
    as before, whatever the other fields hold and whatever the store
    does. *)
Theorem only_denied_access_adds_an_alert rt t factory_id sys w :
  dict_get t "access_log" <> PStr "DENIED" ->
  let w' := run (_check_and_create_alerts rt t factory_id sys) w in
  forall pk' sys',
    open_count pk' sys' "UNAUTHORIZED_ACCESS" (system_alerts w')
    = open_count pk' sys' "UNAUTHORIZED_ACCESS" (system_alerts w).
Proof.
  intros Hne w'.
  apply (keeps_check "UNAUTHORIZED_ACCESS" rt t factory_id sys); clear w w'.
  intros pk. unfold alert_rules.
  apply keeps_bind; [apply keeps_fire_rule; discriminate|]. intros _.
  apply keeps_bind; [apply keeps_temperature_rule; discriminate|]. intros _.
  apply keeps_bind; [apply keeps_battery_rule; discriminate|]. intros _.
  now apply keeps_quiet_access_rule.
Qed.

(** ** Requests that reach the rules *)

(** A request that is stored by a store that answers goes on to the alert
    evaluation of the stored record, with the store still answering and
    the alerts not yet touched. *)
Lemma do_POST_stored rt d t w :
  let system_name := dict_get_or d "system" (PStr "Unknown") in
  let factory_id := dict_get_or d "factory" (PStr DEFAULT_FACTORY) in
  py_hashable factory_id = true ->
  _map_telemetry_data rt d system_name = Ok t ->
  t <> [] ->
  faults w = [] ->
  let record := stamped t system_name (clock w (ticks w)) in
  exists w0,
    faults w0 = []
    /\ system_alerts w0 = system_alerts w
    /\ run (do_POST rt (Ok (PDict d))) w
       = run (_check_and_create_alerts rt record factory_id
                (str_value system_name)) w0.
Proof.
  intros system_name factory_id Hhash Hmap Ht Hf record.
  destruct (table_get_hashable FACTORY_MAPPING factory_id Hhash)
    as [found Hfound].
  destruct (table_get_hashable factory_lookup factory_id Hhash)
    as [pk Hpk].
  destruct (do_POST_mapped rt d t found w Hfound Hmap Ht) as [_ Hrun].
  fold system_name factory_id record in Hrun.
  set (table_name := match found with Some x => x | None => default_table end)
    in *.
  destruct (insert_to_supabase_healthy table_name record factory_id pk
              (set_ticks (S (ticks w)) w) Hf Hpk) as (Hp & Hpf & Hpa & _).
  rewrite Hp in Hrun. eexists. split; [|split; [|exact Hrun]].
  - exact Hpf.
  - exact Hpa.
Qed.

(** X12.  A Fire_Control request of a known factory, sent to a store that
    answers: when the text of the payload's status, upper-cased as
    [str.upper()] does it, contains "FIRE" and is not "SAFE", the subsystem
    has an open FIRE_DETECTED alert afterwards, a new one only if none was
    open before; otherwise it has none, whatever was open before.  The
    upper-cased text is the runtime's [py_upper] of the status text,
    whatever letters it holds; for an ASCII status it is [upper] of it. *)
Theorem fire_request_sets_the_fire_alert rt d pk w :
  dict_get_or d "system" (PStr "Unknown") = PStr "Fire_Control" ->
  table_get factory_lookup (dict_get_or d "factory" (PStr DEFAULT_FACTORY))
  = Ok (Some pk) ->
  faults w = [] ->
  let status := py_upper rt (py_str rt (dict_get d "status")) in
  let open_fire w :=
    open_count pk "Fire_Control" "FIRE_DETECTED" (system_alerts w) in
  let w' := run (do_POST rt (Ok (PDict d))) w in
  (is_fire status -> open_fire w' = Nat.max 1 (open_fire w))
  /\ (~ is_fire status -> open_fire w' = 0%nat)
  /\ (upper_on_ascii rt ->
      forall s, dict_get d "status" = PStr s -> is_ascii s = true ->
        status = upper s).
Proof.
  intros Hsys Hpk Hf status open_fire w'.
  assert (Hascii : upper_on_ascii rt ->
            forall s, dict_get d "status" = PStr s -> is_ascii s = true ->
              status = upper s).
  { intros Hupper s Hs Ha. unfold status. rewrite Hs. now apply Hupper. }
  rewrite <- and_assoc. split; [|exact Hascii]. clear Hascii.
  pose proof (known_key_hashable _ _ _ Hpk) as Hhash.
  assert (Hmap : exists t,
            _map_telemetry_data rt d (PStr "Fire_Control") = Ok t
            /\ t <> []
            /\ forall ts,
                 fire_status_of rt (stamped t (PStr "Fire_Control") ts)
                 = status).
  { eexists. split; [reflexivity|]. split; [discriminate|].
    intros ts. reflexivity. }
  destruct Hmap as (t & Hmap & Ht & Hstatus). rewrite <- Hsys in Hmap.
  destruct (do_POST_stored rt d t w Hhash Hmap Ht Hf)
    as (w0 & Hf0 & Ha0 & Hrun).
  rewrite Hsys in Hrun. simpl str_value in Hrun.
  unfold w', open_fire. rewrite Hrun.
  rewrite (check_fire_state rt _ _ pk "Fire_Control" w0 Hpk Hf0).
  rewrite Hstatus, Ha0.
  destruct (contains "FIRE" status && negb (String.eqb status "SAFE")) eqn:Hc.
  - split; [reflexivity|]. intros Hn. apply fire_condition in Hc.
    contradiction.
  - split; [|reflexivity]. intros Hfire. apply fire_condition in Hfire.
    congruence.
Qed.

(** X14.  An HVAC_System request of a known factory whose temperature
    [float()] converts, sent to a store that answers: above the high
    threshold the subsystem has an open HIGH_TEMPERATURE alert afterwards
    and its LOW_TEMPERATURE alerts are as before; below the low threshold
    it has an open LOW_TEMPERATURE alert and its HIGH_TEMPERATURE alerts are
    as before; when it is neither, it has no open alert of either type. *)
Theorem hvac_request_sets_the_temperature_alerts rt d pk temp w :
  dict_get_or d "system" (PStr "Unknown") = PStr "HVAC_System" ->
  table_get factory_lookup (dict_get_or d "factory" (PStr DEFAULT_FACTORY))
  = Ok (Some pk) ->
  faults w = [] ->
  dict_get d "temperature" <> PNone ->
  py_float rt (dict_get d "temperature") = Ok temp ->
  let w' := run (do_POST rt (Ok (PDict d))) w in
  let open_high w :=
    open_count pk "HVAC_System" "HIGH_TEMPERATURE" (system_alerts w) in
  let open_low w :=
    open_count pk "HVAC_System" "LOW_TEMPERATURE" (system_alerts w) in
  let high := SFltb (temperature_high ALERT_THRESHOLDS) temp in
  let low := SFltb temp (temperature_low ALERT_THRESHOLDS) in
  (high = true ->
     open_high w' = Nat.max 1 (open_high w) /\ open_low w' = open_low w)
  /\ (low = true ->
        open_low w' = Nat.max 1 (open_low w) /\ open_high w' = open_high w)
  /\ (high = false -> low = false ->
        open_high w' = 0%nat /\ open_low w' = 0%nat).
Proof.
  intros Hsys Hpk Hf Hraw Hfloat w' open_high open_low high low.
  pose proof (known_key_hashable _ _ _ Hpk) as Hhash.
  destruct (proj1 (proj2 (hvac_temperature rt d)) temp Hraw Hfloat)
    as (t & Hmap & Htemp).
  assert (Ht : t <> []).
  { intros ->. discriminate. }
  rewrite <- Hsys in Hmap.
  destruct (do_POST_stored rt d t w Hhash Hmap Ht Hf)
    as (w0 & Hf0 & Ha0 & Hrun).
  rewrite Hsys in Hrun. simpl str_value in Hrun.
  set (record := stamped t (PStr "HVAC_System") (clock w (ticks w))) in *.
  assert (Hrec : temperature_of rt record = Ok (Some temp)).
  { apply temperature_of_float. unfold dict_get, dict_get_or, record.
    rewrite stamped_get by discriminate. exact Htemp. }
  pose proof (check_temperature_state rt record _ pk "HVAC_System"
                temp w0 Hpk Hf0 Hrec) as Hstate.
  cbv zeta in Hstate. rewrite <- Hrun, Ha0 in Hstate.
  fold w' in Hstate. fold high low in Hstate.
  unfold open_high, open_low.
  destruct high eqn:Hh; [|destruct low eqn:Hl].
  - split; [intros _; exact Hstate|]. split; [|discriminate].
    intros Hl. unfold low in Hl. apply low_excludes_high in Hl.
    unfold high in Hh. congruence.
  - split; [discriminate|]. split; [intros _; exact Hstate|discriminate].
  - split; [discriminate|]. split; [discriminate|]. intros _ _. exact Hstate.
Qed.

(** ** Resolving, and asserting again *)

Lemma open_alerts_acknowledge_other pk sys ty ts pk' sys' ty' rows :
  (pk', sys', ty') <> (pk, sys, ty) ->
  open_alerts pk' sys' ty' (map (acknowledge_row pk sys ty ts) rows)
  = open_alerts pk' sys' ty' rows.
Proof.
  intros Hne. unfold open_alerts.
  induction rows as [|r rows IH]; simpl; [reflexivity|].
  rewrite acknowledge_row_open.
  destruct (is_open_for pk' sys' ty' r) eqn:H1,
           (is_open_for pk sys ty r) eqn:H2; simpl.
  - apply is_open_for_spec in H1, H2. exfalso. apply Hne.
    destruct H1 as (<- & <- & <- & _), H2 as (<- & <- & <- & _). reflexivity.
  - rewrite IH. unfold acknowledge_row. now rewrite H2.
  - exact IH.
  - exact IH.
Qed.

Lemma acknowledge_row_resolved pk sys ty ts r :
  is_open_for pk sys ty r = true ->
  acknowledge_row pk sys ty ts r = resolved ts r.
Proof. intros H. unfold acknowledge_row. now rewrite H. Qed.

Lemma auto_acknowledge_rejected pk sys ty w :
  first_fails w = true ->
  run (_auto_acknowledge_alert pk sys ty) w
  = set_faults (tl (faults w))
      (set_ticks (S (ticks w))
         (set_history
            (history w ++ [Call_auto_acknowledge_alert pk sys ty]) w)).
Proof.
  destruct w as [al fd fa nid ck tk fl co hi]. unfold first_fails. simpl.
  destruct fl as [|[|] fl]; try discriminate. intros _.
  unfold _auto_acknowledge_alert.
  unfold run, outcome, bind, try_except, execute, enter, print, utc_now, lift,
    ret, raise. reflexivity.
Qed.

(** X19.  [_auto_acknowledge_alert] never raises and never prints, also when
    the store rejects its request, which then changes no row.  With a store
    that answers it resolves every open alert of its tuple: each becomes
    acknowledged by "AUTO_RESOLVED" at the instant of the call with its
    other fields unchanged, the tuple has no open alert afterwards, no row
    is added or removed, every other row is as it was, and the open alerts
    of every other tuple are the same. *)
Theorem clear_resolves_every_open_alert pk sys ty w :
  let clear := _auto_acknowledge_alert pk sys ty in
  let rows := system_alerts w in
  let rows' := system_alerts (run clear w) in
  let now := clock w (ticks w) in
  outcome clear w = Ok tt
  /\ console (run clear w) = console w
  /\ (first_fails w = true -> rows' = rows)
  /\ (faults w = [] ->
        rows' = map (acknowledge_row pk sys ty now) rows
        /\ open_count pk sys ty rows' = 0%nat
        /\ List.length rows' = List.length rows
        /\ (forall r, In r rows -> is_open_for pk sys ty r = true ->
              In (resolved now r) rows')
        /\ (forall r, In r rows -> is_open_for pk sys ty r = false ->
              In r rows')
        /\ (forall pk' sys' ty',
              (pk', sys', ty') <> (pk, sys, ty) ->
              open_alerts pk' sys' ty' rows' = open_alerts pk' sys' ty' rows)).
Proof.
  intros clear rows rows' now.
  split; [apply auto_acknowledge_cases|]. split; [|split].
  - destruct w as [al fd fa nid ck tk fl co hi].
    unfold clear, _auto_acknowledge_alert.
    unfold run, outcome, bind, try_except, execute, enter, print, utc_now,
      lift, ret, raise. simpl.
    destruct fl as [|[|] fl]; reflexivity.
  - intros Hf. unfold rows', clear.
    now rewrite (auto_acknowledge_rejected pk sys ty w Hf).
  - intros Hf.
    assert (Hrows : rows' = map (acknowledge_row pk sys ty now) rows).
    { unfold rows', clear.
      now rewrite (auto_acknowledge_healthy pk sys ty w Hf). }
    split; [exact Hrows|]. rewrite Hrows.
    split; [apply open_count_acknowledge_same|].
    split; [apply length_map|]. split; [|split].
    + intros r Hin Hopen.
      rewrite <- (acknowledge_row_resolved pk sys ty now r Hopen).
      now apply in_map.
    + intros r Hin Hopen.
      replace r with (acknowledge_row pk sys ty now r) at 1
        by (unfold acknowledge_row; now rewrite Hopen).
      now apply in_map.
    + intros pk' sys' ty' Hne. now apply open_alerts_acknowledge_other.
Qed.

(** X20.  With a store that answers, a Clear followed by an Assert of the
    same tuple never reopens an alert: the rows that were open are resolved
    and stay in the table, and the one open alert of the tuple is a new row
    under the next primary key, carrying the message of the Assert. *)
Theorem alert_after_clear_is_a_new_row pk ty sev m sys w :
  faults w = [] ->
  let rows := system_alerts w in
  let w' := run (reconcile_all [Clear pk sys ty; Assert pk ty sev m sys]) w in
  let fresh :=
    mkAlert (next_alert_id w) pk ty sev m sys false (clock w (S (ticks w)))
      None None in
  system_alerts w'
  = (map (acknowledge_row pk sys ty (clock w (ticks w))) rows ++ [fresh])%list
  /\ open_alerts pk sys ty (system_alerts w') = [fresh]
  /\ next_alert_id w' = next_alert_id w + 1
  /\ (forall r, In r rows -> is_open_for pk sys ty r = true ->
        In (resolved (clock w (ticks w)) r) (system_alerts w')).
Proof.
  intros Hf rows w' fresh.
  assert (Hrun : w' = run (_create_unique_alert pk ty sev m sys)
                        (run (_auto_acknowledge_alert pk sys ty) w)).
  { unfold w'. simpl. rewrite run_bind.
    rewrite (proj1 (auto_acknowledge_cases pk sys ty w)).
    rewrite run_bind.
    rewrite (proj1 (create_unique_cases pk ty sev m sys _)).
    reflexivity. }
  rewrite (auto_acknowledge_healthy pk sys ty w Hf) in Hrun.
  rewrite create_unique_healthy in Hrun by exact Hf.
  simpl in Hrun. fold rows in Hrun.
  assert (Hnone : open_alerts pk sys ty
                    (map (acknowledge_row pk sys ty (clock w (ticks w))) rows)
                  = []).
  { apply length_zero_iff_nil. apply open_count_acknowledge_same. }
  rewrite Hnone in Hrun. rewrite Hrun. simpl.
  split; [reflexivity|]. split; [|split; [reflexivity|]].
  - unfold open_alerts in *. rewrite filter_app, Hnone. simpl.
    unfold is_open_for. simpl. now rewrite Z.eqb_refl, !String.eqb_refl.
  - intros r Hin Hopen. apply in_or_app. left.
    rewrite <- (acknowledge_row_resolved pk sys ty _ r Hopen).
    now apply in_map.
Qed.

(** X21.  [_create_unique_alert] never raises, and a request the store
    rejects leaves the alerts as they were: when the select is rejected, or
    when the select is answered and the write after it is rejected, no row
    is added or changed and no primary key is used; the failure prints one
    "Alert Creation Error" line.  When the open alert already carries the
    message, no write is made and nothing is printed. *)
Theorem rejected_assert_writes_nothing pk ty sev m sys w :
  let raise_alert := _create_unique_alert pk ty sev m sys in
  let w' := run raise_alert w in
  outcome raise_alert w = Ok tt
  /\ (first_fails w = true ->
        system_alerts w' = system_alerts w
        /\ next_alert_id w' = next_alert_id w
        /\ console w' = (console w ++ [LogAlertCreationError StoreError])%list)
  /\ (first_fails w = false -> second_fails w = true ->
        (forall first rest,
           open_alerts pk sys ty (system_alerts w) = first :: rest ->
           a_message first = m ->
           system_alerts w' = system_alerts w /\ console w' = console w)
        /\ ((forall first rest,
               open_alerts pk sys ty (system_alerts w) = first :: rest ->
               a_message first <> m) ->
            system_alerts w' = system_alerts w
            /\ next_alert_id w' = next_alert_id w
            /\ console w'
               = (console w ++ [LogAlertCreationError StoreError])%list)).
Proof.
  intros raise_alert w'. split; [apply create_unique_cases|].
  destruct w as [al fd fa nid ck tk fl co hi].
  unfold w', raise_alert, _create_unique_alert, first_fails, second_fails,
    open_alerts.
  unfold_m. simpl. split.
  - destruct fl as [|[|] fl]; try discriminate. intros _.
    repeat split; reflexivity.
  - destruct fl as [|[|] [|[|] fl]]; try discriminate. intros _ _. split.
    + intros first rest Hopen Hm. rewrite Hopen. simpl.
      apply String.eqb_eq in Hm. rewrite Hm. simpl. split; reflexivity.
    + intros Hdiff.
      destruct (filter (is_open_for pk sys ty) al) as [|first rest] eqn:Hopen;
        simpl; [repeat split; reflexivity|].
      specialize (Hdiff first rest eq_refl).
      apply String.eqb_neq in Hdiff. rewrite Hdiff. simpl.
      repeat split; reflexivity.
Qed.

(** ** The tables over any sequence of requests *)

Lemma row_evolves_refl r : row_evolves r r.
Proof. repeat split; auto. Qed.

Lemma row_evolves_trans r1 r2 r3 :
  row_evolves r1 r2 -> row_evolves r2 r3 -> row_evolves r1 r3.
Proof.
  intros (A1 & A2 & A3 & A4 & A5 & A6) (B1 & B2 & B3 & B4 & B5 & B6).
  repeat split; try congruence. auto.
Qed.

Lemma row_evolves_refresh alert_id m ts r :
  row_evolves r (refresh_row alert_id m ts r).
Proof.
  unfold refresh_row. destruct (a_id r =? alert_id);
    repeat split; auto.
Qed.

Lemma row_evolves_acknowledge pk sys ty ts r :
  row_evolves r (acknowledge_row pk sys ty ts r).
Proof.
  unfold acknowledge_row. destruct (is_open_for pk sys ty r);
    repeat split; auto.
Qed.

Lemma Forall2_trans_with {A} (P : A -> A -> Prop) :
  (forall x y z, P x y -> P y z -> P x z) ->
  forall l1 l2 l3, Forall2 P l1 l2 -> Forall2 P l2 l3 -> Forall2 P l1 l3.
Proof.
  intros HP l1 l2 l3 H12. revert l3.
  induction H12 as [|x y l1 l2 Hxy _ IH]; intros l3 H23;
    inversion H23; subst; constructor; eauto.
Qed.

Lemma alerts_evolve_refl rows : alerts_evolve rows rows.
Proof.
  exists rows, []. split; [now rewrite app_nil_r|].
  rewrite <- (map_id rows) at 2. apply Forall2_refl_map, row_evolves_refl.
Qed.

Lemma alerts_evolve_trans l1 l2 l3 :
  alerts_evolve l1 l2 -> alerts_evolve l2 l3 -> alerts_evolve l1 l3.
Proof.
  intros (k1 & a1 & -> & H1) (k2 & a2 & -> & H2).
  apply Forall2_app_inv_l in H2 as (k2a & k2b & Ha & Hb & ->).
  exists k2a, (k2b ++ a2)%list. split; [now rewrite app_assoc|].
  eapply Forall2_trans_with; eauto using row_evolves_trans.
Qed.

Lemma alerts_evolve_map f rows :
  (forall r, row_evolves r (f r)) -> alerts_evolve rows (map f rows).
Proof.
  intros H. exists (map f rows), []. split; [now rewrite app_nil_r|].
  now apply Forall2_refl_map.
Qed.

Lemma alerts_evolve_append rows added : alerts_evolve rows (rows ++ added).
Proof.
  exists rows, added. split; [reflexivity|].
  rewrite <- (map_id rows) at 2. apply Forall2_refl_map, row_evolves_refl.
Qed.

(** X23.  Over any sequence of requests, whatever the store does, no alert
    row is deleted or moved and none is reopened: every row that was in the
    table is still at its place with the same primary key, factory, type,
    severity and subsystem, acknowledged if it was acknowledged; new rows
    come after the old ones. *)
Theorem alerts_are_never_deleted_or_reopened rt bodies w :
  let rows := system_alerts w in
  let rows' := system_alerts (run (serve rt bodies) w) in
  alerts_evolve rows rows'
  /\ (List.length rows <= List.length rows')%nat
  /\ (forall n r, nth_error rows n = Some r ->
        exists r', nth_error rows' n = Some r' /\ row_evolves r r').
Proof.
  intros rows rows'.
  assert (H : alerts_evolve rows rows').
  { apply (respects_serve
             (fun w w' => alerts_evolve (system_alerts w) (system_alerts w'))).
    - intros w0. apply alerts_evolve_refl.
    - intros w1 w2 w3. apply alerts_evolve_trans.
    - intros w0 w1 w2 [= <- _ _ _]. auto.
    - intros pk sys ty first rest m ts w0 _. simpl.
      apply alerts_evolve_map. intros r. apply row_evolves_refresh.
    - intros pk ty sev m sys w0. simpl. apply alerts_evolve_append.
    - intros pk sys ty ts w0. simpl.
      apply alerts_evolve_map. intros r. apply row_evolves_acknowledge.
    - intros table_name data w0. apply alerts_evolve_refl.
    - intros pk ts w0. apply alerts_evolve_refl. }
  split; [exact H|].
  destruct H as (kept & added & -> & H). split.
  - rewrite length_app, <- (Forall2_length H). lia.
  - intros n r Hn. revert n Hn.
    induction H as [|x y l l' Hxy _ IH]; intros [|n] Hn; simpl in *;
      try discriminate.
    + injection Hn as <-. eauto.
    + auto.
Qed.

Lemma NoDup_map_injective {A B} (f : A -> B) (l : list A) x y :
  NoDup (map f l) -> In x l -> In y l -> f x = f y -> x = y.
Proof.
  induction l as [|a l IH]; simpl; [intros _ []|].
  intros Hnd Hx Hy Hf. inversion Hnd as [|? ? Hnin Hnd']; subst.
  destruct Hx as [->|Hx], Hy as [->|Hy]; auto.
  - exfalso. apply Hnin. rewrite Hf. now apply in_map.
  - exfalso. apply Hnin. rewrite <- Hf. now apply in_map.
Qed.

Lemma well_keyed_map f w :
  (forall r, a_id (f r) = a_id r) ->
  well_keyed w -> well_keyed (set_system_alerts (map f (system_alerts w)) w).
Proof.
  intros Hf [Hnd Hlt]. split; simpl.
  - rewrite map_map. erewrite map_ext; [exact Hnd|]. exact Hf.
  - apply Forall_map. eapply Forall_impl; [|exact Hlt].
    intros r Hr. simpl. now rewrite Hf.
Qed.

(** X24.  When the primary keys of the alerts are distinct and below the
    next key, they stay so over any sequence of requests, and an
    acknowledged alert is never modified again: every acknowledged row is
    still in the table afterwards, field for field, whatever the store
    does. *)
Theorem acknowledged_alerts_are_never_modified rt bodies w :
  well_keyed w ->
  let w' := run (serve rt bodies) w in
  well_keyed w'
  /\ forall r, In r (system_alerts w) -> a_acknowledged r = true ->
       In r (system_alerts w').
Proof.
  intros Hkeyed.
  refine (respects_serve acknowledged_kept _ _ _ _ _ _ _ _ rt bodies w Hkeyed).
  - intros w0 H. auto.
  - intros w1 w2 w3 H12 H23 H1. destruct (H12 H1) as [H2 Hin12].
    destruct (H23 H2) as [H3 Hin23]. auto.
  - intros w0 w1 w2 [= Ha _ _ Hn] H Hk. destruct (H Hk) as [[Hnd Hlt] Hin].
    unfold well_keyed. rewrite <- Ha, <- Hn. auto.
  - intros pk sys ty first rest m ts w0 Hopen Hk. simpl. split.
    + apply (well_keyed_map (refresh_row (a_id first) m ts) w0); [|exact Hk].
      intros r. unfold refresh_row. destruct (a_id r =? a_id first);
        reflexivity.
    + intros r Hr Hack.
      assert (Hfirst : In first (system_alerts w0)
                       /\ a_acknowledged first = false).
      { assert (Hin : In first (open_alerts pk sys ty (system_alerts w0)))
          by (rewrite Hopen; now left).
        unfold open_alerts in Hin. apply filter_In in Hin as [Hin Ho].
        apply is_open_for_spec in Ho. tauto. }
      destruct Hfirst as [Hfin Hfopen].
      replace r with (refresh_row (a_id first) m ts r) at 1;
        [now apply in_map|].
      unfold refresh_row. destruct (Z.eqb_spec (a_id r) (a_id first)) as [E|E];
        [|reflexivity].
      destruct Hk as [Hnd _].
      pose proof (NoDup_map_injective a_id _ r first Hnd Hr Hfin E).
      congruence.
  - intros pk ty sev m sys w0 [Hnd Hlt]. simpl. split.
    + split; simpl.
      * rewrite map_app. simpl. apply NoDup_app; [exact Hnd| |].
        -- constructor; [intros []|constructor].
        -- intros x Hx [<-|[]]. apply in_map_iff in Hx as (r & Hr & Hin).
           rewrite Forall_forall in Hlt. specialize (Hlt r Hin). lia.
      * apply Forall_app. split.
        -- eapply Forall_impl; [|exact Hlt]. simpl. intros; lia.
        -- constructor; [simpl; lia|constructor].
    + intros r Hr _. apply in_or_app. now left.
  - intros pk sys ty ts w0 Hk. simpl. split.
    + apply (well_keyed_map (acknowledge_row pk sys ty ts) w0); [|exact Hk].
      intros r. unfold acknowledge_row. destruct (is_open_for pk sys ty r);
        reflexivity.
    + intros r Hr Hack.
      replace r with (acknowledge_row pk sys ty ts r) at 1;
        [now apply in_map|].
      unfold acknowledge_row.
      destruct (is_open_for pk sys ty r) eqn:Ho; [|reflexivity].
      apply is_open_for_spec in Ho. destruct Ho as (_ & _ & _ & Ho).
      congruence.
  - intros table_name data w0 Hk. split; [exact Hk|auto].
  - intros pk ts w0 Hk. split; [exact Hk|auto].
Qed.

(** X25.  Over any sequence of requests, whatever the store does, the
    telemetry is append-only, the rows stored before are still there, in
    order, followed by the new ones, and no factory is added or removed:
    only last-seen instants change. *)
Theorem telemetry_is_append_only rt bodies w :
  let w' := run (serve rt bodies) w in
  (exists added, factory_data w' = (factory_data w ++ added)%list)
  /\ map fst (factories w') = map fst (factories w).
Proof.
  intros w'.
  refine (respects_serve telemetry_appended _ _ _ _ _ _ _ _ rt bodies w).
  - intros w0. split; [exists []; now rewrite app_nil_r|reflexivity].
  - intros w1 w2 w3 [[a1 H1] F1] [[a2 H2] F2]. split.
    + exists (a1 ++ a2)%list. now rewrite H2, H1, app_assoc.
    + congruence.
  - intros w0 w1 w2 [= _ Hd Hf _] [[a H] F]. split.
    + exists a. congruence.
    + congruence.
  - intros pk sys ty first rest m ts w0 _.
    split; [exists []; simpl; now rewrite app_nil_r|reflexivity].
  - intros pk ty sev m sys w0.
    split; [exists []; simpl; now rewrite app_nil_r|reflexivity].
  - intros pk sys ty ts w0.
    split; [exists []; simpl; now rewrite app_nil_r|reflexivity].
  - intros table_name data w0. split; [eexists; reflexivity|reflexivity].
  - intros pk ts w0. split; [exists []; simpl; now rewrite app_nil_r|].
    simpl. rewrite map_map. apply map_ext. intros r.
    destruct (fst r =? pk); reflexivity.
Qed.

(** ** The theorems at work on the sample records *)

(** The fire reading asserts FIRE_DETECTED, also through the method for
    factory 1; and with a runtime that upper-cases the dotless i, so does a
    status spelt with one. *)
Lemma fire_detected_rule_witness :
  upper_on_ascii reference_runtime
  /\ dict_find fire_record "fire_status" = Some (PStr "FIRE_1")
  /\ table_get factory_lookup (PStr "factory_1") = Ok (Some 1)
  /\ asserts 1 "Fire_Control" "FIRE_DETECTED" "CRITICAL"
       (calls_of (alert_rules reference_runtime fire_record 1 "Fire_Control")
          quiet_world)
  /\ calls_of
       (_check_and_create_alerts reference_runtime fire_record
          (PStr "factory_1") "Fire_Control") quiet_world
     = Call_check_and_create_alerts fire_record (PStr "factory_1")
         "Fire_Control"
         :: calls_of
              (alert_rules reference_runtime fire_record 1 "Fire_Control")
              quiet_world
  /\ is_fire (fire_status_of wide_runtime dotless_fire_record)
  /\ asserts 1 "Fire_Control" "FIRE_DETECTED" "CRITICAL"
       (calls_of
          (alert_rules wide_runtime dotless_fire_record 1 "Fire_Control")
          quiet_world).
Proof.
  assert (Hupper : upper_on_ascii reference_runtime)
    by (intros s _; reflexivity).
  assert (Hwide : is_fire (fire_status_of wide_runtime dotless_fire_record)).
  { apply fire_condition. reflexivity. }
  split; [exact Hupper|]. split; [reflexivity|]. split; [reflexivity|].
  pose proof (fire_detected_rule reference_runtime fire_record 1
                "Fire_Control" quiet_world)
    as (_ & _ & _ & _ & Hascii & Hmethod).
  split; [exact (proj1 (proj2 (Hascii Hupper)) eq_refl)|].
  split; [exact (Hmethod (PStr "factory_1") eq_refl)|].
  split; [exact Hwide|].
  exact (proj2 (proj1 (fire_detected_rule wide_runtime dotless_fire_record 1
                         "Fire_Control" quiet_world)) Hwide).
Defined.

(** A temperature of 35.0 asserts HIGH_TEMPERATURE. *)
Lemma temperature_rules_witness :
  temperature_of reference_runtime hvac_record = Ok (Some float_35)
  /\ SFltb (temperature_high ALERT_THRESHOLDS) float_35 = true
  /\ asserts 1 "HVAC_System" "HIGH_TEMPERATURE" "WARNING"
       (calls_of (alert_rules reference_runtime hvac_record 1 "HVAC_System")
          quiet_world).
Proof.
  split; [reflexivity|]. split; [reflexivity|].
  exact (proj2 (proj1 (proj1
           (temperature_rules reference_runtime hvac_record 1 "HVAC_System"
              quiet_world)
           float_35 eq_refl)) eq_refl).
Defined.

(** Two asserts and a clear of one fire alert, from empty tables. *)
Lemma at_most_one_open_alert_per_tuple_witness :
  "FIRE_DETECTED" <> "UNAUTHORIZED_ACCESS"
  /\ (open_count 1 "Fire_Control" "FIRE_DETECTED"
        (system_alerts quiet_world) <= 1)%nat
  /\ (open_count 1 "Fire_Control" "FIRE_DETECTED"
        (system_alerts
           (run
              (reconcile_all
                 [Assert 1 "FIRE_DETECTED" "CRITICAL" "first" "Fire_Control";
                  Assert 1 "FIRE_DETECTED" "CRITICAL" "second" "Fire_Control";
                  Denied 1 "card" "Fire_Control";
                  Clear 1 "Fire_Control" "FIRE_DETECTED";
                  Assert 1 "FIRE_DETECTED" "CRITICAL" "third" "Fire_Control"])
              quiet_world)) <= 1)%nat.
Proof.
  assert (Hty : "FIRE_DETECTED" <> "UNAUTHORIZED_ACCESS") by discriminate.
  assert (Hle : (open_count 1 "Fire_Control" "FIRE_DETECTED"
                   (system_alerts quiet_world) <= 1)%nat)
    by (apply Nat.le_0_l).
  split; [exact Hty|]. split; [exact Hle|].
  exact (proj1 (at_most_one_open_alert_per_tuple _ quiet_world 1
                  "Fire_Control" "FIRE_DETECTED" Hty Hle)).
Defined.

(** The same Assert twice, from empty tables: one open alert, one row. *)
Lemma assert_reconciliation_witness :
  faults quiet_world = []
  /\ open_count 1 "Fire_Control" "FIRE_DETECTED"
       (system_alerts
          (run (_create_unique_alert 1 "FIRE_DETECTED" "CRITICAL" "fire"
                  "Fire_Control")
             (run (_create_unique_alert 1 "FIRE_DETECTED" "CRITICAL" "fire"
                     "Fire_Control") quiet_world))) = 1%nat.
Proof.
  split; [reflexivity|].
  exact (proj1 (proj2 (proj2 (proj2 (proj2 (proj2
           (assert_reconciliation 1 "FIRE_DETECTED" "CRITICAL" "fire"
              "Fire_Control" quiet_world eq_refl))))) eq_refl)).
Defined.

(** A denied access evaluated twice: two more open alerts. *)
Lemma unauthorized_access_always_inserts_witness :
  faults quiet_world = []
  /\ dict_get denied_record "access_log" = PStr "DENIED"
  /\ reaches_access_rule reference_runtime denied_record = true
  /\ open_count 2 "Safe_Room" "UNAUTHORIZED_ACCESS"
       (system_alerts
          (run (alert_rules reference_runtime denied_record 2 "Safe_Room")
             (run (alert_rules reference_runtime denied_record 2 "Safe_Room")
                quiet_world)))
     = 2%nat.
Proof.
  repeat (split; [reflexivity|]).
  exact (proj1 (proj2 (proj2
           (unauthorized_access_always_inserts reference_runtime
              denied_record 2 "Safe_Room" quiet_world
              eq_refl eq_refl eq_refl)))).
Defined.

(** A battery reading for an unconfigured factory: stored in the default
    table, no alert touched. *)
Lemma unknown_factory_is_stored_without_alerts_witness :
  dict_find stray_payload "factory" = Some (PStr "factory_9")
  /\ table_get factory_lookup (PStr "factory_9") = Ok None
  /\ _map_telemetry_data reference_runtime stray_payload
       (PStr "Battery_System")
     = Ok [("battery_level", PInt 5); ("led_brightness", PInt 40)]
  /\ system_alerts
       (run (do_POST reference_runtime (Ok (PDict stray_payload)))
          quiet_world)
     = system_alerts quiet_world.
Proof.
  repeat (split; [reflexivity|]).
  refine (proj1 (proj2
            (unknown_factory_is_stored_without_alerts reference_runtime
               stray_payload (PStr "factory_9")
               [("battery_level", PInt 5); ("led_brightness", PInt 40)]
               quiet_world eq_refl eq_refl eq_refl _))).
  discriminate.
Defined.

(** The fire payload, with a store that answers: acknowledged. *)
Lemma alerts_evaluated_only_after_persistence_witness :
  py_hashable (dict_get_or fire_payload "factory" (PStr DEFAULT_FACTORY))
  = true
  /\ _map_telemetry_data reference_runtime fire_payload
       (dict_get_or fire_payload "system" (PStr "Unknown"))
     = Ok fire_record
  /\ fire_record <> []
  /\ outcome (do_POST reference_runtime (Ok (PDict fire_payload)))
       quiet_world
     = Ok success_response.
Proof.
  assert (Hne : fire_record <> []) by discriminate.
  split; [reflexivity|]. split; [reflexivity|]. split; [exact Hne|].
  exact (proj1 (alerts_evaluated_only_after_persistence reference_runtime
                  fire_payload fire_record quiet_world eq_refl eq_refl Hne)).
Defined.

(** C1 as stated fails: the fire payload parses and maps to a non-empty
    record that reports a fire; when the store rejects the insert the
    failure is logged and the sender is acknowledged, but no alert method is
    entered and no alert is stored, whereas with a store that answers the
    same payload asserts FIRE_DETECTED. *)
Lemma persistence_failure_skips_alert_evaluation :
  let request := do_POST reference_runtime (Ok (PDict fire_payload)) in
  _map_telemetry_data reference_runtime fire_payload (PStr "Fire_Control")
  = Ok fire_record
  /\ outcome request failing_store = Ok success_response
  /\ lines_of request failing_store
     = [LogDatabaseError StoreError;
        LogSaveFailed "Fire_Control" "factory_1_data"]
  /\ calls_of request failing_store = []
  /\ system_alerts (run request failing_store) = []
  /\ ~ (exists t f s,
          In (Call_check_and_create_alerts t f s)
            (history (run request failing_store)))
  /\ asserts 1 "Fire_Control" "FIRE_DETECTED" "CRITICAL"
       (calls_of request quiet_world).
Proof.
  repeat (split; [vm_compute; reflexivity|]). split.
  - intros (t & f & s & H). vm_compute in H. exact H.
  - eexists. vm_compute. right. left. reflexivity.
Qed.

(** Examples from the mapper's table: the garage door. *)
Example garage_door_detected :
  _map_telemetry_data reference_runtime [("motion_status", PStr "DETECTED")]
    (PStr "Garage_Door")
  = Ok [("motion_detected", PBool true); ("garage_door", PNone)].
Proof. reflexivity. Qed.

Example garage_door_clear :
  _map_telemetry_data reference_runtime [("motion_status", PStr "CLEAR")]
    (PStr "Garage_Door")
  = Ok [("motion_detected", PBool false); ("garage_door", PNone)].
Proof. reflexivity. Qed.

Example garage_door_truthy_number :
  _map_telemetry_data reference_runtime [("motion_status", PInt 1)]
    (PStr "Garage_Door")
  = Ok [("motion_detected", PBool true); ("garage_door", PNone)].
Proof. reflexivity. Qed.

Example hvac_not_a_number :
  _map_telemetry_data reference_runtime [("temperature", PStr "not-a-number")]
    (PStr "HVAC_System")
  = Ok [("temperature", PNone); ("ac_state", PNone); ("ac2_state", PNone);
        ("furnace_state", PNone)].
Proof. reflexivity. Qed.

Example hvac_temperature_text :
  _map_telemetry_data reference_runtime [("temperature", PStr "35.0")]
    (PStr "HVAC_System")
  = Ok [("temperature", PFloat float_35); ("ac_state", PNone);
        ("ac2_state", PNone); ("furnace_state", PNone)].
Proof. vm_compute. reflexivity. Qed.

(** A temperature of 35.0 is reported as "35.0" in the alert. *)
Example high_temperature_message :
  calls_of
    (_check_and_create_alerts reference_runtime hvac_record (PStr "factory_1")
       "HVAC_System") quiet_world
  = [Call_check_and_create_alerts hvac_record (PStr "factory_1") "HVAC_System";
     Call_auto_acknowledge_alert 1 "HVAC_System" "FIRE_DETECTED";
     Call_create_unique_alert 1 "HIGH_TEMPERATURE" "WARNING"
       "🌡️ High Temperature: 35.0°C (Threshold: 30.0°C) | AC: ON"
       "HVAC_System"].
Proof. vm_compute. reflexivity. Qed.

(** A battery level of exactly 0 is skipped; a level of 5 asserts. *)
Example battery_zero_is_skipped :
  battery_calls reference_runtime [("battery_level", PInt 0)] 1
    "Battery_System" = Ok [].
Proof. reflexivity. Qed.

Example battery_five_asserts :
  battery_calls reference_runtime
    [("battery_level", PInt 5); ("led_brightness", PInt 40)] 1 "Battery_System"
  = Ok [Call_create_unique_alert 1 "LOW_BATTERY" "WARNING"
          "🔋 Critical Battery: 5.0% (LED: 40) | Charge Immediately!"
          "Battery_System"].
Proof. vm_compute. reflexivity. Qed.

(** ** The further theorems at work on the sample payloads *)

(** A body that does not parse: status 400, nothing touched. *)
Lemma error_response_leaves_store_untouched_witness :
  outcome (do_POST reference_runtime (Raise JSONDecodeError)) quiet_world
  = Ok (_send_error_response 400 "Invalid JSON")
  /\ status_code (_send_error_response 400 "Invalid JSON") <> 200
  /\ store_untouched quiet_world
       (run (do_POST reference_runtime (Raise JSONDecodeError)) quiet_world).
Proof.
  assert (Ho : outcome (do_POST reference_runtime (Raise JSONDecodeError))
                 quiet_world = Ok (_send_error_response 400 "Invalid JSON"))
    by reflexivity.
  assert (Hs : status_code (_send_error_response 400 "Invalid JSON") <> 200)
    by discriminate.
  split; [exact Ho|]. split; [exact Hs|].
  exact (proj1 (error_response_leaves_store_untouched reference_runtime
                  (Raise JSONDecodeError) quiet_world _ Ho Hs)).
Defined.


(** The battery reading of factory 2: stored in its table under the first
    clock reading, the factory seen at the second. *)
Lemma stored_record_is_routed_and_stamped_witness :
  py_hashable (dict_get_or battery_payload "factory" (PStr DEFAULT_FACTORY))
  = true
  /\ faults quiet_world = []
  /\ factory_data
       (run (do_POST reference_runtime (Ok (PDict battery_payload)))
          quiet_world)
     = [("factory_2_data",
         [("battery_level", PInt 80); ("led_brightness", PInt 40);
          ("system_name", PStr "Battery_System"); ("timestamp", PStr "0")])]
  /\ factories
       (run (do_POST reference_runtime (Ok (PDict battery_payload)))
          quiet_world)
     = [(1, None); (2, Some "1")].
Proof.
  split; [reflexivity|]. split; [reflexivity|].
  assert (Hne : [("battery_level", PInt 80); ("led_brightness", PInt 40)]
                <> ([] : pydict)) by discriminate.
  pose proof (stored_record_is_routed_and_stamped reference_runtime
                battery_payload _ quiet_world eq_refl eq_refl Hne eq_refl)
    as (Hd & _ & _ & _ & Hfa).
  split; [exact Hd|exact Hfa].
Defined.

(** The insert accepted, the update rejected: [False], with the row
    stored. *)
Lemma persistence_by_store_answers_witness :
  py_hashable (PStr "factory_2") = true
  /\ outcome (_insert_to_supabase "factory_2_data" hvac_record
                (PStr "factory_2")) half_failing_store = Ok false
  /\ factory_data
       (run (_insert_to_supabase "factory_2_data" hvac_record
               (PStr "factory_2")) half_failing_store)
     = [("factory_2_data", hvac_record)].
Proof.
  split; [reflexivity|].
  pose proof (persistence_by_store_answers "factory_2_data" hvac_record
                (PStr "factory_2") half_failing_store eq_refl)
    as (Ho & _ & Hd & _).
  split; [exact Ho|exact Hd].
Defined.

Lemma rejected_last_seen_update_skips_alerts_witness :
  table_get factory_lookup
    (dict_get_or battery_payload "factory" (PStr DEFAULT_FACTORY))
  = Ok (Some 2)
  /\ faults half_failing_store = [false; true]
  /\ factory_data
       (run (do_POST reference_runtime (Ok (PDict battery_payload)))
          half_failing_store)
     = [("factory_2_data",
         stamped [("battery_level", PInt 80); ("led_brightness", PInt 40)]
           (PStr "Battery_System") "0")]
  /\ calls_of (do_POST reference_runtime (Ok (PDict battery_payload)))
       half_failing_store = [].
Proof.
  split; [reflexivity|]. split; [reflexivity|].
  assert (Hne : [("battery_level", PInt 80); ("led_brightness", PInt 40)]
                <> ([] : pydict)) by discriminate.
  pose proof (rejected_last_seen_update_skips_alerts reference_runtime
                battery_payload _ 2 [] half_failing_store
                eq_refl eq_refl Hne eq_refl)
    as (_ & Hd & _ & _ & Hc & _).
  split; [exact Hd|exact Hc].
Defined.

(** An HVAC payload with its temperature as text: all four fields. *)
Lemma mapped_record_has_every_field_witness :
  In "HVAC_System" SUBSYSTEMS
  /\ _map_telemetry_data reference_runtime hvac_payload (PStr "HVAC_System")
     = Ok [("temperature", PFloat float_35); ("ac_state", PStr "ON");
           ("ac2_state", PNone); ("furnace_state", PNone)]
  /\ dict_keys [("temperature", PFloat float_35); ("ac_state", PStr "ON");
                ("ac2_state", PNone); ("furnace_state", PNone)]
     = ["temperature"; "ac_state"; "ac2_state"; "furnace_state"].
Proof.
  assert (Hin : In "HVAC_System" SUBSYSTEMS) by (simpl; tauto).
  assert (Hmap : _map_telemetry_data reference_runtime hvac_payload
                   (PStr "HVAC_System")
                 = Ok [("temperature", PFloat float_35);
                       ("ac_state", PStr "ON"); ("ac2_state", PNone);
                       ("furnace_state", PNone)])
    by (vm_compute; reflexivity).
  split; [exact Hin|]. split; [exact Hmap|].
  exact (proj1 (mapped_record_has_every_field reference_runtime hvac_payload
                  "HVAC_System" _ Hin Hmap)).
Defined.

Lemma derived_fields_are_normalized_witness :
  _map_telemetry_data reference_runtime fire_payload (PStr "Fire_Control")
  = Ok fire_record
  /\ (forall x, dict_find fire_record "siren_state" = Some x ->
        x = PStr "ON" \/ x = PStr "OFF").
Proof.
  split; [reflexivity|]. intros x.
  exact (proj1 (derived_fields_are_normalized reference_runtime fire_payload
                  (PStr "Fire_Control") fire_record eq_refl)
           "siren_state" x (or_introl eq_refl)).
Defined.

Lemma stored_temperature_never_raises_witness :
  _map_telemetry_data reference_runtime hvac_payload (PStr "HVAC_System")
  = Ok [("temperature", PFloat float_35); ("ac_state", PStr "ON");
        ("ac2_state", PNone); ("furnace_state", PNone)]
  /\ exists temp,
       temperature_of reference_runtime
         (stamped [("temperature", PFloat float_35); ("ac_state", PStr "ON");
                   ("ac2_state", PNone); ("furnace_state", PNone)]
            (PStr "HVAC_System") "0")
       = Ok temp.
Proof.
  assert (Hmap : _map_telemetry_data reference_runtime hvac_payload
                   (PStr "HVAC_System")
                 = Ok [("temperature", PFloat float_35);
                       ("ac_state", PStr "ON"); ("ac2_state", PNone);
                       ("furnace_state", PNone)])
    by (vm_compute; reflexivity).
  split; [exact Hmap|].
  destruct (stored_temperature_never_raises reference_runtime hvac_payload
              (PStr "HVAC_System") _ "0" Hmap) as [[_ H]|(f & _ & H)];
    eexists; exact H.
Defined.

(** An unknown factory key: the method is entered and enters nothing. *)
Lemma evaluation_does_not_depend_on_the_store_witness :
  known_factory (PStr "factory_9") = None
  /\ calls_of
       (_check_and_create_alerts reference_runtime fire_record
          (PStr "factory_9") "Fire_Control") failing_store
     = [Call_check_and_create_alerts fire_record (PStr "factory_9")
          "Fire_Control"].
Proof.
  split; [reflexivity|].
  exact (proj1 (proj1 (proj2 (proj2
           (evaluation_does_not_depend_on_the_store reference_runtime
              fire_record (PStr "factory_9") "Fire_Control" failing_store
              quiet_world))) eq_refl)).
Defined.

(** A record without a fire status resolves the open fire alert; with a
    runtime that upper-cases the dotless i, a status spelt with one opens
    an alert. *)
Lemma fire_alert_follows_the_reading_witness :
  table_get factory_lookup (PStr "factory_1") = Ok (Some 1)
  /\ faults burning_world = []
  /\ ~ is_fire (fire_status_of reference_runtime hvac_record)
  /\ open_count 1 "Fire_Control" "FIRE_DETECTED"
       (system_alerts
          (run (_check_and_create_alerts reference_runtime hvac_record
                  (PStr "factory_1") "Fire_Control") burning_world))
     = 0%nat
  /\ faults quiet_world = []
  /\ is_fire (fire_status_of wide_runtime dotless_fire_record)
  /\ open_count 1 "Fire_Control" "FIRE_DETECTED"
       (system_alerts
          (run (_check_and_create_alerts wide_runtime dotless_fire_record
                  (PStr "factory_1") "Fire_Control") quiet_world))
     = 1%nat.
Proof.
  assert (Hsafe : ~ is_fire (fire_status_of reference_runtime hvac_record)).
  { rewrite <- fire_condition. discriminate. }
  assert (Hwide : is_fire (fire_status_of wide_runtime dotless_fire_record)).
  { apply fire_condition. reflexivity. }
  split; [reflexivity|]. split; [reflexivity|]. split; [exact Hsafe|].
  split; [|split; [reflexivity|split; [exact Hwide|]]].
  - exact (proj1 (proj2 (fire_alert_follows_the_reading reference_runtime
                           hvac_record (PStr "factory_1") 1 "Fire_Control"
                           burning_world eq_refl eq_refl)) Hsafe).
  - exact (proj1 (fire_alert_follows_the_reading wide_runtime
                    dotless_fire_record (PStr "factory_1") 1 "Fire_Control"
                    quiet_world eq_refl eq_refl) Hwide).
Defined.

(** The fire payload, from empty tables: one open fire alert; and with a
    runtime that upper-cases the fi ligature, a status that begins with one
    opens an alert too. *)
Lemma fire_request_sets_the_fire_alert_witness :
  dict_get_or fire_payload "system" (PStr "Unknown") = PStr "Fire_Control"
  /\ table_get factory_lookup
       (dict_get_or fire_payload "factory" (PStr DEFAULT_FACTORY))
     = Ok (Some 1)
  /\ faults quiet_world = []
  /\ is_fire
       (py_upper reference_runtime
          (py_str reference_runtime (dict_get fire_payload "status")))
  /\ open_count 1 "Fire_Control" "FIRE_DETECTED"
       (system_alerts
          (run (do_POST reference_runtime (Ok (PDict fire_payload)))
             quiet_world))
     = 1%nat
  /\ is_fire
       (py_upper wide_runtime
          (py_str wide_runtime (dict_get ligature_fire_payload "status")))
  /\ open_count 1 "Fire_Control" "FIRE_DETECTED"
       (system_alerts
          (run (do_POST wide_runtime (Ok (PDict ligature_fire_payload)))
             quiet_world))
     = 1%nat.
Proof.
  assert (Hfire : is_fire
                    (py_upper reference_runtime
                       (py_str reference_runtime
                          (dict_get fire_payload "status")))).
  { apply fire_condition. reflexivity. }
  assert (Hwide : is_fire
                    (py_upper wide_runtime
                       (py_str wide_runtime
                          (dict_get ligature_fire_payload "status")))).
  { apply fire_condition. reflexivity. }
  repeat (split; [reflexivity|]). split; [exact Hfire|].
  split; [|split; [exact Hwide|]].
  - exact (proj1 (fire_request_sets_the_fire_alert reference_runtime
                    fire_payload 1 quiet_world eq_refl eq_refl eq_refl) Hfire).
  - exact (proj1 (fire_request_sets_the_fire_alert wide_runtime
                    ligature_fire_payload 1 quiet_world eq_refl eq_refl
                    eq_refl) Hwide).
Defined.

(** A reading of 10.0 while a HIGH_TEMPERATURE alert is open: it stays
    open. *)
Lemma opposite_temperature_alert_stays_open_witness :
  temperature_of reference_runtime cold_record = Ok (Some float_10)
  /\ SFltb float_10 (temperature_low ALERT_THRESHOLDS) = true
  /\ open_count 1 "HVAC_System" "HIGH_TEMPERATURE"
       (system_alerts
          (run (_check_and_create_alerts reference_runtime cold_record
                  (PStr "factory_1") "HVAC_System") heated_world))
     = 1%nat.
Proof.
  split; [reflexivity|]. split; [reflexivity|].
  exact (proj1 (opposite_temperature_alert_stays_open reference_runtime
                  cold_record (PStr "factory_1") "HVAC_System" float_10
                  heated_world eq_refl) eq_refl 1 "HVAC_System").
Defined.

(** A request reporting 35.0: one open HIGH_TEMPERATURE alert. *)
Lemma hvac_request_sets_the_temperature_alerts_witness :
  dict_get_or hot_payload "system" (PStr "Unknown") = PStr "HVAC_System"
  /\ table_get factory_lookup
       (dict_get_or hot_payload "factory" (PStr DEFAULT_FACTORY))
     = Ok (Some 1)
  /\ faults quiet_world = []
  /\ dict_get hot_payload "temperature" <> PNone
  /\ py_float reference_runtime (dict_get hot_payload "temperature")
     = Ok float_35
  /\ SFltb (temperature_high ALERT_THRESHOLDS) float_35 = true
  /\ open_count 1 "HVAC_System" "HIGH_TEMPERATURE"
       (system_alerts
          (run (do_POST reference_runtime (Ok (PDict hot_payload)))
             quiet_world))
     = 1%nat.
Proof.
  assert (Hne : dict_get hot_payload "temperature" <> PNone) by discriminate.
  repeat (split; [reflexivity|]). split; [exact Hne|].
  repeat (split; [reflexivity|]).
  exact (proj1 (proj1 (hvac_request_sets_the_temperature_alerts
                         reference_runtime hot_payload 1 float_35 quiet_world
                         eq_refl eq_refl eq_refl Hne eq_refl) eq_refl)).
Defined.

(** A battery level of 5 asserts LOW_BATTERY. *)
Lemma low_battery_rule_witness :
  temperature_of reference_runtime low_battery_record = Ok None
  /\ py_truthy (dict_get low_battery_record "battery_level") = true
  /\ py_lt_float (dict_get low_battery_record "battery_level")
       (battery_low ALERT_THRESHOLDS) = Ok true
  /\ py_format_1f (dict_get low_battery_record "battery_level") = Ok "5.0"
  /\ asserts 1 "Battery_System" "LOW_BATTERY" "WARNING"
       (calls_of
          (alert_rules reference_runtime low_battery_record 1 "Battery_System")
          quiet_world).
Proof.
  assert (Hfmt : py_format_1f (dict_get low_battery_record "battery_level")
                 = Ok "5.0") by (vm_compute; reflexivity).
  split; [reflexivity|]. split; [reflexivity|]. split; [reflexivity|].
  split; [exact Hfmt|].
  exact (proj1 (proj1 (proj2 (proj2
           (low_battery_rule reference_runtime low_battery_record 1
              "Battery_System" quiet_world None eq_refl)))
           "5.0" eq_refl eq_refl Hfmt)).
Defined.

(** A battery level sent as text: no alert for the denied access in the same
    record. *)
Lemma unordered_battery_level_aborts_evaluation_witness :
  table_get factory_lookup (PStr "factory_1") = Ok (Some 1)
  /\ temperature_of reference_runtime text_battery_record = Ok None
  /\ py_truthy (dict_get text_battery_record "battery_level") = true
  /\ py_lt_float (dict_get text_battery_record "battery_level")
       (battery_low ALERT_THRESHOLDS) = Raise TypeError
  /\ dict_get text_battery_record "access_log" = PStr "DENIED"
  /\ open_count 1 "Safe_Room" "UNAUTHORIZED_ACCESS"
       (system_alerts
          (run (_check_and_create_alerts reference_runtime text_battery_record
                  (PStr "factory_1") "Safe_Room") quiet_world))
     = 0%nat.
Proof.
  repeat (split; [reflexivity|]).
  exact (proj2 (proj2 (proj2
           (unordered_battery_level_aborts_evaluation reference_runtime
              text_battery_record (PStr "factory_1") 1 "Safe_Room" None
              quiet_world eq_refl eq_refl eq_refl eq_refl))) 1 "Safe_Room").
Defined.

(** "denied" in lower case adds no alert. *)
Lemma only_denied_access_adds_an_alert_witness :
  dict_get lowercase_denied_record "access_log" <> PStr "DENIED"
  /\ open_count 1 "Safe_Room" "UNAUTHORIZED_ACCESS"
       (system_alerts
          (run (_check_and_create_alerts reference_runtime
                  lowercase_denied_record (PStr "factory_1") "Safe_Room")
             quiet_world))
     = 0%nat.
Proof.
  assert (Hne : dict_get lowercase_denied_record "access_log" <> PStr "DENIED")
    by discriminate.
  split; [exact Hne|].
  exact (only_denied_access_adds_an_alert reference_runtime
           lowercase_denied_record (PStr "factory_1") "Safe_Room" quiet_world
           Hne 1 "Safe_Room").
Defined.

(** The same denied access sent twice: two open alerts. *)
Lemma denied_requests_insert_each_time_witness :
  dict_get_or denied_payload "system" (PStr "Unknown") = PStr "Safe_Room"
  /\ dict_get denied_payload "access" = PStr "DENIED"
  /\ table_get factory_lookup
       (dict_get_or denied_payload "factory" (PStr DEFAULT_FACTORY))
     = Ok (Some 2)
  /\ faults quiet_world = []
  /\ open_count 2 "Safe_Room" "UNAUTHORIZED_ACCESS"
       (system_alerts
          (run (serve reference_runtime
                  [Ok (PDict denied_payload); Ok (PDict denied_payload)])
             quiet_world))
     = 2%nat.
Proof.
  repeat (split; [reflexivity|]).
  exact (proj2 (denied_requests_insert_each_time reference_runtime
                  denied_payload 2 quiet_world eq_refl eq_refl eq_refl
                  eq_refl)).
Defined.

(** Resolving the open fire alert. *)
Lemma clear_resolves_every_open_alert_witness :
  faults burning_world = []
  /\ system_alerts
       (run (_auto_acknowledge_alert 1 "Fire_Control" "FIRE_DETECTED")
          burning_world)
     = [resolved "0" open_fire_alert].
Proof.
  split; [reflexivity|].
  exact (proj1 (proj2 (proj2 (proj2
           (clear_resolves_every_open_alert 1 "Fire_Control" "FIRE_DETECTED"
              burning_world))) eq_refl)).
Defined.

(** Resolving it and asserting again: a second row. *)
Lemma alert_after_clear_is_a_new_row_witness :
  faults burning_world = []
  /\ system_alerts
       (run (reconcile_all
               [Clear 1 "Fire_Control" "FIRE_DETECTED";
                Assert 1 "FIRE_DETECTED" "CRITICAL" "again" "Fire_Control"])
          burning_world)
     = [resolved "0" open_fire_alert;
        mkAlert 2 1 "FIRE_DETECTED" "CRITICAL" "again" "Fire_Control" false
          "1" None None].
Proof.
  split; [reflexivity|].
  exact (proj1 (alert_after_clear_is_a_new_row 1 "FIRE_DETECTED" "CRITICAL"
                  "again" "Fire_Control" burning_world eq_refl)).
Defined.

(** A new message for the open fire alert, the update rejected: the row
    keeps its message. *)
Lemma rejected_assert_writes_nothing_witness :
  first_fails burning_world_rejecting_write = false
  /\ second_fails burning_world_rejecting_write = true
  /\ system_alerts
       (run (_create_unique_alert 1 "FIRE_DETECTED" "CRITICAL" "worse"
               "Fire_Control") burning_world_rejecting_write)
     = [open_fire_alert].
Proof.
  split; [reflexivity|]. split; [reflexivity|].
  refine (proj1 (proj2 (proj2 (proj2
            (rejected_assert_writes_nothing 1 "FIRE_DETECTED" "CRITICAL"
               "worse" "Fire_Control" burning_world_rejecting_write))
            eq_refl eq_refl) _)).
  intros first rest [= <- <-]. discriminate.
Defined.

(** Three requests, one of them unparsable, with a fire alert open. *)
Lemma requests_keep_at_most_one_open_alert_witness :
  "FIRE_DETECTED" <> "UNAUTHORIZED_ACCESS"
  /\ (open_count 1 "Fire_Control" "FIRE_DETECTED"
        (system_alerts burning_world) <= 1)%nat
  /\ (open_count 1 "Fire_Control" "FIRE_DETECTED"
        (system_alerts
           (run (serve reference_runtime
                   [Ok (PDict fire_payload); Raise JSONDecodeError;
                    Ok (PDict fire_payload)]) burning_world)) <= 1)%nat.
Proof.
  assert (Hty : "FIRE_DETECTED" <> "UNAUTHORIZED_ACCESS") by discriminate.
  assert (Hle : (open_count 1 "Fire_Control" "FIRE_DETECTED"
                   (system_alerts burning_world) <= 1)%nat)
    by (apply Nat.le_refl).
  split; [exact Hty|]. split; [exact Hle|].
  exact (requests_keep_at_most_one_open_alert reference_runtime _ 1
           "Fire_Control" "FIRE_DETECTED" burning_world Hty Hle).
Defined.

(** The open fire alert is still the first row after two fire requests. *)
Lemma alerts_are_never_deleted_or_reopened_witness :
  nth_error (system_alerts burning_world) 0 = Some open_fire_alert
  /\ exists r',
       nth_error
         (system_alerts
            (run (serve reference_runtime
                    [Ok (PDict fire_payload); Ok (PDict fire_payload)])
               burning_world)) 0 = Some r'
       /\ row_evolves open_fire_alert r'.
Proof.
  split; [reflexivity|].
  exact (proj2 (proj2
           (alerts_are_never_deleted_or_reopened reference_runtime
              [Ok (PDict fire_payload); Ok (PDict fire_payload)]
              burning_world)) 0%nat open_fire_alert eq_refl).
Defined.

(** The resolved fire alert is untouched by two more fire requests. *)
Lemma acknowledged_alerts_are_never_modified_witness :
  well_keyed resolved_world
  /\ In (resolved "t1" open_fire_alert)
       (system_alerts
          (run (serve reference_runtime
                  [Ok (PDict fire_payload); Ok (PDict fire_payload)])
             resolved_world)).
Proof.
  assert (Hk : well_keyed resolved_world).
  { split; simpl.
    - constructor; [intros []|constructor].
    - constructor; [simpl; lia|constructor]. }
  split; [exact Hk|].
  refine (proj2 (acknowledged_alerts_are_never_modified reference_runtime _
                   resolved_world Hk) (resolved "t1" open_fire_alert) _
            eq_refl).
  simpl. now left.
Defined.
